(** * Lap recording, session-best bookkeeping, sector tracking and spotter
      of the telemetry services (server/telemetry_service.py, server/lmu_service.py)

    Shallow embedding.  Python floats are modelled by exact rationals [Q]
    where the code only meets numbers (every finite float is a
    rational), and by [float], which adds the infinities and NaN, where a
    float of any kind can reach the code: the lap times given to the lap
    storage (module [FloatStorage]), the lap distance of the sector
    functions and the track wetness.  Wall-clock readings
    ([time.time()]) and fresh identifiers ([uuid.uuid4()]) are inputs of
    the operations that read them.  A Python [dict] iterated in insertion
    order is an association list with unique keys. *)

From Stdlib Require Import ZArith QArith Qround Lqa Lia List Ascii String Bool.
From Stdlib Require Import Sorted Permutation.
From stdpp Require Import base option list gmap strings.
Import ListNotations.

Local Open Scope Z_scope.

(* ------------------------------------------------------------------ *)
(** ** Numbers *)

(** [x < y] and [x <= y] on floats, as booleans. *)
Definition Qleb (x y : Q) : bool := Qle_bool x y.
Definition Qltb (x y : Q) : bool := negb (Qle_bool y x).

(** A float that may be [float('inf')]. *)
Inductive pyfloat : Type :=
| Fin (q : Q)
| PosInf.

(** [x < y] for a finite [x] and a possibly infinite [y]. *)
Definition lt_pyfloat (x : Q) (y : pyfloat) : bool :=
  match y with
  | Fin q => Qltb x q
  | PosInf => true
  end.

(** [y <= x] on possibly infinite floats, as a proposition. *)
Definition pyfloat_le (y x : pyfloat) : Prop :=
  match y, x with
  | _, PosInf => True
  | Fin a, Fin b => (a <= b)%Q
  | PosInf, Fin _ => False
  end.

(** A Python float as its comparisons see it: a number, one of the two
    infinities, or NaN, which is neither less than, equal to nor greater
    than any float. *)
Inductive float : Type :=
| Finite (q : Q)
| PlusInf
| MinusInf
| NaN.

Coercion Finite : Q >-> float.

(** [x < y] on floats. *)
Definition float_ltb (x y : float) : bool :=
  match x, y with
  | Finite a, Finite b => Qltb a b
  | Finite _, PlusInf => true
  | MinusInf, Finite _ => true
  | MinusInf, PlusInf => true
  | _, _ => false
  end.

(** [x <= y] on floats. *)
Definition float_leb (x y : float) : bool :=
  match x, y with
  | Finite a, Finite b => Qleb a b
  | Finite _, PlusInf => true
  | MinusInf, Finite _ => true
  | MinusInf, PlusInf => true
  | PlusInf, PlusInf => true
  | MinusInf, MinusInf => true
  | _, _ => false
  end.

Definition is_nan (x : float) : bool :=
  match x with NaN => true | _ => false end.

(** [x - y] on floats. *)
Definition float_sub (x y : float) : float :=
  match x, y with
  | NaN, _ | _, NaN => NaN
  | Finite a, Finite b => Finite (a - b)
  | PlusInf, PlusInf | MinusInf, MinusInf => NaN
  | PlusInf, _ | _, MinusInf => PlusInf
  | MinusInf, _ | _, PlusInf => MinusInf
  end.

(** Round to the nearest integer, ties to the even one. *)
Definition round_half_even (q : Q) : Z :=
  let f := Qfloor q in
  match (q - inject_Z f ?= 1 # 2)%Q with
  | Lt => f
  | Gt => f + 1
  | Eq => if Z.even f then f else f + 1
  end.

(** Python's [round(x, ndigits)]. *)
Definition py_round (q : Q) (ndigits : nat) : Q :=
  let scale := Z.to_pos (10 ^ Z.of_nat ndigits) in
  Qmake (round_half_even (q * inject_Z (Zpos scale))) scale.

(** [round(x, ndigits)] on floats: an infinity and NaN are returned as
    they are. *)
Definition float_round (x : float) (ndigits : nat) : float :=
  match x with
  | Finite q => Finite (py_round q ndigits)
  | _ => x
  end.

(** Python's truthiness of a string: the empty string is falsy. *)
Definition str_truthy (s : string) : bool := negb (String.eqb s "").

(** [x or default] on an optional string. *)
Definition str_or (x : option string) (d : string) : string :=
  match x with
  | Some s => if str_truthy s then s else d
  | None => d
  end.

(* ------------------------------------------------------------------ *)
(** ** Insertion-ordered dictionaries with string keys *)

Section Dict.
Context {V : Type}.

Definition dict := list (string * V).

Fixpoint dict_get (k : string) (d : dict) : option V :=
  match d with
  | [] => None
  | (k', v) :: r => if String.eqb k k' then Some v else dict_get k r
  end.

Definition dict_mem (k : string) (d : dict) : bool :=
  match dict_get k d with Some _ => true | None => false end.

(** [d[k] = v]: an existing key keeps its position. *)
Fixpoint dict_set (k : string) (v : V) (d : dict) : dict :=
  match d with
  | [] => [(k, v)]
  | (k', v') :: r =>
      if String.eqb k k' then (k, v) :: r else (k', v') :: dict_set k v r
  end.

(** [del d[k]] for a key that is present. *)
Fixpoint dict_del (k : string) (d : dict) : dict :=
  match d with
  | [] => []
  | (k', v') :: r =>
      if String.eqb k k' then r else (k', v') :: dict_del k r
  end.

(** In-place mutation of the object stored under [k]. *)
Fixpoint dict_alter (f : V -> V) (k : string) (d : dict) : dict :=
  match d with
  | [] => []
  | (k', v') :: r =>
      if String.eqb k k' then (k', f v') :: r else (k', v') :: dict_alter f k r
  end.

Definition dict_keys (d : dict) : list string := map fst d.
Definition dict_values (d : dict) : list V := map snd d.
End Dict.
Arguments dict : clear implicits.

(* ------------------------------------------------------------------ *)
(** ** Lap telemetry data structures *)

Record TelemetryPoint : Type := mkPoint {
  distancePct : Q;
  speed : Q;
  throttle : Q;
  brake : Q;
  gear : Z;
  rpm : Q;
  steeringAngle : Q
}.

(** [asdict(p)]: the dictionary with the same seven entries. *)
Definition asdict (p : TelemetryPoint) : TelemetryPoint := p.

Record LapData : Type := mkLap {
  id : string;
  lapNumber : Z;
  lapTime : Q;
  isSessionBest : bool;
  trackName : string;
  carName : string;
  completedAt : Z;
  points : list TelemetryPoint;
  deltaToSessionBest : Q
}.

Definition set_isSessionBest (b : bool) (l : LapData) : LapData :=
  mkLap (id l) (lapNumber l) (lapTime l) b (trackName l) (carName l)
        (completedAt l) (points l) (deltaToSessionBest l).

Definition MAX_STORED_LAPS : Z := 10.
Definition MIN_LAP_POINTS : nat := 100.
Definition LAP_CAPTURE_INTERVAL : Q := 5 # 100.

Record LapStorageService : Type := mkStorage {
  max_laps : Z;
  laps : dict LapData;
  session_best_id : option string;
  session_best_time : pyfloat;
  current_lap_points : list TelemetryPoint;
  current_lap_number : Z;
  recording_active : bool;
  last_capture_time : Q;
  last_distance_pct : Q;
  pending_lap_points : list TelemetryPoint;
  pending_lap_number : Z;
  pending_lap_track : string;
  pending_lap_car : string;
  pending_lap_created_at : Q
}.

(** Field assignments [self.f = v]. *)
Definition set_laps v (s : LapStorageService) :=
  mkStorage (max_laps s) v (session_best_id s) (session_best_time s)
    (current_lap_points s) (current_lap_number s) (recording_active s)
    (last_capture_time s) (last_distance_pct s) (pending_lap_points s)
    (pending_lap_number s) (pending_lap_track s) (pending_lap_car s)
    (pending_lap_created_at s).
Definition set_session_best_id v (s : LapStorageService) :=
  mkStorage (max_laps s) (laps s) v (session_best_time s)
    (current_lap_points s) (current_lap_number s) (recording_active s)
    (last_capture_time s) (last_distance_pct s) (pending_lap_points s)
    (pending_lap_number s) (pending_lap_track s) (pending_lap_car s)
    (pending_lap_created_at s).
Definition set_session_best_time v (s : LapStorageService) :=
  mkStorage (max_laps s) (laps s) (session_best_id s) v
    (current_lap_points s) (current_lap_number s) (recording_active s)
    (last_capture_time s) (last_distance_pct s) (pending_lap_points s)
    (pending_lap_number s) (pending_lap_track s) (pending_lap_car s)
    (pending_lap_created_at s).
Definition set_current_lap_points v (s : LapStorageService) :=
  mkStorage (max_laps s) (laps s) (session_best_id s) (session_best_time s)
    v (current_lap_number s) (recording_active s)
    (last_capture_time s) (last_distance_pct s) (pending_lap_points s)
    (pending_lap_number s) (pending_lap_track s) (pending_lap_car s)
    (pending_lap_created_at s).
Definition set_current_lap_number v (s : LapStorageService) :=
  mkStorage (max_laps s) (laps s) (session_best_id s) (session_best_time s)
    (current_lap_points s) v (recording_active s)
    (last_capture_time s) (last_distance_pct s) (pending_lap_points s)
    (pending_lap_number s) (pending_lap_track s) (pending_lap_car s)
    (pending_lap_created_at s).
Definition set_recording_active v (s : LapStorageService) :=
  mkStorage (max_laps s) (laps s) (session_best_id s) (session_best_time s)
    (current_lap_points s) (current_lap_number s) v
    (last_capture_time s) (last_distance_pct s) (pending_lap_points s)
    (pending_lap_number s) (pending_lap_track s) (pending_lap_car s)
    (pending_lap_created_at s).
Definition set_last_distance_pct v (s : LapStorageService) :=
  mkStorage (max_laps s) (laps s) (session_best_id s) (session_best_time s)
    (current_lap_points s) (current_lap_number s) (recording_active s)
    (last_capture_time s) v (pending_lap_points s)
    (pending_lap_number s) (pending_lap_track s) (pending_lap_car s)
    (pending_lap_created_at s).
Definition set_pending_lap_points v (s : LapStorageService) :=
  mkStorage (max_laps s) (laps s) (session_best_id s) (session_best_time s)
    (current_lap_points s) (current_lap_number s) (recording_active s)
    (last_capture_time s) (last_distance_pct s) v
    (pending_lap_number s) (pending_lap_track s) (pending_lap_car s)
    (pending_lap_created_at s).
Definition set_pending_lap_number v (s : LapStorageService) :=
  mkStorage (max_laps s) (laps s) (session_best_id s) (session_best_time s)
    (current_lap_points s) (current_lap_number s) (recording_active s)
    (last_capture_time s) (last_distance_pct s) (pending_lap_points s)
    v (pending_lap_track s) (pending_lap_car s)
    (pending_lap_created_at s).
Definition set_pending_lap_track v (s : LapStorageService) :=
  mkStorage (max_laps s) (laps s) (session_best_id s) (session_best_time s)
    (current_lap_points s) (current_lap_number s) (recording_active s)
    (last_capture_time s) (last_distance_pct s) (pending_lap_points s)
    (pending_lap_number s) v (pending_lap_car s)
    (pending_lap_created_at s).
Definition set_pending_lap_car v (s : LapStorageService) :=
  mkStorage (max_laps s) (laps s) (session_best_id s) (session_best_time s)
    (current_lap_points s) (current_lap_number s) (recording_active s)
    (last_capture_time s) (last_distance_pct s) (pending_lap_points s)
    (pending_lap_number s) (pending_lap_track s) v
    (pending_lap_created_at s).
Definition set_pending_lap_created_at v (s : LapStorageService) :=
  mkStorage (max_laps s) (laps s) (session_best_id s) (session_best_time s)
    (current_lap_points s) (current_lap_number s) (recording_active s)
    (last_capture_time s) (last_distance_pct s) (pending_lap_points s)
    (pending_lap_number s) (pending_lap_track s) (pending_lap_car s)
    v.

(** [LapStorageService] on lap times that are numbers: [lap_time] is a
    rational and [session_best_time] a rational or [float('inf')].
    Module [FloatStorage] below is the class on lap times of any kind,
    and on a lap time that is a number it computes what this module
    computes. *)
Module IRacing.

(** [lap_id != self.session_best_id]. *)
Definition id_differs (lap_id : string) (best : option string) : bool :=
  match best with
  | Some b => negb (String.eqb lap_id b)
  | None => true
  end.

(** [lap.completedAt < oldest_time], where [oldest_time] starts at
    [float('inf')] ([None]). *)
Definition older_than (t : Z) (oldest_time : option Z) : bool :=
  match oldest_time with
  | Some o => t <? o
  | None => true
  end.

(** The [for] loop of [_enforce_limit]: the running pair
    [(oldest_id, oldest_time)] over the items in dictionary order. *)
Fixpoint find_oldest (best : option string) (items : dict LapData)
    (oldest_id : option string) (oldest_time : option Z)
  : option string * option Z :=
  match items with
  | [] => (oldest_id, oldest_time)
  | (lap_id, lap) :: r =>
      if id_differs lap_id best && older_than (completedAt lap) oldest_time
      then find_oldest best r (Some lap_id) (Some (completedAt lap))
      else find_oldest best r oldest_id oldest_time
  end.

(** [if oldest_id:]. *)
Definition opt_truthy (o : option string) : bool :=
  match o with
  | Some s => str_truthy s
  | None => false
  end.

(** [LapStorageService.__init__]. *)
Definition init (max_laps : Z) : LapStorageService :=
  mkStorage max_laps [] None PosInf [] 0 false 0%Q 0%Q [] 0 "" "" 0%Q.

Definition start_lap (self : LapStorageService) (lap_number : Z)
  : LapStorageService :=
  set_last_distance_pct 0%Q
    (set_recording_active true
       (set_current_lap_number lap_number
          (set_current_lap_points [] self))).

Definition add_point (self : LapStorageService) (point : TelemetryPoint)
  : LapStorageService :=
  if negb (recording_active self) then self
  else if Qleb (last_distance_pct self) (distancePct point)
          || Qltb (distancePct point) (5 # 100)
  then set_last_distance_pct (distancePct point)
         (set_current_lap_points (current_lap_points self ++ [point]) self)
  else self.

(** The [while] loop of [_enforce_limit]; every iteration that does not
    leave the loop deletes one lap, so [length laps] iterations suffice. *)
Fixpoint enforce_limit_loop (fuel : nat) (self : LapStorageService)
  : LapStorageService :=
  match fuel with
  | O => self
  | S fuel' =>
      if max_laps self <? Z.of_nat (length (laps self)) then
        let '(oldest_id, _) :=
          find_oldest (session_best_id self) (laps self) None None in
        if opt_truthy oldest_id then
          match oldest_id with
          | Some k => enforce_limit_loop fuel' (set_laps (dict_del k (laps self)) self)
          | None => self
          end
        else self
      else self
  end.

Definition _enforce_limit (self : LapStorageService) : LapStorageService :=
  enforce_limit_loop (length (laps self)) self.

(** The block "Update session best" shared by both completion paths. *)
Definition update_session_best (self : LapStorageService)
    (is_session_best : bool) (lap_id : string) (lap_time : Q)
  : LapStorageService :=
  if is_session_best then
    let self1 :=
      match session_best_id self with
      | Some b =>
          if str_truthy b && dict_mem b (laps self)
          then set_laps (dict_alter (set_isSessionBest false) b (laps self)) self
          else self
      | None => self
      end in
    set_session_best_time (Fin lap_time) (set_session_best_id (Some lap_id) self1)
  else self.

(** [deltaToSessionBest] as computed in the [LapData(...)] call. *)
Definition delta_to_best (lap_time : Q) (best : pyfloat) : Q :=
  match best with
  | Fin b => py_round (lap_time - b) 3
  | PosInf => 0%Q
  end.

(** [complete_lap]; [uuid] is [str(uuid.uuid4())[:8]] and [time_ms] is
    [int(time.time() * 1000)] as read on the success path. *)
Definition complete_lap (self : LapStorageService) (uuid : string) (time_ms : Z)
    (lap_time : Q) (track_name car_name : string)
  : option LapData * LapStorageService :=
  if negb (recording_active self)
     || (length (current_lap_points self) <? 100)%nat
  then (None, set_recording_active false self)
  else if Qltb lap_time 10 || Qltb 1200 lap_time
  then (None, set_current_lap_points [] (set_recording_active false self))
  else
    let lap_id := uuid in
    let is_session_best := lt_pyfloat lap_time (session_best_time self) in
    let lap :=
      mkLap lap_id (current_lap_number self) (py_round lap_time 3)
            is_session_best track_name car_name time_ms
            (map asdict (current_lap_points self))
            (delta_to_best lap_time (session_best_time self)) in
    let self1 := update_session_best self is_session_best lap_id lap_time in
    let self2 := set_laps (dict_set lap_id lap (laps self1)) self1 in
    let self3 := _enforce_limit self2 in
    (Some lap, set_current_lap_points [] (set_recording_active false self3)).

Definition save_pending_lap (self : LapStorageService) (uuid : string)
    (time_ms : Z) (lap_time : Q)
  : option LapData * LapStorageService :=
  if (length (pending_lap_points self) =? 0)%nat
     || (length (pending_lap_points self) <? 100)%nat
  then (None, set_pending_lap_points [] self)
  else if Qltb lap_time 10 || Qltb 1200 lap_time
  then (None, set_pending_lap_number 0 (set_pending_lap_points [] self))
  else
    let lap_id := uuid in
    let is_session_best := lt_pyfloat lap_time (session_best_time self) in
    let lap :=
      mkLap lap_id (pending_lap_number self) (py_round lap_time 3)
            is_session_best (pending_lap_track self) (pending_lap_car self)
            time_ms (map asdict (pending_lap_points self))
            (delta_to_best lap_time (session_best_time self)) in
    let self1 := update_session_best self is_session_best lap_id lap_time in
    let self2 := set_laps (dict_set lap_id lap (laps self1)) self1 in
    let self3 :=
      set_pending_lap_car ""
        (set_pending_lap_track ""
           (set_pending_lap_number 0 (set_pending_lap_points [] self2))) in
    (Some lap, _enforce_limit self3).

Definition get_lap (self : LapStorageService) (lap_id : string)
  : option LapData :=
  dict_get lap_id (laps self).

Definition get_session_best (self : LapStorageService) : option LapData :=
  match session_best_id self with
  | Some b => if str_truthy b then dict_get b (laps self) else None
  | None => None
  end.

Definition delete_lap (self : LapStorageService) (lap_id : string)
  : bool * LapStorageService :=
  if negb (id_differs lap_id (session_best_id self)) then (false, self)
  else if dict_mem lap_id (laps self)
  then (true, set_laps (dict_del lap_id (laps self)) self)
  else (false, self).

Definition reset_session (self : LapStorageService) : LapStorageService :=
  set_pending_lap_created_at 0%Q
    (set_pending_lap_car ""
       (set_pending_lap_track ""
          (set_pending_lap_number 0
             (set_pending_lap_points []
                (set_recording_active false
                   (set_current_lap_points []
                      (set_session_best_time PosInf
                         (set_session_best_id None
                            (set_laps [] self))))))))).

Definition clear_pending_lap (self : LapStorageService) : LapStorageService :=
  set_pending_lap_created_at 0%Q
    (set_pending_lap_car ""
       (set_pending_lap_track ""
          (set_pending_lap_number 0
             (set_pending_lap_points [] self)))).

End IRacing.

(* ------------------------------------------------------------------ *)
(** ** Opponent sector tracking *)

(** The dictionary [{'s1': .., 's2': .., 's3': ..}]. *)
Record SectorTimes : Type := mkSectorTimes {
  s1 : option Q;
  s2 : option Q;
  s3 : option Q
}.

Record CarState : Type := mkCarState {
  last_dist : Q;
  last_sector : Z;
  sector_times : SectorTimes;
  sector_start_time : Q;
  last_session_time : Q
}.

Record OpponentSectorTracker : Type := mkTracker {
  car_states : gmap nat CarState;
  max_cars : nat
}.

(** [state['sector_times'][f's{n}'] = v] for a sector number [n] in 1..3
    (the tracker never holds another one). *)
Definition set_sector_time (n : Z) (v : Q) (t : SectorTimes) : SectorTimes :=
  if n =? 1 then mkSectorTimes (Some v) (s2 t) (s3 t)
  else if n =? 2 then mkSectorTimes (s1 t) (Some v) (s3 t)
  else if n =? 3 then mkSectorTimes (s1 t) (s2 t) (Some v)
  else t.

Definition set_sector_times v (c : CarState) :=
  mkCarState (last_dist c) (last_sector c) v (sector_start_time c)
             (last_session_time c).
Definition set_sector_start_time v (c : CarState) :=
  mkCarState (last_dist c) (last_sector c) (sector_times c) v
             (last_session_time c).
Definition set_last_sector v (c : CarState) :=
  mkCarState (last_dist c) v (sector_times c) (sector_start_time c)
             (last_session_time c).
Definition set_last_dist v (c : CarState) :=
  mkCarState v (last_sector c) (sector_times c) (sector_start_time c)
             (last_session_time c).
Definition set_last_session_time v (c : CarState) :=
  mkCarState (last_dist c) (last_sector c) (sector_times c)
             (sector_start_time c) v.

Definition _get_sector_from_dist (dist_pct : float) : Z :=
  if float_ltb dist_pct (Finite (33 # 100)) then 1
  else if float_ltb dist_pct (Finite (66 # 100)) then 2
  else 3.
Arguments _get_sector_from_dist dist_pct%_Q.

(** The sanity-checked recording of a closed sector. *)
Definition close_sector (key : Z) (session_time : Q) (state : CarState)
  : CarState :=
  let sector_time := (session_time - sector_start_time state)%Q in
  let state1 :=
    if Qltb 0 sector_time && Qltb sector_time 300
    then set_sector_times
           (set_sector_time key (py_round sector_time 3) (sector_times state))
           state
    else state in
  set_sector_start_time session_time state1.

(** Body of the loop of [update] for a car already known. *)
Definition update_known (state : CarState) (dist_pct session_time : Q)
  : CarState :=
  let last_sector_ := last_sector state in
  let current_sector := _get_sector_from_dist dist_pct in
  let state1 :=
    if negb (current_sector =? last_sector_) then
      let state' :=
        if (last_sector_ =? 3) && (current_sector =? 1)
        then close_sector 3 session_time state
        else if current_sector =? last_sector_ + 1
        then close_sector last_sector_ session_time state
        else state in
      set_last_sector current_sector state'
    else state in
  set_last_session_time session_time (set_last_dist dist_pct state1).

(** One iteration of the loop of [update], for [car_idx]. *)
Definition update_car (session_time : Q) (lap_dist_pcts : list Q)
    (track_surfaces : list Z) (car_states : gmap nat CarState) (car_idx : nat)
  : gmap nat CarState :=
  match lap_dist_pcts !! car_idx with
  | None => car_states
  | Some dist_pct =>
      if Qltb dist_pct 0 || (length track_surfaces <=? car_idx)%nat
      then car_states
      else
        match track_surfaces !! car_idx with
        | None => car_states
        | Some track_surface =>
            if track_surface <? 0 then car_states
            else
              match car_states !! car_idx with
              | None =>
                  <[car_idx :=
                      mkCarState dist_pct (_get_sector_from_dist dist_pct)
                        (mkSectorTimes None None None) session_time
                        session_time]> car_states
              | Some state =>
                  <[car_idx := update_known state dist_pct session_time]>
                    car_states
              end
        end
  end.

(** [OpponentSectorTracker.update]; the two arrays are
    [ir['CarIdxLapDistPct']] and [ir['CarIdxTrackSurface']]. *)
Definition update (self : OpponentSectorTracker)
    (CarIdxLapDistPct : option (list Q)) (CarIdxTrackSurface : option (list Z))
    (session_time : Q) : OpponentSectorTracker :=
  let lap_dist_pcts := default [] CarIdxLapDistPct in
  let track_surfaces := default [] CarIdxTrackSurface in
  mkTracker
    (fold_left (update_car session_time lap_dist_pcts track_surfaces)
       (seq 0 (Nat.min (length lap_dist_pcts) (max_cars self)))
       (car_states self))
    (max_cars self).

Definition tracker_init : OpponentSectorTracker := mkTracker ∅ 64.

Definition get_sectors (self : OpponentSectorTracker) (car_idx : nat)
  : SectorTimes :=
  match car_states self !! car_idx with
  | None => mkSectorTimes None None None
  | Some st => sector_times st
  end.

(** The values held in a [SectorTimes]. *)
Definition recorded_times (t : SectorTimes) : list Q :=
  option_list (s1 t) ++ option_list (s2 t) ++ option_list (s3 t).

(* ------------------------------------------------------------------ *)
(** ** The telemetry service *)

(** The values of one tick read from the SDK object [ir]; a variable the
    SDK does not deliver is [None]. *)
Record Frame : Type := mkFrame {
  is_connected : bool;
  PlayerCarIdx : option Z;
  Lap : option Z;
  LapDistPct : option Q;
  LapLastLapTime : option Q;
  TrackDisplayName : option string;
  TrackConfigName : option string;
  CarScreenName : Z -> option string;
  CarIdxTrackSurface : option (list Z);
  CarIdxLapDistPct : option (list Q);
  Speed : option Q;
  Throttle : option Q;
  Brake : option Q;
  Gear : option Z;
  RPM : option Q;
  SteeringWheelAngle : option Q;
  SessionNum : option Z;
  SessionState : option Z;
  OnPitRoad : option bool;
  InGarage : option bool;
  CarLeftRight : option Z;
  DriversCarIsPaceCar : option (list Z)
}.

(** The entries of the telemetry dictionary that [detect_events] reads. *)
Record Telemetry : Type := mkTelemetry {
  currentLap : Z;
  flags_raw : Z;
  position_overall : Z;
  inPitLane : bool;
  incidents_count : Z;
  session_stateRaw : Z;
  session_type : string
}.

(** Events, with the payload fields that identify them. *)
Inductive Event : Type :=
| session_joined (sessionType : string) (playerPosition : Z)
| lap_complete (lap : Z)
| flag_change (previousRaw currentRaw : Z)
| position_change (from to change : Z)
| pit_entry
| pit_exit
| incident (count added : Z)
| session_state_change (from_raw to_raw : Z)
| spotter (call : string) (car_left car_right : bool).

(** The attributes of [IRacingTelemetryService] used by lap capture and
    event detection ([_last_spotter_emit] is absent until first set). *)
Record IRacingTelemetryService : Type := mkService {
  connected : bool;
  prev_lap : Z;
  prev_flag : Z;
  prev_position : Z;
  prev_in_pit : bool;
  prev_incidents : Z;
  prev_session_state : Z;
  current_session_id : Z;
  session_joined_sent : bool;
  spotter_state : string;
  spotter_frames_in_state : Z;
  spotter_last_call : Q;
  spotter_cooldown : Q;
  spotter_still_interval : Q;
  lap_storage : LapStorageService;
  last_lap_capture_time : Q;
  prev_lap_for_capture : Z;
  sector_tracker : OpponentSectorTracker;
  _last_spotter_emit : option Q
}.

Definition set_connected v (s : IRacingTelemetryService) :=
  mkService v (prev_lap s) (prev_flag s) (prev_position s)
    (prev_in_pit s) (prev_incidents s) (prev_session_state s)
    (current_session_id s) (session_joined_sent s) (spotter_state s)
    (spotter_frames_in_state s) (spotter_last_call s) (spotter_cooldown s)
    (spotter_still_interval s) (lap_storage s) (last_lap_capture_time s)
    (prev_lap_for_capture s) (sector_tracker s) (_last_spotter_emit s).
Definition set_current_session_id v (s : IRacingTelemetryService) :=
  mkService (connected s) (prev_lap s) (prev_flag s) (prev_position s)
    (prev_in_pit s) (prev_incidents s) (prev_session_state s)
    v (session_joined_sent s) (spotter_state s)
    (spotter_frames_in_state s) (spotter_last_call s) (spotter_cooldown s)
    (spotter_still_interval s) (lap_storage s) (last_lap_capture_time s)
    (prev_lap_for_capture s) (sector_tracker s) (_last_spotter_emit s).
Definition set_session_joined_sent v (s : IRacingTelemetryService) :=
  mkService (connected s) (prev_lap s) (prev_flag s) (prev_position s)
    (prev_in_pit s) (prev_incidents s) (prev_session_state s)
    (current_session_id s) v (spotter_state s)
    (spotter_frames_in_state s) (spotter_last_call s) (spotter_cooldown s)
    (spotter_still_interval s) (lap_storage s) (last_lap_capture_time s)
    (prev_lap_for_capture s) (sector_tracker s) (_last_spotter_emit s).
Definition set_spotter_state v (s : IRacingTelemetryService) :=
  mkService (connected s) (prev_lap s) (prev_flag s) (prev_position s)
    (prev_in_pit s) (prev_incidents s) (prev_session_state s)
    (current_session_id s) (session_joined_sent s) v
    (spotter_frames_in_state s) (spotter_last_call s) (spotter_cooldown s)
    (spotter_still_interval s) (lap_storage s) (last_lap_capture_time s)
    (prev_lap_for_capture s) (sector_tracker s) (_last_spotter_emit s).
Definition set_spotter_frames_in_state v (s : IRacingTelemetryService) :=
  mkService (connected s) (prev_lap s) (prev_flag s) (prev_position s)
    (prev_in_pit s) (prev_incidents s) (prev_session_state s)
    (current_session_id s) (session_joined_sent s) (spotter_state s)
    v (spotter_last_call s) (spotter_cooldown s)
    (spotter_still_interval s) (lap_storage s) (last_lap_capture_time s)
    (prev_lap_for_capture s) (sector_tracker s) (_last_spotter_emit s).
Definition set_spotter_last_call v (s : IRacingTelemetryService) :=
  mkService (connected s) (prev_lap s) (prev_flag s) (prev_position s)
    (prev_in_pit s) (prev_incidents s) (prev_session_state s)
    (current_session_id s) (session_joined_sent s) (spotter_state s)
    (spotter_frames_in_state s) v (spotter_cooldown s)
    (spotter_still_interval s) (lap_storage s) (last_lap_capture_time s)
    (prev_lap_for_capture s) (sector_tracker s) (_last_spotter_emit s).
Definition set_lap_storage v (s : IRacingTelemetryService) :=
  mkService (connected s) (prev_lap s) (prev_flag s) (prev_position s)
    (prev_in_pit s) (prev_incidents s) (prev_session_state s)
    (current_session_id s) (session_joined_sent s) (spotter_state s)
    (spotter_frames_in_state s) (spotter_last_call s) (spotter_cooldown s)
    (spotter_still_interval s) v (last_lap_capture_time s)
    (prev_lap_for_capture s) (sector_tracker s) (_last_spotter_emit s).
Definition set_last_lap_capture_time v (s : IRacingTelemetryService) :=
  mkService (connected s) (prev_lap s) (prev_flag s) (prev_position s)
    (prev_in_pit s) (prev_incidents s) (prev_session_state s)
    (current_session_id s) (session_joined_sent s) (spotter_state s)
    (spotter_frames_in_state s) (spotter_last_call s) (spotter_cooldown s)
    (spotter_still_interval s) (lap_storage s) v
    (prev_lap_for_capture s) (sector_tracker s) (_last_spotter_emit s).
Definition set_prev_lap_for_capture v (s : IRacingTelemetryService) :=
  mkService (connected s) (prev_lap s) (prev_flag s) (prev_position s)
    (prev_in_pit s) (prev_incidents s) (prev_session_state s)
    (current_session_id s) (session_joined_sent s) (spotter_state s)
    (spotter_frames_in_state s) (spotter_last_call s) (spotter_cooldown s)
    (spotter_still_interval s) (lap_storage s) (last_lap_capture_time s)
    v (sector_tracker s) (_last_spotter_emit s).
Definition set__last_spotter_emit v (s : IRacingTelemetryService) :=
  mkService (connected s) (prev_lap s) (prev_flag s) (prev_position s)
    (prev_in_pit s) (prev_incidents s) (prev_session_state s)
    (current_session_id s) (session_joined_sent s) (spotter_state s)
    (spotter_frames_in_state s) (spotter_last_call s) (spotter_cooldown s)
    (spotter_still_interval s) (lap_storage s) (last_lap_capture_time s)
    (prev_lap_for_capture s) (sector_tracker s) v.

(** [IRacingTelemetryService.__init__]. *)
Definition service_init : IRacingTelemetryService :=
  mkService false 0 0 0 false 0 0 (-1) false "clear" 0 0%Q 1%Q 2%Q
    (IRacing.init MAX_STORED_LAPS) 0%Q 0 tracker_init None.

(** [_safe_get(key, default)]. *)
Definition _safe_get {A : Type} (v : option A) (d : A) : A := default d v.

(** [l[i]] with Python's negative indices; [None] is an [IndexError]. *)
Definition py_index {A : Type} (l : list A) (i : Z) : option A :=
  if 0 <=? i then l !! Z.to_nat i
  else if - i <=? Z.of_nat (length l)
  then l !! Z.to_nat (Z.of_nat (length l) + i)
  else None.

Definition ascii_lower (c : ascii) : ascii :=
  let n := Ascii.nat_of_ascii c in
  if (65 <=? n)%nat && (n <=? 90)%nat then Ascii.ascii_of_nat (n + 32) else c.

Fixpoint str_lower (s : string) : string :=
  match s with
  | EmptyString => EmptyString
  | String c r => String (ascii_lower c) (str_lower r)
  end.

(** [needle in s]. *)
Fixpoint str_contains (needle s : string) : bool :=
  String.prefix needle s
  || match s with
     | EmptyString => false
     | String _ r => str_contains needle r
     end.

(** The decimal digit of a variant number 1..3 in an f-string. *)
Definition variant_str (n : Z) : string :=
  if n =? 1 then "1" else if n =? 2 then "2" else "3".

Definition is_session_active (self : IRacingTelemetryService) (ir : Frame)
  : bool :=
  if negb (connected self) || negb (is_connected ir) then false
  else
    let session_state := default 0 (SessionState ir) in
    (session_state =? 2) || (session_state =? 3)
    || (session_state =? 4) || (session_state =? 5).

(** [_detect_proximity]: the pair [(car_left, car_right)]. *)
Definition _detect_proximity (ir : Frame) : bool * bool :=
  let car_left_right := _safe_get (CarLeftRight ir) 0 in
  ((car_left_right =? 2) || (car_left_right =? 4) || (car_left_right =? 5),
   (car_left_right =? 3) || (car_left_right =? 4) || (car_left_right =? 6)).

Definition is_threat (st : string) : bool :=
  String.eqb st "car_left" || String.eqb st "car_right"
  || String.eqb st "three_wide".

(** [_update_spotter_state]; [now] is its reading of [time.time()]. *)
Definition _update_spotter_state (self : IRacingTelemetryService) (now : Q)
    (proximity : bool * bool) : option string * IRacingTelemetryService :=
  let '(car_left, car_right) := proximity in
  let new_state :=
    if car_left && car_right then "three_wide"
    else if car_left then "car_left"
    else if car_right then "car_right"
    else "clear" in
  if negb (String.eqb new_state (spotter_state self)) then
    let '(event, self1) :=
      if String.eqb new_state "clear" then
        let event :=
          if String.eqb (spotter_state self) "three_wide" then "clear_all_around"
          else if String.eqb (spotter_state self) "car_left" then "clear_left"
          else if String.eqb (spotter_state self) "car_right" then "clear_right"
          else "clear" in
        (Some event, set_spotter_last_call now self)
      else if Qleb (spotter_cooldown self) (now - spotter_last_call self)
      then (Some new_state, set_spotter_last_call now self)
      else (None, self) in
    (event, set_spotter_frames_in_state 0 (set_spotter_state new_state self1))
  else
    if is_threat (spotter_state self)
       && Qleb (spotter_still_interval self) (now - spotter_last_call self)
    then
      let variant_num := spotter_frames_in_state self mod 3 + 1 in
      let event :=
        if String.eqb (spotter_state self) "car_left"
        then Some ("still_left_" +:+ variant_str variant_num)
        else if String.eqb (spotter_state self) "car_right"
        then Some ("still_right_" +:+ variant_str variant_num)
        else if String.eqb (spotter_state self) "three_wide"
        then Some ("still_three_wide_" +:+ variant_str variant_num)
        else None in
      (event,
       set_spotter_frames_in_state (spotter_frames_in_state self + 1)
         (set_spotter_last_call now self))
    else (None, self).

(** The block "CHECK FOR PENDING LAP WAITING FOR TIME" of
    [capture_lap_telemetry]; a lap in the result is returned at once. *)
Definition resolve_pending (storage : LapStorageService) (now : Q)
    (last_lap_time : Q) (uuid : string) (time_ms : Z)
  : option LapData * LapStorageService :=
  if (0 <? length (pending_lap_points storage))%nat then
    let pending_age := (now - pending_lap_created_at storage)%Q in
    if Qltb 10 pending_age then (None, IRacing.clear_pending_lap storage)
    else if Qltb 0 last_lap_time
    then IRacing.save_pending_lap storage uuid time_ms last_lap_time
    else (None, storage)
  else (None, storage).

(** The names given to a lap at a lap change. *)
Definition lap_track_name (ir : Frame) : string :=
  let track_name := str_or (TrackDisplayName ir) "Unknown" in
  let track_config := str_or (TrackConfigName ir) "" in
  if str_truthy track_config
  then track_name +:+ " - " +:+ track_config
  else track_name.

Definition lap_car_name (ir : Frame) (player_idx : Z) : string :=
  str_or (CarScreenName ir player_idx) "Unknown".

(** The block "Detect lap change" of [capture_lap_telemetry], entered
    when [current_lap > prev_lap_for_capture > 0]. *)
Definition on_lap_change (self : IRacingTelemetryService) (ir : Frame)
    (now : Q) (player_idx current_lap : Z) (last_lap_time : Q)
    (uuid : string) (time_ms : Z)
  : option LapData * IRacingTelemetryService :=
  let prev_lap := prev_lap_for_capture self in
  let self1 := set_prev_lap_for_capture current_lap self in
  let track_name := lap_track_name ir in
  let car_name := lap_car_name ir player_idx in
  let storage := lap_storage self1 in
  let '(completed_lap, storage1) :=
    if Qltb 0 last_lap_time
    then IRacing.complete_lap storage uuid time_ms last_lap_time
           track_name car_name
    else if (MIN_LAP_POINTS <? length (current_lap_points storage))%nat
    then (None,
          set_pending_lap_created_at now
            (set_pending_lap_car car_name
               (set_pending_lap_track track_name
                  (set_pending_lap_number prev_lap
                     (set_pending_lap_points (current_lap_points storage)
                        storage)))))
    else (None, storage) in
  (completed_lap,
   set_lap_storage (IRacing.start_lap storage1 current_lap) self1).

(** The point built from the high-frequency readings. *)
Definition read_point (ir : Frame) (lap_dist_pct : Q) : TelemetryPoint :=
  let speed_ms := _safe_get (Speed ir) 0%Q in
  let speed_kmh := (speed_ms * (36 # 10))%Q in
  mkPoint (py_round lap_dist_pct 4) (py_round speed_kmh 1)
    (py_round (_safe_get (Throttle ir) 0%Q) 3)
    (py_round (_safe_get (Brake ir) 0%Q) 3)
    (_safe_get (Gear ir) 0)
    (py_round (_safe_get (RPM ir) 0%Q) 0)
    (py_round (_safe_get (SteeringWheelAngle ir) 0%Q) 4).

(** [capture_lap_telemetry]; [now] is [time.time()], [uuid] and
    [time_ms] are the identifier and the time stamp a stored lap gets.
    An exception inside the [try] gives [None] with the state reached. *)
Definition capture_lap_telemetry (self : IRacingTelemetryService)
    (ir : Frame) (now : Q) (uuid : string) (time_ms : Z)
  : option LapData * IRacingTelemetryService :=
  if negb (connected self) || negb (is_connected ir) then (None, self)
  else if Qltb (now - last_lap_capture_time self) LAP_CAPTURE_INTERVAL
  then (None, self)
  else
    let self1 := set_last_lap_capture_time now self in
    let player_idx := _safe_get (PlayerCarIdx ir) 0 in
    let current_lap := _safe_get (Lap ir) 0 in
    let lap_dist_pct := _safe_get (LapDistPct ir) 0%Q in
    let last_lap_time := _safe_get (LapLastLapTime ir) 0%Q in
    match resolve_pending (lap_storage self1) now last_lap_time uuid time_ms with
    | (Some completed_lap, storage) =>
        (Some completed_lap, set_lap_storage storage self1)
    | (None, storage) =>
        let self2 := set_lap_storage storage self1 in
        if (prev_lap_for_capture self2 <? current_lap)
           && (0 <? prev_lap_for_capture self2)
        then on_lap_change self2 ir now player_idx current_lap last_lap_time
               uuid time_ms
        else
          let self3 :=
            if (0 <? current_lap) && (prev_lap_for_capture self2 =? 0)
            then set_prev_lap_for_capture current_lap
                   (set_lap_storage
                      (IRacing.start_lap (lap_storage self2) current_lap) self2)
            else self2 in
          let track_surfaces := _safe_get (CarIdxTrackSurface ir) [] in
          let player_surface :=
            if player_idx <? Z.of_nat (length track_surfaces)
            then py_index track_surfaces player_idx
            else Some (-1) in
          match player_surface with
          | None => (None, self3)
          | Some surface =>
              if negb ((surface =? 1) || (surface =? 3) || (surface =? 4))
              then (None, self3)
              else if recording_active (lap_storage self3)
              then (None,
                    set_lap_storage
                      (IRacing.add_point (lap_storage self3)
                         (read_point ir lap_dist_pct)) self3)
              else (None, self3)
          end
    end.

(** The condition under which [detect_events] evaluates the spotter:
    active session, not on pit road, not in the garage, no qualifying
    session and more than one real car. *)
Definition spotter_enabled (self : IRacingTelemetryService) (t : Telemetry)
    (ir : Frame) : bool :=
  let session_type_ := str_lower (session_type t) in
  let is_qualifying :=
    str_contains "qualify" session_type_
    || str_contains "qual" session_type_ in
  let num_cars :=
    length (filter (fun d => d = 0) (default [] (DriversCarIsPaceCar ir))) in
  is_session_active self ir
  && negb (_safe_get (OnPitRoad ir) false)
  && negb (_safe_get (InGarage ir) false)
  && negb is_qualifying
  && (1 <? num_cars)%nat.

(** [detect_events]; [now] is the clock reading inside
    [_update_spotter_state] and [current_time] the later one that guards
    the emission.  The [prev_*] attributes are updated by the reader of
    the frame, not here. *)
Definition detect_events (self : IRacingTelemetryService)
    (telemetry : option Telemetry) (ir : Frame) (now current_time : Q)
  : list Event * IRacingTelemetryService :=
  match telemetry with
  | None => ([], self)
  | Some t =>
      let session_num := _safe_get (SessionNum ir) 0 in
      let '(ev1, self1) :=
        if negb (session_num =? current_session_id self)
           || negb (session_joined_sent self)
        then ([session_joined (session_type t) (position_overall t)],
              set_session_joined_sent true
                (set_current_session_id session_num self))
        else ([], self) in
      let ev2 :=
        if (prev_lap self1 <? currentLap t) && (0 <? prev_lap self1)
        then [lap_complete (currentLap t - 1)] else [] in
      let ev3 :=
        if negb (flags_raw t =? prev_flag self1)
        then [flag_change (prev_flag self1) (flags_raw t)] else [] in
      let ev4 :=
        if negb (position_overall t =? prev_position self1)
           && (0 <? prev_position self1)
        then [position_change (prev_position self1) (position_overall t)
                (prev_position self1 - position_overall t)]
        else [] in
      let ev5 :=
        if negb (Bool.eqb (inPitLane t) (prev_in_pit self1))
        then [if inPitLane t then pit_entry else pit_exit] else [] in
      let ev6 :=
        if prev_incidents self1 <? incidents_count t
        then [incident (incidents_count t)
                (incidents_count t - prev_incidents self1)]
        else [] in
      let ev7 :=
        if negb (session_stateRaw t =? prev_session_state self1)
        then [session_state_change (prev_session_state self1)
                (session_stateRaw t)]
        else [] in
      let events := ev1 ++ ev2 ++ ev3 ++ ev4 ++ ev5 ++ ev6 ++ ev7 in
      if spotter_enabled self1 t ir
      then
        let proximity := _detect_proximity ir in
        let '(spotter_event, self2) :=
          _update_spotter_state self1 now proximity in
        match spotter_event with
        | Some call =>
            if str_truthy call
               && Qleb (5 # 10)
                    (current_time - default 0%Q (_last_spotter_emit self2))
            then (events ++ [spotter call (fst proximity) (snd proximity)],
                  set__last_spotter_emit (Some current_time) self2)
            else (events, self2)
        | None => (events, self2)
        end
      else (events, self1)
  end.

(* ------------------------------------------------------------------ *)
(** ** The lap storage of the LMU adapter (server/lmu_service.py)

    [TelemetryPoint] and [LapData] are declared there field for field as
    in telemetry_service.py, and [LapStorageService.__init__] sets the
    same attributes, so the records above are used for both; the methods
    are embedded again from lmu_service.py. *)

Module LMU.

(** [lap_id != self.session_best_id]. *)
Definition id_differs (lap_id : string) (best : option string) : bool :=
  match best with
  | Some b => negb (String.eqb lap_id b)
  | None => true
  end.

(** [lap.completedAt < oldest_time], where [oldest_time] starts at
    [float('inf')] ([None]). *)
Definition older_than (t : Z) (oldest_time : option Z) : bool :=
  match oldest_time with
  | Some o => t <? o
  | None => true
  end.

(** The [for] loop of [_enforce_limit]: the running pair
    [(oldest_id, oldest_time)] over the items in dictionary order. *)
Fixpoint find_oldest (best : option string) (items : dict LapData)
    (oldest_id : option string) (oldest_time : option Z)
  : option string * option Z :=
  match items with
  | [] => (oldest_id, oldest_time)
  | (lap_id, lap) :: r =>
      if id_differs lap_id best && older_than (completedAt lap) oldest_time
      then find_oldest best r (Some lap_id) (Some (completedAt lap))
      else find_oldest best r oldest_id oldest_time
  end.

(** [if oldest_id:]. *)
Definition opt_truthy (o : option string) : bool :=
  match o with
  | Some s => str_truthy s
  | None => false
  end.

(** [LapStorageService.__init__]. *)
Definition init (max_laps : Z) : LapStorageService :=
  mkStorage max_laps [] None PosInf [] 0 false 0%Q 0%Q [] 0 "" "" 0%Q.

Definition start_lap (self : LapStorageService) (lap_number : Z)
  : LapStorageService :=
  set_last_distance_pct 0%Q
    (set_recording_active true
       (set_current_lap_number lap_number
          (set_current_lap_points [] self))).

Definition add_point (self : LapStorageService) (point : TelemetryPoint)
  : LapStorageService :=
  if negb (recording_active self) then self
  else if Qleb (last_distance_pct self) (distancePct point)
          || Qltb (distancePct point) (5 # 100)
  then set_last_distance_pct (distancePct point)
         (set_current_lap_points (current_lap_points self ++ [point]) self)
  else self.

(** The [while] loop of [_enforce_limit]; every iteration that does not
    leave the loop deletes one lap, so [length laps] iterations suffice. *)
Fixpoint enforce_limit_loop (fuel : nat) (self : LapStorageService)
  : LapStorageService :=
  match fuel with
  | O => self
  | S fuel' =>
      if max_laps self <? Z.of_nat (length (laps self)) then
        let '(oldest_id, _) :=
          find_oldest (session_best_id self) (laps self) None None in
        if opt_truthy oldest_id then
          match oldest_id with
          | Some k => enforce_limit_loop fuel' (set_laps (dict_del k (laps self)) self)
          | None => self
          end
        else self
      else self
  end.

Definition _enforce_limit (self : LapStorageService) : LapStorageService :=
  enforce_limit_loop (length (laps self)) self.

(** The block "Update session best" shared by both completion paths. *)
Definition update_session_best (self : LapStorageService)
    (is_session_best : bool) (lap_id : string) (lap_time : Q)
  : LapStorageService :=
  if is_session_best then
    let self1 :=
      match session_best_id self with
      | Some b =>
          if str_truthy b && dict_mem b (laps self)
          then set_laps (dict_alter (set_isSessionBest false) b (laps self)) self
          else self
      | None => self
      end in
    set_session_best_time (Fin lap_time) (set_session_best_id (Some lap_id) self1)
  else self.

(** [deltaToSessionBest] as computed in the [LapData(...)] call. *)
Definition delta_to_best (lap_time : Q) (best : pyfloat) : Q :=
  match best with
  | Fin b => py_round (lap_time - b) 3
  | PosInf => 0%Q
  end.

(** [complete_lap]; [uuid] is [str(uuid.uuid4())[:8]] and [time_ms] is
    [int(time.time() * 1000)] as read on the success path. *)
Definition complete_lap (self : LapStorageService) (uuid : string) (time_ms : Z)
    (lap_time : Q) (track_name car_name : string)
  : option LapData * LapStorageService :=
  if negb (recording_active self)
     || (length (current_lap_points self) <? 100)%nat
  then (None, set_recording_active false self)
  else if Qltb lap_time 10 || Qltb 1200 lap_time
  then (None, set_current_lap_points [] (set_recording_active false self))
  else
    let lap_id := uuid in
    let is_session_best := lt_pyfloat lap_time (session_best_time self) in
    let lap :=
      mkLap lap_id (current_lap_number self) (py_round lap_time 3)
            is_session_best track_name car_name time_ms
            (map asdict (current_lap_points self))
            (delta_to_best lap_time (session_best_time self)) in
    let self1 := update_session_best self is_session_best lap_id lap_time in
    let self2 := set_laps (dict_set lap_id lap (laps self1)) self1 in
    let self3 := _enforce_limit self2 in
    (Some lap, set_current_lap_points [] (set_recording_active false self3)).

Definition save_pending_lap (self : LapStorageService) (uuid : string)
    (time_ms : Z) (lap_time : Q)
  : option LapData * LapStorageService :=
  if (length (pending_lap_points self) =? 0)%nat
     || (length (pending_lap_points self) <? 100)%nat
  then (None, set_pending_lap_points [] self)
  else if Qltb lap_time 10 || Qltb 1200 lap_time
  then (None, set_pending_lap_number 0 (set_pending_lap_points [] self))
  else
    let lap_id := uuid in
    let is_session_best := lt_pyfloat lap_time (session_best_time self) in
    let lap :=
      mkLap lap_id (pending_lap_number self) (py_round lap_time 3)
            is_session_best (pending_lap_track self) (pending_lap_car self)
            time_ms (map asdict (pending_lap_points self))
            (delta_to_best lap_time (session_best_time self)) in
    let self1 := update_session_best self is_session_best lap_id lap_time in
    let self2 := set_laps (dict_set lap_id lap (laps self1)) self1 in
    let self3 :=
      set_pending_lap_car ""
        (set_pending_lap_track ""
           (set_pending_lap_number 0 (set_pending_lap_points [] self2))) in
    (Some lap, _enforce_limit self3).

Definition get_lap (self : LapStorageService) (lap_id : string)
  : option LapData :=
  dict_get lap_id (laps self).

Definition get_session_best (self : LapStorageService) : option LapData :=
  match session_best_id self with
  | Some b => if str_truthy b then dict_get b (laps self) else None
  | None => None
  end.

Definition delete_lap (self : LapStorageService) (lap_id : string)
  : bool * LapStorageService :=
  if negb (id_differs lap_id (session_best_id self)) then (false, self)
  else if dict_mem lap_id (laps self)
  then (true, set_laps (dict_del lap_id (laps self)) self)
  else (false, self).

Definition reset_session (self : LapStorageService) : LapStorageService :=
  set_pending_lap_created_at 0%Q
    (set_pending_lap_car ""
       (set_pending_lap_track ""
          (set_pending_lap_number 0
             (set_pending_lap_points []
                (set_recording_active false
                   (set_current_lap_points []
                      (set_session_best_time PosInf
                         (set_session_best_id None
                            (set_laps [] self))))))))).

Definition clear_pending_lap (self : LapStorageService) : LapStorageService :=
  set_pending_lap_created_at 0%Q
    (set_pending_lap_car ""
       (set_pending_lap_track ""
          (set_pending_lap_number 0
             (set_pending_lap_points [] self)))).

End LMU.

(* ------------------------------------------------------------------ *)
(** ** Calls on a lap storage *)

(** A call of a method of [LapStorageService] with its arguments and the
    identifier and time stamp it reads; [ext_write_pending] is the
    assignment of the five pending attributes from outside the class, as
    [capture_lap_telemetry] does it. *)
Inductive Call : Type :=
| call_start_lap (lap_number : Z)
| call_add_point (point : TelemetryPoint)
| call_complete_lap (uuid : string) (time_ms : Z) (lap_time : Q)
    (track_name car_name : string)
| call_save_pending_lap (uuid : string) (time_ms : Z) (lap_time : Q)
| call_enforce_limit
| call_delete_lap (lap_id : string)
| call_clear_pending_lap
| call_reset_session
| ext_write_pending (pts : list TelemetryPoint) (number : Z)
    (track car : string) (created_at : Q).

Inductive Result : Type :=
| ret_unit
| ret_lap (l : option LapData)
| ret_bool (b : bool).

Definition write_pending (self : LapStorageService)
    (pts : list TelemetryPoint) (number : Z) (track car : string)
    (created_at : Q) : LapStorageService :=
  set_pending_lap_created_at created_at
    (set_pending_lap_car car
       (set_pending_lap_track track
          (set_pending_lap_number number
             (set_pending_lap_points pts self)))).

Definition exec_iracing (self : LapStorageService) (c : Call)
  : Result * LapStorageService :=
  match c with
  | call_start_lap n => (ret_unit, IRacing.start_lap self n)
  | call_add_point p => (ret_unit, IRacing.add_point self p)
  | call_complete_lap uuid time_ms lap_time track_name car_name =>
      let '(r, s) :=
        IRacing.complete_lap self uuid time_ms lap_time track_name car_name in
      (ret_lap r, s)
  | call_save_pending_lap uuid time_ms lap_time =>
      let '(r, s) := IRacing.save_pending_lap self uuid time_ms lap_time in
      (ret_lap r, s)
  | call_enforce_limit => (ret_unit, IRacing._enforce_limit self)
  | call_delete_lap lap_id =>
      let '(r, s) := IRacing.delete_lap self lap_id in (ret_bool r, s)
  | call_clear_pending_lap => (ret_unit, IRacing.clear_pending_lap self)
  | call_reset_session => (ret_unit, IRacing.reset_session self)
  | ext_write_pending pts number track car created_at =>
      (ret_unit, write_pending self pts number track car created_at)
  end.

Definition exec_lmu (self : LapStorageService) (c : Call)
  : Result * LapStorageService :=
  match c with
  | call_start_lap n => (ret_unit, LMU.start_lap self n)
  | call_add_point p => (ret_unit, LMU.add_point self p)
  | call_complete_lap uuid time_ms lap_time track_name car_name =>
      let '(r, s) :=
        LMU.complete_lap self uuid time_ms lap_time track_name car_name in
      (ret_lap r, s)
  | call_save_pending_lap uuid time_ms lap_time =>
      let '(r, s) := LMU.save_pending_lap self uuid time_ms lap_time in
      (ret_lap r, s)
  | call_enforce_limit => (ret_unit, LMU._enforce_limit self)
  | call_delete_lap lap_id =>
      let '(r, s) := LMU.delete_lap self lap_id in (ret_bool r, s)
  | call_clear_pending_lap => (ret_unit, LMU.clear_pending_lap self)
  | call_reset_session => (ret_unit, LMU.reset_session self)
  | ext_write_pending pts number track car created_at =>
      (ret_unit, write_pending self pts number track car created_at)
  end.

(** A sequence of calls: the results in order and the final state. *)
Fixpoint run_calls (exec : LapStorageService -> Call -> Result * LapStorageService)
    (self : LapStorageService) (cs : list Call)
  : list Result * LapStorageService :=
  match cs with
  | [] => ([], self)
  | c :: r =>
      let '(res, s1) := exec self c in
      let '(rs, s2) := run_calls exec s1 r in
      (res :: rs, s2)
  end.

(** The identifier a call gives to a lap is non-empty and not in use. *)
Definition call_fresh (self : LapStorageService) (c : Call) : bool :=
  match c with
  | call_complete_lap uuid _ _ _ _
  | call_save_pending_lap uuid _ _ =>
      str_truthy uuid && negb (dict_mem uuid (laps self))
  | _ => true
  end.

(** The condition under which [add_point] keeps a point. *)
Definition moving_forward (self : LapStorageService) (p : TelemetryPoint)
  : Prop :=
  (last_distance_pct self <= distancePct p)%Q \/ (distancePct p < 5 # 100)%Q.

(** A point at 12% of the lap, at 180 km/h in fourth gear. *)
Definition sample_point : TelemetryPoint :=
  mkPoint (12 # 100) 180 1 0 4 7200 0.

Definition lap_valid (l : LapData) : Prop :=
  (100 <= length (points l))%nat /\ (10 <= lapTime l)%Q /\ (lapTime l <= 1200)%Q.

Definition all_laps_valid (self : LapStorageService) : Prop :=
  Forall (fun kv : string * LapData => lap_valid kv.2) (laps self).

(* ------------------------------------------------------------------ *)
(** ** Recorded laps used in the scenarios *)

(** Point [i] of a lap of 150 samples whose [distancePct] rises from
    0.00 to 0.99. *)
Definition rising_point (i : nat) : TelemetryPoint :=
  mkPoint (Qmake (Z.of_nat i * 99) 14900) 180 1 0 4 7200 0.

Definition rising_points (n : nat) : list TelemetryPoint :=
  map rising_point (seq 0 n).

(** [start_lap] followed by one [add_point] per sample. *)
Definition record_lap (self : LapStorageService) (lap_number : Z)
    (pts : list TelemetryPoint) : LapStorageService :=
  fold_left IRacing.add_point pts (IRacing.start_lap self lap_number).

(** First lap of the scenario: 95.432 s at Spa in a GT3. *)
Definition first_lap_done : option LapData * LapStorageService :=
  IRacing.complete_lap
    (record_lap (IRacing.init MAX_STORED_LAPS) 1 (rising_points 150))
    "3f2a9c10" 1700000095432 (95432 # 1000) "Spa" "GT3".

(** Second lap of the scenario: 94.010 s. *)
Definition second_lap_done : option LapData * LapStorageService :=
  IRacing.complete_lap
    (record_lap first_lap_done.2 2 (rising_points 150))
    "8b71e4d2" 1700000189442 (94010 # 1000) "Spa" "GT3".

(* ------------------------------------------------------------------ *)
(** ** The session-best invariant *)

(** The invariant on the stored laps [d], [session_best_id] and
    [session_best_time]: keys are unique; a stored lap is flagged
    exactly when its key is the session-best id; the session-best id,
    when set, names a stored lap whose [lapTime] is the rounded
    session-best time and is at most the [lapTime] of every stored lap;
    while it is unset nothing is stored. *)
Definition store_inv (d : dict LapData) (bid : option string) (bt : pyfloat)
  : Prop :=
  NoDup (dict_keys d) /\
  (forall k l, dict_get k d = Some l ->
               (isSessionBest l = true <-> bid = Some k)) /\
  match bid with
  | None => d = [] /\ bt = PosInf
  | Some b =>
      b <> ""%string /\
      exists t lap,
        bt = Fin t /\ dict_get b d = Some lap
        /\ (lapTime lap == py_round t 3)%Q
        /\ forall k l, dict_get k d = Some l -> (py_round t 3 <= lapTime l)%Q
  end.

Definition best_inv (self : LapStorageService) : Prop :=
  store_inv (laps self) (session_best_id self) (session_best_time self).

(** [session_best_id], when set, names a stored lap with the smallest
    [lapTime] of all stored laps. *)
Definition best_is_minimal (self : LapStorageService) : Prop :=
  forall b, session_best_id self = Some b ->
    exists lap,
      In (b, lap) (laps self)
      /\ forall k l, In (k, l) (laps self) -> (lapTime lap <= lapTime l)%Q.

(** The stored laps whose [isSessionBest] flag is set. *)
Definition flagged_laps (d : dict LapData) : dict LapData :=
  List.filter (fun kv : string * LapData => isSessionBest kv.2) d.

(** Exactly one stored lap is flagged, the one under [session_best_id];
    none is while [session_best_id] is unset. *)
Definition one_flagged (self : LapStorageService) : Prop :=
  match session_best_id self with
  | Some b => exists lap, flagged_laps (laps self) = [(b, lap)]
  | None => flagged_laps (laps self) = []
  end.

(** How [session_best_time] moves in one call: it never rises, except
    that [reset_session] starts a new session with nothing stored. *)
Definition best_time_step (c : Call) (self self' : LapStorageService) : Prop :=
  match c with
  | call_reset_session =>
      laps self' = [] /\ session_best_id self' = None
      /\ session_best_time self' = PosInf
  | _ => pyfloat_le (session_best_time self') (session_best_time self)
  end.

(** Every call of the sequence that stores a lap gives it a non-empty
    identifier not in use when the call is made. *)
Fixpoint calls_fresh (self : LapStorageService) (cs : list Call) : bool :=
  match cs with
  | [] => true
  | c :: r => call_fresh self c && calls_fresh (exec_iracing self c).2 r
  end.

(** The calls that record the samples [pts] as lap [lap_number]. *)
Definition record_calls (lap_number : Z) (pts : list TelemetryPoint)
  : list Call :=
  call_start_lap lap_number :: map call_add_point pts.

(** The two laps of the scenario as a sequence of calls. *)
Definition two_laps_calls : list Call :=
  record_calls 1 (rising_points 150)
  ++ [call_complete_lap "3f2a9c10" 1700000095432 (95432 # 1000) "Spa" "GT3"]
  ++ record_calls 2 (rising_points 150)
  ++ [call_complete_lap "8b71e4d2" 1700000189442 (94010 # 1000) "Spa" "GT3"].

(* ------------------------------------------------------------------ *)
(** ** Eviction *)

(** One eviction: while more than [max_laps] laps are stored, the lap
    removed is stored under a key other than [session_best_id] and no
    stored lap with such a key has a smaller [completedAt]. *)
Inductive evicts (self : LapStorageService) : LapStorageService -> Prop :=
| evicts_oldest (k : string) (lap : LapData) :
    max_laps self < Z.of_nat (length (laps self)) ->
    In (k, lap) (laps self) ->
    session_best_id self <> Some k ->
    (forall k' lap', In (k', lap') (laps self) ->
                     session_best_id self <> Some k' ->
                     completedAt lap <= completedAt lap') ->
    evicts self (set_laps (dict_del k (laps self)) self).

(** Keys of a lap dictionary as the service produces them: unique and
    non-empty. *)
Definition keys_ok (d : dict LapData) : Prop :=
  NoDup (dict_keys d) /\ forall k, In k (dict_keys d) -> k <> ""%string.

(** A service that keeps no lap besides the session best. *)
Definition zero_limit_lap_done : option LapData * LapStorageService :=
  IRacing.complete_lap (record_lap (IRacing.init 0) 1 (rising_points 150))
    "3f2a9c10" 1700000095432 (95432 # 1000) "Spa" "GT3".

(* ------------------------------------------------------------------ *)
(** ** Ticks of the lap capture used in the scenarios *)

(** A connected service on lap 1 with [n] samples in the live buffer. *)
Definition service_on_lap_1 (n : nat) : IRacingTelemetryService :=
  set_lap_storage
    (record_lap (IRacing.init MAX_STORED_LAPS) 1 (rising_points n))
    (set_prev_lap_for_capture 1 (set_connected true service_init)).

(** A frame on track at Spa in a GT3, with lap counter [lap] and last lap
    time [last]. *)
Definition frame_on_track (lap : Z) (last : Q) : Frame :=
  mkFrame true (Some 0) (Some lap) (Some (1 # 1000)) (Some last)
    (Some "Spa"%string) None (fun _ => Some "GT3"%string) (Some [3])
    (Some [1 # 1000]%Q) (Some 50%Q) (Some 1%Q) (Some 0%Q) (Some 3) (Some 6500%Q)
    (Some 0%Q) (Some 0) (Some 4) (Some false) (Some false) (Some 1)
    (Some [0; 0]).

(** The tick at which the lap counter goes from 1 to 2 while the last
    lap time is still 0, with [n] samples buffered. *)
Definition boundary_tick (n : nat) : option LapData * IRacingTelemetryService :=
  capture_lap_telemetry (service_on_lap_1 n) (frame_on_track 2 0)
    1700000100 "3f2a9c10" 1700000100000.

(** The service right after a lap change that left 120 samples pending
    at time 1700000100. *)
Definition service_with_pending : IRacingTelemetryService :=
  (boundary_tick 120).2.

(* ------------------------------------------------------------------ *)
(** ** Queries on the stored laps (telemetry_service.py) *)

(** [max(values, key=lambda l: l.completedAt)] with [best] the maximum so
    far: a later lap replaces it only when strictly newer. *)
Fixpoint max_completedAt (best : LapData) (l : list LapData) : LapData :=
  match l with
  | [] => best
  | x :: r =>
      if completedAt best <? completedAt x
      then max_completedAt x r
      else max_completedAt best r
  end.

(** [get_last_lap]. *)
Definition get_last_lap (self : LapStorageService) : option LapData :=
  match dict_values (laps self) with
  | [] => None
  | x :: r => Some (max_completedAt x r)
  end.

(** An entry of the listing made by [get_all_laps]. *)
Record LapSummary : Type := mkSummary {
  sum_id : string;
  sum_lapNumber : Z;
  sum_lapTime : Q;
  sum_isSessionBest : bool;
  sum_trackName : string;
  sum_carName : string;
  sum_completedAt : Z;
  sum_deltaToSessionBest : Q;
  sum_pointCount : nat
}.

Definition summary (lap : LapData) : LapSummary :=
  mkSummary (id lap) (lapNumber lap) (lapTime lap) (isSessionBest lap)
    (trackName lap) (carName lap) (completedAt lap)
    (deltaToSessionBest lap) (length (points lap)).

(** Insertion of [x] in front of a list sorted by falling [completedAt];
    [x] goes before the entries that are not newer. *)
Fixpoint insert_newest_first (x : LapData) (l : list LapData) : list LapData :=
  match l with
  | [] => [x]
  | y :: r =>
      if completedAt x <? completedAt y
      then y :: insert_newest_first x r
      else x :: y :: r
  end.

(** [sorted(values, key=lambda l: l.completedAt, reverse=True)]: the
    stable sort by falling [completedAt] (laps with the same time stamp
    keep their dictionary order). *)
Definition sorted_newest_first (l : list LapData) : list LapData :=
  fold_right insert_newest_first [] l.

(** Laps in falling order of [completedAt]. *)
Definition newest_first (a b : LapData) : Prop :=
  completedAt b <= completedAt a.

(** [get_all_laps]. *)
Definition get_all_laps (self : LapStorageService) : list LapSummary :=
  map summary (sorted_newest_first (dict_values (laps self))).

(** Samples in the order [add_point] accepts them: each one is at least
    as far as the one before it, or lies in the first 5% of the lap. *)
Fixpoint forward_from (last : Q) (pts : list TelemetryPoint) : Prop :=
  match pts with
  | [] => True
  | p :: r =>
      ((last <= distancePct p)%Q \/ (distancePct p < 5 # 100)%Q)
      /\ forward_from (distancePct p) r
  end.

(** The [last_distance_pct] that a buffer filled from [last] ends with. *)
Definition last_pct (last : Q) (pts : list TelemetryPoint) : Q :=
  List.last (map distancePct pts) last.

(** The live buffer is in accepted order from 0 and [last_distance_pct]
    is the distance of its last sample while recording is active. *)
Definition buffer_ok (self : LapStorageService) : Prop :=
  forward_from 0 (current_lap_points self)
  /\ (recording_active self = true ->
      last_distance_pct self = last_pct 0 (current_lap_points self)).

(* ------------------------------------------------------------------ *)
(** ** More of the sector tracker and of the frame reader *)

(** [OpponentSectorTracker.reset]. *)
Definition tracker_reset (self : OpponentSectorTracker) : OpponentSectorTracker :=
  mkTracker ∅ (max_cars self).

(** The block "SECTORS" of [read_telemetry]: the sector of the player
    from [LapDistPct]. *)
Definition player_current_sector (lap_dist_pct : float) : Z :=
  if float_ltb (Finite (66 # 100)) lap_dist_pct then 3
  else if float_ltb (Finite (33 # 100)) lap_dist_pct then 2
  else 1.
Arguments player_current_sector lap_dist_pct%_Q.

(** The state of a car seen for the first time. *)
Definition first_sighting (dist_pct session_time : Q) : CarState :=
  mkCarState dist_pct (_get_sector_from_dist dist_pct)
    (mkSectorTimes None None None) session_time session_time.

(** Every tracked car has an index below [max_cars], a sector 1, 2 or 3,
    and recorded sector times within [0, 300]. *)
Definition tracker_ok (self : OpponentSectorTracker) : Prop :=
  forall (i : nat) (st : CarState),
    car_states self !! i = Some st ->
    (i < max_cars self)%nat
    /\ 1 <= last_sector st <= 3
    /\ forall q, In q (recorded_times (sector_times st)) ->
                 (0 <= q)%Q /\ (q <= 300)%Q.

(** One frame for the tracker: the two arrays and the session time. *)
Definition TrackerFrame : Type := option (list Q) * option (list Z) * Q.

(** [update] over successive frames. *)
Definition update_all (self : OpponentSectorTracker) (frames : list TrackerFrame)
  : OpponentSectorTracker :=
  fold_left (fun tr (f : TrackerFrame) => update tr f.1.1 f.1.2 f.2) frames self.

(* ------------------------------------------------------------------ *)
(** ** Reading a frame and the polling loop (telemetry_service.py) *)

Definition set_sector_tracker v (s : IRacingTelemetryService) :=
  mkService (connected s) (prev_lap s) (prev_flag s) (prev_position s)
    (prev_in_pit s) (prev_incidents s) (prev_session_state s)
    (current_session_id s) (session_joined_sent s) (spotter_state s)
    (spotter_frames_in_state s) (spotter_last_call s) (spotter_cooldown s)
    (spotter_still_interval s) (lap_storage s) (last_lap_capture_time s)
    (prev_lap_for_capture s) v (_last_spotter_emit s).

(** The block "Update tracking for next frame" of [read_telemetry]. *)
Definition update_tracking (current_lap current_flags position : Z)
    (on_pit_road : bool) (incidents session_state : Z)
    (s : IRacingTelemetryService) :=
  mkService (connected s) current_lap current_flags position
    on_pit_road incidents session_state
    (current_session_id s) (session_joined_sent s) (spotter_state s)
    (spotter_frames_in_state s) (spotter_last_call s) (spotter_cooldown s)
    (spotter_still_interval s) (lap_storage s) (last_lap_capture_time s)
    (prev_lap_for_capture s) (sector_tracker s) (_last_spotter_emit s).

(** The further values of one tick that [read_telemetry] takes from the
    SDK object: [Sessions] is [SessionInfo['Sessions']] reduced to the
    [SessionType] entry of each session, [None] when there is no session
    information. *)
Record FrameSession : Type := mkFrameSession {
  CarIdxPosition : option (list Z);
  CarIdxClassPosition : option (list Z);
  CarIdxF2Time : option (list Q);
  SessionFlags : option Z;
  PlayerCarMyIncidentCount : option Z;
  SessionTime : option Q;
  Sessions : option (list (option string));
  FuelLevel : option Q;
  IsOnTrack : option bool
}.

(** [_get_session_details(session_num).get('sessionType', 'Unknown')];
    an index error inside [_get_session_details] yields the empty
    dictionary. *)
Definition session_details_type (sessions : option (list (option string)))
    (session_num : Z) : string :=
  match sessions with
  | None => "Unknown"
  | Some l =>
      if Z.of_nat (length l) <=? session_num then "Unknown"
      else match py_index l session_num with
           | Some session_data => default "Unknown" session_data
           | None => "Unknown"
           end
  end.

(** [l[i] if i < len(l) else d]; [None] is an [IndexError]. *)
Definition index_or {A : Type} (l : list A) (i : Z) (d : A) : option A :=
  if i <? Z.of_nat (length l) then py_index l i else Some d.

(** The fuel attributes of [IRacingTelemetryService]:
    [fuel_used_history] is the deque, oldest entry first, and
    [last_fuel_level] is [None] after a frame whose fuel reading was
    discarded. *)
Record FuelState : Type := mkFuelState {
  fuel_used_history : list Q;
  last_fuel_level : option Q;
  lap_start_fuel : Q
}.

Definition FUEL_HISTORY_SIZE : nat := 10.

(** The fuel attributes set by [__init__] and by [_reset_state]. *)
Definition fuel_init : FuelState := mkFuelState [] (Some 0%Q) 0%Q.

(** [deque.append] of a deque with [maxlen]: a full deque drops its
    oldest entry. *)
Definition deque_append (maxlen : nat) (x : Q) (d : list Q) : list Q :=
  if (length d <? maxlen)%nat then d ++ [x] else tl (d ++ [x]).

Definition Qsum (l : list Q) : Q := fold_left Qplus l 0%Q.

(** The entries of [telemetry['fuel']] computed from the fuel
    attributes. *)
Record FuelInfo : Type := mkFuelInfo {
  fuel_level_out : option Q;
  usedLastLap : Q;
  perLapAvg : Q;
  estimatedLapsRemaining : Q
}.

(** The block "FUEL" of [read_telemetry], in its three steps.  The
    sanity check: a fuel level below 0.5 on track is discarded; before
    that it is compared with [last_fuel_level], which is a [TypeError]
    (here [None]) when that attribute is [None]. *)
Definition fuel_check (fs : FuelState) (fuel_level_raw : Q)
    (is_on_track : bool) : option (option Q) :=
  if Qltb fuel_level_raw (5 # 10) && is_on_track
  then match last_fuel_level fs with
       | Some _ => Some None
       | None => None
       end
  else Some (Some fuel_level_raw).

(** The fuel used in the last lap and the attributes after "Track fuel
    used per lap". *)
Definition fuel_usage (fs : FuelState) (fuel_level : option Q)
    (current_lap prev_lap_ : Z) : Q * FuelState :=
  match fuel_level with
  | Some fl =>
      if (prev_lap_ <? current_lap) && Qltb 0 (lap_start_fuel fs)
      then
        let fuel_used_last_lap := (lap_start_fuel fs - fl)%Q in
        let history :=
          if Qltb 0 fuel_used_last_lap
          then deque_append FUEL_HISTORY_SIZE fuel_used_last_lap
                 (fuel_used_history fs)
          else fuel_used_history fs in
        (fuel_used_last_lap, mkFuelState history (last_fuel_level fs) fl)
      else if Qeq_bool (lap_start_fuel fs) 0
      then (0%Q, mkFuelState (fuel_used_history fs) (last_fuel_level fs) fl)
      else (0%Q, fs)
  | None => (0%Q, fs)
  end.

Definition fuel_per_lap_avg (history : list Q) : Q :=
  match history with
  | [] => 0%Q
  | _ :: _ => (Qsum history / inject_Z (Z.of_nat (length history)))%Q
  end.

Definition estimated_laps_remaining (fuel_level : option Q) (avg : Q) : Q :=
  match fuel_level with
  | Some fl => if Qltb 0 fl && Qltb 0 avg then (fl / avg)%Q else 0%Q
  | None => 0%Q
  end.

Definition fuel_block (fs : FuelState) (fuel_level_raw : Q)
    (is_on_track : bool) (current_lap prev_lap_ : Z)
  : option (option Q * FuelInfo * FuelState) :=
  match fuel_check fs fuel_level_raw is_on_track with
  | None => None
  | Some fuel_level =>
      let '(fuel_used_last_lap, fs1) :=
        fuel_usage fs fuel_level current_lap prev_lap_ in
      let avg := fuel_per_lap_avg (fuel_used_history fs1) in
      Some (fuel_level,
            mkFuelInfo (option_map (fun fl => py_round fl 2) fuel_level)
              (py_round fuel_used_last_lap 3) (py_round avg 3)
              (py_round (estimated_laps_remaining fuel_level avg) 1),
            fs1)
  end.

(** [read_telemetry], as far as the entries of the dictionary that
    [detect_events] reads, the fuel entries and the attributes of the
    service above are concerned: the guard, the indexing of the position
    arrays, the update of the sector tracker outside qualifying, the fuel
    block and the tracking of the previous frame.  An exception
    ([IndexError], [TypeError]) is caught and gives [None], with the
    attributes written so far kept. *)
Definition read_telemetry (self : IRacingTelemetryService) (fs : FuelState)
    (ir : Frame) (sv : FrameSession)
  : option (Telemetry * FuelInfo) * IRacingTelemetryService * FuelState :=
  if negb (connected self) || negb (is_connected ir) then (None, self, fs)
  else
    let player_idx := _safe_get (PlayerCarIdx ir) 0 in
    let session_num := _safe_get (SessionNum ir) 0 in
    let current_lap := _safe_get (Lap ir) 0 in
    let positions := _safe_get (CarIdxPosition sv) [] in
    let class_positions := _safe_get (CarIdxClassPosition sv) [] in
    match index_or positions player_idx 0 with
    | None => (None, self, fs)
    | Some position =>
        match index_or class_positions player_idx 0 with
        | None => (None, self, fs)
        | Some _ =>
            let session_type_ :=
              session_details_type (Sessions sv) session_num in
            let is_race := str_contains "Race" session_type_ in
            let is_lone_qualy := str_contains "Qualify" session_type_ in
            let self1 :=
              if is_lone_qualy then self
              else
                let session_time := _safe_get (SessionTime sv) 0%Q in
                set_sector_tracker
                  (update (sector_tracker self) (CarIdxLapDistPct ir)
                     (CarIdxTrackSurface ir) session_time)
                  self in
            let f2_ok :=
              if negb is_lone_qualy && is_race
              then
                let f2_times := _safe_get (CarIdxF2Time sv) [] in
                bool_decide (is_Some (index_or f2_times player_idx 0%Q))
              else true in
            if f2_ok then
              let fuel_level := _safe_get (FuelLevel sv) 0%Q in
              let is_on_track := _safe_get (IsOnTrack sv) false in
              match fuel_block fs fuel_level is_on_track current_lap
                      (prev_lap self1) with
              | None => (None, self1, fs)
              | Some (fuel_level', fuel, fs1) =>
                  let on_pit_road := _safe_get (OnPitRoad ir) false in
                  let session_state := _safe_get (SessionState ir) 0 in
                  let current_flags := _safe_get (SessionFlags sv) 0 in
                  let incidents :=
                    _safe_get (PlayerCarMyIncidentCount sv) 0 in
                  (Some (mkTelemetry current_lap current_flags position
                           on_pit_road incidents session_state session_type_,
                         fuel),
                   update_tracking current_lap current_flags position
                     on_pit_road incidents session_state self1,
                   mkFuelState (fuel_used_history fs1) fuel_level'
                     (lap_start_fuel fs1))
              end
            else (None, self1, fs)
        end
    end.

(** One pass of [telemetry_loop] from "Read telemetry" on: the events it
    broadcasts.  [now] and [current_time] are the clock readings of
    [detect_events]. *)
Definition telemetry_loop_events (self : IRacingTelemetryService)
    (fs : FuelState) (ir : Frame) (sv : FrameSession) (now current_time : Q)
  : list Event * IRacingTelemetryService * FuelState :=
  let '(data, self1, fs1) := read_telemetry self fs ir sv in
  match data with
  | Some (t, _) =>
      if is_session_active self1 ir
      then
        let '(events, self2) :=
          detect_events self1 (Some t) ir now current_time in
        (events, self2, fs1)
      else ([], self1, fs1)
  | None => ([], self1, fs1)
  end.

(** Events that report a change against the previous frame. *)
Definition is_change_event (e : Event) : bool :=
  match e with
  | session_joined _ _ | spotter _ _ _ => false
  | _ => true
  end.

(** Successive calls of [read_telemetry]: what each returned. *)
Fixpoint read_run (self : IRacingTelemetryService) (fs : FuelState)
    (frames : list (Frame * FrameSession))
  : list (option (Telemetry * FuelInfo)) * IRacingTelemetryService * FuelState :=
  match frames with
  | [] => ([], self, fs)
  | (ir, sv) :: rest =>
      let '(data, self1, fs1) := read_telemetry self fs ir sv in
      let '(later, self2, fs2) := read_run self1 fs1 rest in
      (data :: later, self2, fs2)
  end.

(** A frame whose fuel reading [read_telemetry] discards: less than
    0.5 l while on track. *)
Definition low_fuel_on_track (sv : FrameSession) : bool :=
  Qltb (_safe_get (FuelLevel sv) 0%Q) (5 # 10)
  && _safe_get (IsOnTrack sv) false.

(** The fuel history is within its size and holds positive amounts. *)
Definition fuel_ok (fs : FuelState) : Prop :=
  (length (fuel_used_history fs) <= FUEL_HISTORY_SIZE)%nat
  /\ Forall (fun q => (0 < q)%Q) (fuel_used_history fs).

(* ------------------------------------------------------------------ *)
(** ** Runs of the spotter and of the event detection *)

(** The state [_update_spotter_state] derives from the proximity flags. *)
Definition proximity_state (proximity : bool * bool) : string :=
  let '(car_left, car_right) := proximity in
  if car_left && car_right then "three_wide"
  else if car_left then "car_left"
  else if car_right then "car_right"
  else "clear".

Definition is_clear_call (c : string) : bool :=
  String.eqb c "clear" || String.eqb c "clear_left"
  || String.eqb c "clear_right" || String.eqb c "clear_all_around".

Definition is_still_call (c : string) : bool := String.prefix "still_" c.

(** Successive calls of [_update_spotter_state], each with its clock
    reading and proximity flags; the result lists the calls made with
    the clock reading of their tick. *)
Fixpoint spotter_run (self : IRacingTelemetryService)
    (ticks : list (Q * (bool * bool)))
  : list (Q * string) * IRacingTelemetryService :=
  match ticks with
  | [] => ([], self)
  | (now, proximity) :: rest =>
      let '(event, self1) := _update_spotter_state self now proximity in
      let '(calls, self2) := spotter_run self1 rest in
      (match event with
       | Some c => (now, c) :: calls
       | None => calls
       end, self2)
  end.

(** Every call is a clear call, or the name of a threat made at least
    [cooldown] after the call before it, or a "still there" call made at
    least [still_interval] after the call before it; [last] is the time
    of the call before the first. *)
Fixpoint calls_spaced (cooldown still_interval last : Q)
    (calls : list (Q * string)) : Prop :=
  match calls with
  | [] => True
  | (t, c) :: rest =>
      (is_clear_call c = true
       \/ (is_threat c = true /\ (cooldown <= t - last)%Q)
       \/ (is_still_call c = true /\ (still_interval <= t - last)%Q))
      /\ calls_spaced cooldown still_interval t rest
  end.

(** One call of [detect_events]. *)
Record Tick : Type := mkTick {
  tick_telemetry : option Telemetry;
  tick_frame : Frame;
  tick_now : Q;
  tick_time : Q
}.

(** Successive calls of [detect_events]; the result lists the events
    with the [current_time] of their tick. *)
Fixpoint detect_run (self : IRacingTelemetryService) (ticks : list Tick)
  : list (Q * Event) * IRacingTelemetryService :=
  match ticks with
  | [] => ([], self)
  | k :: rest =>
      let '(events, self1) :=
        detect_events self (tick_telemetry k) (tick_frame k) (tick_now k)
          (tick_time k) in
      let '(later, self2) := detect_run self1 rest in
      (map (fun e => (tick_time k, e)) events ++ later, self2)
  end.

Definition is_spotter (e : Event) : bool :=
  match e with spotter _ _ _ => true | _ => false end.

Definition is_session_joined (e : Event) : bool :=
  match e with session_joined _ _ => true | _ => false end.

(** Every spotter event comes at least 0.5 s after the spotter event
    before it; [last] is the time of the one before the first. *)
Fixpoint emits_spaced (last : Q) (events : list (Q * Event)) : Prop :=
  match events with
  | [] => True
  | (t, e) :: rest =>
      if is_spotter e
      then (5 # 10 <= t - last)%Q /\ emits_spaced t rest
      else emits_spaced last rest
  end.

(* ------------------------------------------------------------------ *)
(** ** Runs of the lap capture (telemetry_service.py) *)

(** One call of [capture_lap_telemetry]: the frame, the clock reading
    and the identifier and time stamp a lap stored by it would get. *)
Record CaptureTick : Type := mkCaptureTick {
  cap_frame : Frame;
  cap_now : Q;
  cap_uuid : string;
  cap_time_ms : Z
}.

(** Successive calls of [capture_lap_telemetry], as made by
    [lap_capture_loop]; the result lists the laps returned. *)
Fixpoint capture_run (self : IRacingTelemetryService)
    (ticks : list CaptureTick)
  : list LapData * IRacingTelemetryService :=
  match ticks with
  | [] => ([], self)
  | k :: rest =>
      let '(completed_lap, self1) :=
        capture_lap_telemetry self (cap_frame k) (cap_now k) (cap_uuid k)
          (cap_time_ms k) in
      let '(later, self2) := capture_run self1 rest in
      (match completed_lap with
       | Some lap => lap :: later
       | None => later
       end, self2)
  end.

(** The lap storage of the service: the limit of [MAX_STORED_LAPS] is
    respected, identifiers are distinct and non-empty, and every stored
    lap is valid. *)
Definition storage_ok (s : LapStorageService) : Prop :=
  max_laps s = MAX_STORED_LAPS
  /\ keys_ok (laps s)
  /\ Z.of_nat (length (laps s)) <= MAX_STORED_LAPS
  /\ all_laps_valid s.

(* ------------------------------------------------------------------ *)
(** ** Pit and chat commands (telemetry_service.py) *)

Definition PIT_COMMAND_MODES : dict Z :=
  [("clear", 0); ("ws", 1); ("fuel", 2); ("lf", 3); ("rf", 4); ("lr", 5);
   ("rr", 6); ("clear_tires", 7); ("fr", 8); ("clear_ws", 9);
   ("clear_fr", 10); ("clear_fuel", 11)]%string.

(** The ['error'] of a failed command: the four fixed messages and the
    text of an exception raised by the SDK. *)
Inductive CommandError : Type :=
| Not_connected_to_iRacing
| Not_in_active_session
| Unknown_command (command : string)
| Fuel_must_be_0_999_liters
| Macro_number_must_be_1_15
| Sdk_exception.

(** The dictionary a command returns. *)
Inductive CommandResult : Type :=
| pit_success (command : string) (value : Z)
| chat_success (macroNumber : Z)
| command_failure (error : CommandError).

(** [pit_command]; the second component is the call made on the SDK
    object, [ir.pit_command(mode, value)], and [sdk_raises] tells
    whether that call raises. *)
Definition pit_command (self : IRacingTelemetryService) (ir : Frame)
    (command : string) (value : Z) (sdk_raises : bool)
  : CommandResult * option (Z * Z) :=
  if negb (connected self) || negb (is_connected ir)
  then (command_failure Not_connected_to_iRacing, None)
  else if negb (is_session_active self ir)
  then (command_failure Not_in_active_session, None)
  else if negb (dict_mem command PIT_COMMAND_MODES)
  then (command_failure (Unknown_command command), None)
  else if String.eqb command "fuel" && ((value <? 0) || (999 <? value))
  then (command_failure Fuel_must_be_0_999_liters, None)
  else
    match dict_get command PIT_COMMAND_MODES with
    | Some mode =>
        if sdk_raises then (command_failure Sdk_exception, Some (mode, value))
        else (pit_success command value, Some (mode, value))
    | None => (command_failure Sdk_exception, None)
    end.

(** [chat_command_macro]; the second component is the call
    [ir.chat_command_macro(macro_num)]. *)
Definition chat_command_macro (self : IRacingTelemetryService) (ir : Frame)
    (macro_num : Z) (sdk_raises : bool) : CommandResult * option Z :=
  if negb (connected self) || negb (is_connected ir)
  then (command_failure Not_connected_to_iRacing, None)
  else if (macro_num <? 1) || (15 <? macro_num)
  then (command_failure Macro_number_must_be_1_15, None)
  else if sdk_raises then (command_failure Sdk_exception, Some macro_num)
  else (chat_success macro_num, Some macro_num).

(* ------------------------------------------------------------------ *)
(** ** Track wetness of the LMU adapter (server/lmu_service.py) *)

Definition LMU_TRACK_WETNESS_NAMES : list (Z * string) :=
  [(0, "dry"); (1, "mostly_dry"); (2, "very_lightly_wet");
   (3, "lightly_wet"); (4, "moderately_wet"); (5, "very_wet");
   (6, "extremely_wet")]%string.

(** [LMUTelemetryService._map_wetness]. *)
Definition _map_wetness (wetness : float) : Z :=
  if float_leb wetness (Finite 0) then 0
  else if float_leb wetness (Finite (5 # 100)) then 1
  else if float_leb wetness (Finite (15 # 100)) then 2
  else if float_leb wetness (Finite (30 # 100)) then 3
  else if float_leb wetness (Finite (50 # 100)) then 4
  else if float_leb wetness (Finite (75 # 100)) then 5
  else 6.
Arguments _map_wetness wetness%_Q.

Fixpoint table_get (k : Z) (t : list (Z * string)) : option string :=
  match t with
  | [] => None
  | (k', v) :: r => if k =? k' then Some v else table_get k r
  end.

(** [LMUTelemetryService._get_wetness_name]. *)
Definition _get_wetness_name (wetness : Z) : string :=
  default "unknown"%string (table_get wetness LMU_TRACK_WETNESS_NAMES).

(* ------------------------------------------------------------------ *)
(** ** Resetting the service (telemetry_service.py) *)

(** [_reset_state(preserve_laps)]: the tracking of the previous frame,
    the fuel attributes, the session and spotter attributes, the lap
    capture and the sector tracker; the lap storage is cleared unless
    the laps are preserved. *)
Definition _reset_state (self : IRacingTelemetryService) (fs : FuelState)
    (preserve_laps : bool) : IRacingTelemetryService * FuelState :=
  (mkService (connected self) 0 0 0 false 0 0 (-1) false "clear" 0 0%Q
     (spotter_cooldown self) (spotter_still_interval self)
     (if negb preserve_laps
      then IRacing.reset_session (lap_storage self)
      else lap_storage self)
     (last_lap_capture_time self) 0 (tracker_reset (sector_tracker self))
     (_last_spotter_emit self),
   fuel_init).

(** [disconnect]. *)
Definition disconnect (self : IRacingTelemetryService) (fs : FuelState)
  : IRacingTelemetryService * FuelState :=
  _reset_state (set_connected false self) fs true.

(** [connect] when [ir.startup()] succeeds. *)
Definition connect (self : IRacingTelemetryService) : IRacingTelemetryService :=
  set_connected true self.

(* ------------------------------------------------------------------ *)
(** ** The lap storage on lap times of any kind (telemetry_service.py)

    [complete_lap] and [save_pending_lap] are declared with
    [lap_time: float] and test it with [<] and [>], which NaN fails.
    The class is embedded here once more with the lap time, the stored
    [lapTime] and [deltaToSessionBest] and [session_best_time] as
    [float]; module [IRacing] is the same class on lap times that are
    numbers. *)

Module FloatStorage.

Record LapData : Type := mkLap {
  id : string;
  lapNumber : Z;
  lapTime : float;
  isSessionBest : bool;
  trackName : string;
  carName : string;
  completedAt : Z;
  points : list TelemetryPoint;
  deltaToSessionBest : float
}.

Definition set_isSessionBest (b : bool) (l : LapData) : LapData :=
  mkLap (id l) (lapNumber l) (lapTime l) b (trackName l) (carName l)
        (completedAt l) (points l) (deltaToSessionBest l).

Record LapStorageService : Type := mkStorage {
  max_laps : Z;
  laps : dict LapData;
  session_best_id : option string;
  session_best_time : float;
  current_lap_points : list TelemetryPoint;
  current_lap_number : Z;
  recording_active : bool;
  last_capture_time : Q;
  last_distance_pct : Q;
  pending_lap_points : list TelemetryPoint;
  pending_lap_number : Z;
  pending_lap_track : string;
  pending_lap_car : string;
  pending_lap_created_at : Q
}.

(** Field assignments [self.f = v]. *)
Definition set_laps v (s : LapStorageService) :=
  mkStorage (max_laps s) v (session_best_id s) (session_best_time s)
    (current_lap_points s) (current_lap_number s) (recording_active s)
    (last_capture_time s) (last_distance_pct s) (pending_lap_points s)
    (pending_lap_number s) (pending_lap_track s) (pending_lap_car s)
    (pending_lap_created_at s).
Definition set_session_best_id v (s : LapStorageService) :=
  mkStorage (max_laps s) (laps s) v (session_best_time s)
    (current_lap_points s) (current_lap_number s) (recording_active s)
    (last_capture_time s) (last_distance_pct s) (pending_lap_points s)
    (pending_lap_number s) (pending_lap_track s) (pending_lap_car s)
    (pending_lap_created_at s).
Definition set_session_best_time v (s : LapStorageService) :=
  mkStorage (max_laps s) (laps s) (session_best_id s) v
    (current_lap_points s) (current_lap_number s) (recording_active s)
    (last_capture_time s) (last_distance_pct s) (pending_lap_points s)
    (pending_lap_number s) (pending_lap_track s) (pending_lap_car s)
    (pending_lap_created_at s).
Definition set_current_lap_points v (s : LapStorageService) :=
  mkStorage (max_laps s) (laps s) (session_best_id s) (session_best_time s)
    v (current_lap_number s) (recording_active s)
    (last_capture_time s) (last_distance_pct s) (pending_lap_points s)
    (pending_lap_number s) (pending_lap_track s) (pending_lap_car s)
    (pending_lap_created_at s).
Definition set_current_lap_number v (s : LapStorageService) :=
  mkStorage (max_laps s) (laps s) (session_best_id s) (session_best_time s)
    (current_lap_points s) v (recording_active s)
    (last_capture_time s) (last_distance_pct s) (pending_lap_points s)
    (pending_lap_number s) (pending_lap_track s) (pending_lap_car s)
    (pending_lap_created_at s).
Definition set_recording_active v (s : LapStorageService) :=
  mkStorage (max_laps s) (laps s) (session_best_id s) (session_best_time s)
    (current_lap_points s) (current_lap_number s) v
    (last_capture_time s) (last_distance_pct s) (pending_lap_points s)
    (pending_lap_number s) (pending_lap_track s) (pending_lap_car s)
    (pending_lap_created_at s).
Definition set_last_distance_pct v (s : LapStorageService) :=
  mkStorage (max_laps s) (laps s) (session_best_id s) (session_best_time s)
    (current_lap_points s) (current_lap_number s) (recording_active s)
    (last_capture_time s) v (pending_lap_points s)
    (pending_lap_number s) (pending_lap_track s) (pending_lap_car s)
    (pending_lap_created_at s).
Definition set_pending_lap_points v (s : LapStorageService) :=
  mkStorage (max_laps s) (laps s) (session_best_id s) (session_best_time s)
    (current_lap_points s) (current_lap_number s) (recording_active s)
    (last_capture_time s) (last_distance_pct s) v
    (pending_lap_number s) (pending_lap_track s) (pending_lap_car s)
    (pending_lap_created_at s).
Definition set_pending_lap_number v (s : LapStorageService) :=
  mkStorage (max_laps s) (laps s) (session_best_id s) (session_best_time s)
    (current_lap_points s) (current_lap_number s) (recording_active s)
    (last_capture_time s) (last_distance_pct s) (pending_lap_points s)
    v (pending_lap_track s) (pending_lap_car s)
    (pending_lap_created_at s).
Definition set_pending_lap_track v (s : LapStorageService) :=
  mkStorage (max_laps s) (laps s) (session_best_id s) (session_best_time s)
    (current_lap_points s) (current_lap_number s) (recording_active s)
    (last_capture_time s) (last_distance_pct s) (pending_lap_points s)
    (pending_lap_number s) v (pending_lap_car s)
    (pending_lap_created_at s).
Definition set_pending_lap_car v (s : LapStorageService) :=
  mkStorage (max_laps s) (laps s) (session_best_id s) (session_best_time s)
    (current_lap_points s) (current_lap_number s) (recording_active s)
    (last_capture_time s) (last_distance_pct s) (pending_lap_points s)
    (pending_lap_number s) (pending_lap_track s) v
    (pending_lap_created_at s).
Definition set_pending_lap_created_at v (s : LapStorageService) :=
  mkStorage (max_laps s) (laps s) (session_best_id s) (session_best_time s)
    (current_lap_points s) (current_lap_number s) (recording_active s)
    (last_capture_time s) (last_distance_pct s) (pending_lap_points s)
    (pending_lap_number s) (pending_lap_track s) (pending_lap_car s)
    v.

(** The [for] loop of [_enforce_limit]: the running pair
    [(oldest_id, oldest_time)] over the items in dictionary order. *)
Fixpoint find_oldest (best : option string) (items : dict LapData)
    (oldest_id : option string) (oldest_time : option Z)
  : option string * option Z :=
  match items with
  | [] => (oldest_id, oldest_time)
  | (lap_id, lap) :: r =>
      if IRacing.id_differs lap_id best
         && IRacing.older_than (completedAt lap) oldest_time
      then find_oldest best r (Some lap_id) (Some (completedAt lap))
      else find_oldest best r oldest_id oldest_time
  end.

(** [LapStorageService.__init__]. *)
Definition init (max_laps : Z) : LapStorageService :=
  mkStorage max_laps [] None PlusInf [] 0 false 0%Q 0%Q [] 0 "" "" 0%Q.

Definition start_lap (self : LapStorageService) (lap_number : Z)
  : LapStorageService :=
  set_last_distance_pct 0%Q
    (set_recording_active true
       (set_current_lap_number lap_number
          (set_current_lap_points [] self))).

Definition add_point (self : LapStorageService) (point : TelemetryPoint)
  : LapStorageService :=
  if negb (recording_active self) then self
  else if Qleb (last_distance_pct self) (distancePct point)
          || Qltb (distancePct point) (5 # 100)
  then set_last_distance_pct (distancePct point)
         (set_current_lap_points (current_lap_points self ++ [point]) self)
  else self.

(** The [while] loop of [_enforce_limit]; every iteration that does not
    leave the loop deletes one lap, so [length laps] iterations suffice. *)
Fixpoint enforce_limit_loop (fuel : nat) (self : LapStorageService)
  : LapStorageService :=
  match fuel with
  | O => self
  | S fuel' =>
      if max_laps self <? Z.of_nat (length (laps self)) then
        let '(oldest_id, _) :=
          find_oldest (session_best_id self) (laps self) None None in
        if IRacing.opt_truthy oldest_id then
          match oldest_id with
          | Some k => enforce_limit_loop fuel' (set_laps (dict_del k (laps self)) self)
          | None => self
          end
        else self
      else self
  end.

Definition _enforce_limit (self : LapStorageService) : LapStorageService :=
  enforce_limit_loop (length (laps self)) self.

(** The block "Update session best" shared by both completion paths. *)
Definition update_session_best (self : LapStorageService)
    (is_session_best : bool) (lap_id : string) (lap_time : float)
  : LapStorageService :=
  if is_session_best then
    let self1 :=
      match session_best_id self with
      | Some b =>
          if str_truthy b && dict_mem b (laps self)
          then set_laps (dict_alter (set_isSessionBest false) b (laps self)) self
          else self
      | None => self
      end in
    set_session_best_time lap_time (set_session_best_id (Some lap_id) self1)
  else self.

(** [round(lap_time - self.session_best_time, 3) if
    self.session_best_time < float('inf') else 0.0]. *)
Definition delta_to_best (lap_time best : float) : float :=
  if float_ltb best PlusInf
  then float_round (float_sub lap_time best) 3
  else Finite 0.

(** [complete_lap]; [uuid] is [str(uuid.uuid4())[:8]] and [time_ms] is
    [int(time.time() * 1000)] as read on the success path. *)
Definition complete_lap (self : LapStorageService) (uuid : string) (time_ms : Z)
    (lap_time : float) (track_name car_name : string)
  : option LapData * LapStorageService :=
  if negb (recording_active self)
     || (length (current_lap_points self) <? 100)%nat
  then (None, set_recording_active false self)
  else if float_ltb lap_time (Finite 10) || float_ltb (Finite 1200) lap_time
  then (None, set_current_lap_points [] (set_recording_active false self))
  else
    let lap_id := uuid in
    let is_session_best := float_ltb lap_time (session_best_time self) in
    let lap :=
      mkLap lap_id (current_lap_number self) (float_round lap_time 3)
            is_session_best track_name car_name time_ms
            (map asdict (current_lap_points self))
            (delta_to_best lap_time (session_best_time self)) in
    let self1 := update_session_best self is_session_best lap_id lap_time in
    let self2 := set_laps (dict_set lap_id lap (laps self1)) self1 in
    let self3 := _enforce_limit self2 in
    (Some lap, set_current_lap_points [] (set_recording_active false self3)).

Definition save_pending_lap (self : LapStorageService) (uuid : string)
    (time_ms : Z) (lap_time : float)
  : option LapData * LapStorageService :=
  if (length (pending_lap_points self) =? 0)%nat
     || (length (pending_lap_points self) <? 100)%nat
  then (None, set_pending_lap_points [] self)
  else if float_ltb lap_time (Finite 10) || float_ltb (Finite 1200) lap_time
  then (None, set_pending_lap_number 0 (set_pending_lap_points [] self))
  else
    let lap_id := uuid in
    let is_session_best := float_ltb lap_time (session_best_time self) in
    let lap :=
      mkLap lap_id (pending_lap_number self) (float_round lap_time 3)
            is_session_best (pending_lap_track self) (pending_lap_car self)
            time_ms (map asdict (pending_lap_points self))
            (delta_to_best lap_time (session_best_time self)) in
    let self1 := update_session_best self is_session_best lap_id lap_time in
    let self2 := set_laps (dict_set lap_id lap (laps self1)) self1 in
    let self3 :=
      set_pending_lap_car ""
        (set_pending_lap_track ""
           (set_pending_lap_number 0 (set_pending_lap_points [] self2))) in
    (Some lap, _enforce_limit self3).

Definition get_lap (self : LapStorageService) (lap_id : string)
  : option LapData :=
  dict_get lap_id (laps self).

Definition get_session_best (self : LapStorageService) : option LapData :=
  match session_best_id self with
  | Some b => if str_truthy b then dict_get b (laps self) else None
  | None => None
  end.

Definition delete_lap (self : LapStorageService) (lap_id : string)
  : bool * LapStorageService :=
  if negb (IRacing.id_differs lap_id (session_best_id self)) then (false, self)
  else if dict_mem lap_id (laps self)
  then (true, set_laps (dict_del lap_id (laps self)) self)
  else (false, self).

Definition reset_session (self : LapStorageService) : LapStorageService :=
  set_pending_lap_created_at 0%Q
    (set_pending_lap_car ""
       (set_pending_lap_track ""
          (set_pending_lap_number 0
             (set_pending_lap_points []
                (set_recording_active false
                   (set_current_lap_points []
                      (set_session_best_time PlusInf
                         (set_session_best_id None
                            (set_laps [] self))))))))).

Definition clear_pending_lap (self : LapStorageService) : LapStorageService :=
  set_pending_lap_created_at 0%Q
    (set_pending_lap_car ""
       (set_pending_lap_track ""
          (set_pending_lap_number 0
             (set_pending_lap_points [] self)))).

(** The calls on a lap storage; a call that stores a lap carries the
    identifier and the time stamp the lap gets. *)
Inductive Call : Type :=
| call_start_lap (lap_number : Z)
| call_add_point (point : TelemetryPoint)
| call_complete_lap (uuid : string) (time_ms : Z) (lap_time : float)
    (track_name car_name : string)
| call_save_pending_lap (uuid : string) (time_ms : Z) (lap_time : float)
| call_enforce_limit
| call_delete_lap (lap_id : string)
| call_clear_pending_lap
| call_reset_session
| ext_write_pending (pts : list TelemetryPoint) (number : Z)
    (track car : string) (created_at : Q).

(** The pending attributes as [capture_lap_telemetry] assigns them. *)
Definition write_pending (self : LapStorageService)
    (pts : list TelemetryPoint) (number : Z) (track car : string)
    (created_at : Q) : LapStorageService :=
  set_pending_lap_created_at created_at
    (set_pending_lap_car car
       (set_pending_lap_track track
          (set_pending_lap_number number
             (set_pending_lap_points pts self)))).

Definition exec (self : LapStorageService) (c : Call) : LapStorageService :=
  match c with
  | call_start_lap n => start_lap self n
  | call_add_point p => add_point self p
  | call_complete_lap uuid time_ms lap_time track_name car_name =>
      (complete_lap self uuid time_ms lap_time track_name car_name).2
  | call_save_pending_lap uuid time_ms lap_time =>
      (save_pending_lap self uuid time_ms lap_time).2
  | call_enforce_limit => _enforce_limit self
  | call_delete_lap lap_id => (delete_lap self lap_id).2
  | call_clear_pending_lap => clear_pending_lap self
  | call_reset_session => reset_session self
  | ext_write_pending pts number track car created_at =>
      write_pending self pts number track car created_at
  end.

Definition run (self : LapStorageService) (cs : list Call)
  : LapStorageService :=
  fold_left exec cs self.

(** The lap time a call passes, if it passes one, is not NaN. *)
Definition time_is_number (c : Call) : bool :=
  match c with
  | call_complete_lap _ _ lap_time _ _
  | call_save_pending_lap _ _ lap_time => negb (is_nan lap_time)
  | _ => true
  end.

(** [start_lap] followed by one [add_point] per sample. *)
Definition record_lap (self : LapStorageService) (lap_number : Z)
    (pts : list TelemetryPoint) : LapStorageService :=
  fold_left add_point pts (start_lap self lap_number).

(** A stored lap has at least 100 points and
    [10.0 <= lapTime <= 1200.0]. *)
Definition lap_valid (l : LapData) : Prop :=
  (100 <= length (points l))%nat
  /\ float_leb (Finite 10) (lapTime l) = true
  /\ float_leb (lapTime l) (Finite 1200) = true.

Definition all_laps_valid (self : LapStorageService) : Prop :=
  Forall (fun kv : string * LapData => lap_valid kv.2) (laps self).

(** A stored lap has at least 100 points, and its [lapTime] is NaN or
    within [10.0, 1200.0]. *)
Definition lap_valid_or_nan (l : LapData) : Prop :=
  (100 <= length (points l))%nat
  /\ (lapTime l = NaN
      \/ (float_leb (Finite 10) (lapTime l) = true
          /\ float_leb (lapTime l) (Finite 1200) = true)).

Definition all_laps_valid_or_nan (self : LapStorageService) : Prop :=
  Forall (fun kv : string * LapData => lap_valid_or_nan kv.2) (laps self).

End FloatStorage.

(** A recorded lap of 150 samples completed with a lap time that is
    NaN. *)
Definition nan_lap_done
  : option FloatStorage.LapData * FloatStorage.LapStorageService :=
  FloatStorage.complete_lap
    (FloatStorage.record_lap (FloatStorage.init MAX_STORED_LAPS) 1
       (rising_points 150))
    "3f2a9c10" 1700000095432 NaN "Spa" "GT3".

(** The storage of module [IRacing] read as a storage on floats: every
    lap time in it is a number and [session_best_time] is a number or
    [float('inf')]. *)
Definition float_of_pyfloat (x : pyfloat) : float :=
  match x with
  | Fin q => Finite q
  | PosInf => PlusInf
  end.

Definition lap_to_float (l : LapData) : FloatStorage.LapData :=
  FloatStorage.mkLap (id l) (lapNumber l) (Finite (lapTime l))
    (isSessionBest l) (trackName l) (carName l) (completedAt l) (points l)
    (Finite (deltaToSessionBest l)).

Definition laps_to_float (d : dict LapData) : dict FloatStorage.LapData :=
  map (fun kv : string * LapData => (kv.1, lap_to_float kv.2)) d.

Definition storage_to_float (s : LapStorageService)
  : FloatStorage.LapStorageService :=
  FloatStorage.mkStorage (max_laps s) (laps_to_float (laps s))
    (session_best_id s) (float_of_pyfloat (session_best_time s))
    (current_lap_points s) (current_lap_number s) (recording_active s)
    (last_capture_time s) (last_distance_pct s) (pending_lap_points s)
    (pending_lap_number s) (pending_lap_track s) (pending_lap_car s)
    (pending_lap_created_at s).

(* ================================================================== *)
(** * Properties *)

(** ** Comparisons and rounding *)

Lemma Qltb_lt (x y : Q) : Qltb x y = true <-> (x < y)%Q.
Proof.
  unfold Qltb. rewrite negb_true_iff.
  split; intros H.
  - apply Qnot_le_lt. intros Hle.
    apply Qle_bool_iff in Hle. congruence.
  - destruct (Qle_bool y x) eqn:E; [|reflexivity].
    apply Qle_bool_iff in E. exfalso. revert H. apply Qle_not_lt, E.
Qed.

Lemma Qltb_ge (x y : Q) : Qltb x y = false <-> (y <= x)%Q.
Proof.
  unfold Qltb. rewrite negb_false_iff. apply Qle_bool_iff.
Qed.

Lemma Qleb_le (x y : Q) : Qleb x y = true <-> (x <= y)%Q.
Proof. apply Qle_bool_iff. Qed.

Lemma Qleb_gt (x y : Q) : Qleb x y = false <-> (y < x)%Q.
Proof.
  unfold Qleb. split; intros H.
  - apply Qnot_le_lt. intros Hle. apply Qle_bool_iff in Hle. congruence.
  - destruct (Qle_bool x y) eqn:E; [|reflexivity].
    apply Qle_bool_iff in E. exfalso. revert H. apply Qle_not_lt, E.
Qed.

(** Turn the result of a comparison into the order it decides. *)
Ltac Qcompare_prop H :=
  first [ apply -> Qeq_alt in H
        | apply <- Qeq_alt in H
        | apply <- Qlt_alt in H
        | apply <- Qgt_alt in H ].

Lemma round_half_even_mono (p q : Q) :
  (p <= q)%Q -> round_half_even p <= round_half_even q.
Proof.
  intros Hpq. unfold round_half_even. cbv zeta.
  pose proof (Qfloor_resp_le _ _ Hpq) as Hf.
  pose proof (Qfloor_le p) as Hp1. pose proof (Qlt_floor p) as Hp2.
  pose proof (Qfloor_le q) as Hq1. pose proof (Qlt_floor q) as Hq2.
  assert (Hcase : Qfloor p < Qfloor q \/ Qfloor p = Qfloor q) by lia.
  destruct Hcase as [Hlt | Heq].
  - clear Hp1 Hp2 Hq1 Hq2.
    destruct (p - inject_Z (Qfloor p) ?= 1 # 2)%Q;
      destruct (q - inject_Z (Qfloor q) ?= 1 # 2)%Q.
    all: repeat match goal with
                | |- context [Z.even ?a] => destruct (Z.even a)
                end.
    all: lia.
  - rewrite Heq in *.
    destruct (p - inject_Z (Qfloor q) ?= 1 # 2)%Q eqn:Ep;
      destruct (q - inject_Z (Qfloor q) ?= 1 # 2)%Q eqn:Eq.
    all: try (destruct (Z.even (Qfloor q)); lia).
    all: try lia.
    all: exfalso; Qcompare_prop Ep; Qcompare_prop Eq; lra.
Qed.

Lemma round_half_even_inject_Z (n : Z) (q : Q) :
  (q == inject_Z n)%Q -> round_half_even q = n.
Proof.
  intros Hq. unfold round_half_even. cbv zeta.
  assert (Hf : Qfloor q = n) by (rewrite Hq; apply Qfloor_Z).
  rewrite Hf.
  destruct (q - inject_Z n ?= 1 # 2)%Q eqn:E; [| reflexivity |];
    exfalso; Qcompare_prop E; lra.
Qed.

Lemma py_round_mono (p q : Q) (n : nat) :
  (p <= q)%Q -> (py_round p n <= py_round q n)%Q.
Proof.
  intros Hpq. unfold py_round, Qle. cbn [Qnum Qden].
  apply Z.mul_le_mono_nonneg_r; [lia|].
  apply round_half_even_mono.
  apply Qmult_le_compat_r; [exact Hpq|].
  unfold Qle. cbn. lia.
Qed.

Lemma py_round_inject_Z (k : Z) (q : Q) (n : nat) :
  (q == inject_Z k)%Q -> (py_round q n == inject_Z k)%Q.
Proof.
  intros Hq. unfold py_round.
  set (scale := Z.to_pos (10 ^ Z.of_nat n)).
  rewrite (round_half_even_inject_Z (k * Zpos scale)).
  - unfold Qeq, inject_Z. cbn. lia.
  - rewrite Hq. unfold Qeq, inject_Z, Qmult. cbn. lia.
Qed.

Lemma py_round_ge (k : Z) (q : Q) (n : nat) :
  (inject_Z k <= q)%Q -> (inject_Z k <= py_round q n)%Q.
Proof.
  intros H.
  apply Qle_trans with (py_round (inject_Z k) n); [| apply py_round_mono, H].
  apply Qle_lteq. right. symmetry. apply py_round_inject_Z. reflexivity.
Qed.

Lemma py_round_le (k : Z) (q : Q) (n : nat) :
  (q <= inject_Z k)%Q -> (py_round q n <= inject_Z k)%Q.
Proof.
  intros H.
  apply Qle_trans with (py_round (inject_Z k) n); [apply py_round_mono, H |].
  apply Qle_lteq. right. apply py_round_inject_Z. reflexivity.
Qed.

(** ** Dictionaries *)

Section DictFacts.
Context {V : Type}.
Implicit Types (d : dict V) (k : string) (v : V).

Lemma Forall_dict_set (P : string * V -> Prop) k v d :
  P (k, v) -> Forall P d -> Forall P (dict_set k v d).
Proof.
  intros Hv Hd. induction Hd as [| [k' v'] r Hx Hr IH]; cbn.
  - repeat constructor. exact Hv.
  - destruct (String.eqb k k'); constructor; auto.
Qed.

Lemma Forall_dict_del (P : string * V -> Prop) k d :
  Forall P d -> Forall P (dict_del k d).
Proof.
  intros Hd. induction Hd as [| [k' v'] r Hx Hr IH]; cbn.
  - constructor.
  - destruct (String.eqb k k'); [exact Hr | constructor; auto].
Qed.

Lemma Forall_dict_alter (P : string * V -> Prop) (f : V -> V) k d :
  (forall k' v', P (k', v') -> P (k', f v')) ->
  Forall P d -> Forall P (dict_alter f k d).
Proof.
  intros Hf Hd. induction Hd as [| [k' v'] r Hx Hr IH]; cbn.
  - constructor.
  - destruct (String.eqb k k'); constructor; auto.
Qed.

Lemma dict_get_In k v d : dict_get k d = Some v -> In (k, v) d.
Proof.
  induction d as [| [k' v'] r IH]; cbn; [discriminate|].
  destruct (String.eqb_spec k k') as [-> | Hne].
  - intros [= ->]. now left.
  - intros H. right. auto.
Qed.

Lemma dict_get_None k d : dict_get k d = None <-> ~ In k (dict_keys d).
Proof.
  induction d as [| [k' v'] r IH]; cbn.
  - tauto.
  - destruct (String.eqb_spec k k') as [-> | Hne].
    + split; [discriminate | tauto].
    + rewrite IH. split; [intros H [Heq | Hin]; [congruence | tauto] | tauto].
Qed.

Lemma In_dict_get k v d :
  NoDup (dict_keys d) -> In (k, v) d -> dict_get k d = Some v.
Proof.
  induction d as [| [k' v'] r IH]; cbn; [tauto|].
  intros Hnd [Heq | Hin].
  - inversion Heq; subst. now rewrite String.eqb_refl.
  - apply NoDup_cons in Hnd as [Hk' Hnd].
    destruct (String.eqb_spec k k') as [-> | Hne]; [| auto].
    exfalso. apply Hk'. apply list_elem_of_In.
    apply (in_map fst) in Hin. exact Hin.
Qed.
End DictFacts.

(** ** C9: [add_point] *)

Lemma moving_forward_bool (self : LapStorageService) (p : TelemetryPoint) :
  Qleb (last_distance_pct self) (distancePct p)
  || Qltb (distancePct p) (5 # 100) = true <-> moving_forward self p.
Proof.
  unfold moving_forward. rewrite orb_true_iff, Qleb_le, Qltb_lt. tauto.
Qed.

(** C9. [add_point] leaves the service as it is when recording is not
    active.  When recording is active the point is appended to the
    current lap buffer exactly when its [distancePct] is at least
    [last_distance_pct] or below 0.05; after an append the buffer is the
    old one with the point at its end and [last_distance_pct] is the
    [distancePct] of the point, every other attribute being as before;
    a point that is not appended changes nothing. *)
Theorem add_point_spec (self : LapStorageService) (p : TelemetryPoint) :
  (recording_active self = false -> IRacing.add_point self p = self) /\
  (recording_active self = true ->
   (current_lap_points (IRacing.add_point self p)
      = current_lap_points self ++ [p] <-> moving_forward self p) /\
   (moving_forward self p ->
    current_lap_points (IRacing.add_point self p)
      = current_lap_points self ++ [p]
    /\ last_distance_pct (IRacing.add_point self p) = distancePct p
    /\ recording_active (IRacing.add_point self p) = true
    /\ laps (IRacing.add_point self p) = laps self
    /\ pending_lap_points (IRacing.add_point self p) = pending_lap_points self
    /\ IRacing.add_point self p
       = set_last_distance_pct (distancePct p)
           (set_current_lap_points (current_lap_points self ++ [p]) self)) /\
   (~ moving_forward self p ->
    IRacing.add_point self p = self
    /\ current_lap_points (IRacing.add_point self p) = current_lap_points self
    /\ last_distance_pct (IRacing.add_point self p) = last_distance_pct self)).
Proof.
  unfold IRacing.add_point. split.
  - intros ->. reflexivity.
  - intros Hrec. rewrite Hrec. cbn [negb].
    destruct (Qleb (last_distance_pct self) (distancePct p)
              || Qltb (distancePct p) (5 # 100)) eqn:E.
    + apply moving_forward_bool in E.
      split; [split; [intros _; exact E | intros _; reflexivity]|].
      split; [| intros Hn; contradiction].
      intros _. cbn. repeat split; try reflexivity. exact Hrec.
    + assert (Hn : ~ moving_forward self p).
      { rewrite <- moving_forward_bool. congruence. }
      split.
      { split; [| intros H; contradiction].
        intros Heq. exfalso.
        apply (f_equal (@length _)) in Heq. rewrite length_app in Heq.
        cbn in Heq. lia. }
      split; [intros H; contradiction|].
      intros _. repeat split; reflexivity.
Qed.

Lemma add_point_spec_witness :
  IRacing.add_point (IRacing.init 10) sample_point = IRacing.init 10 /\
  current_lap_points
    (IRacing.add_point (IRacing.start_lap (IRacing.init 10) 1) sample_point)
  = [sample_point] /\
  last_distance_pct
    (IRacing.add_point (IRacing.start_lap (IRacing.init 10) 1) sample_point)
  = (12 # 100)%Q.
Proof.
  split.
  - destruct (add_point_spec (IRacing.init 10) sample_point) as [H _].
    apply H. reflexivity.
  - destruct (add_point_spec (IRacing.start_lap (IRacing.init 10) 1)
                sample_point) as [_ H].
    destruct (H eq_refl) as (_ & Happ & _).
    assert (Hf : moving_forward (IRacing.start_lap (IRacing.init 10) 1)
                   sample_point)
      by (left; vm_compute; discriminate).
    destruct (Happ Hf) as (Hpts & Hlast & _).
    split; [rewrite Hpts; reflexivity | rewrite Hlast; reflexivity].
Defined.

(** ** C1: only valid laps are stored, unless the lap time is NaN *)

Lemma enforce_limit_loop_Forall (P : string * LapData -> Prop) fuel self :
  Forall P (laps self) -> Forall P (laps (IRacing.enforce_limit_loop fuel self)).
Proof.
  revert self. induction fuel as [| fuel IH]; intros self H; cbn; [exact H|].
  destruct (max_laps self <? Z.of_nat (length (laps self))); [| exact H].
  destruct (IRacing.find_oldest _ _ _ _) as [[k |] ot]; cbn; [| exact H].
  destruct (str_truthy k); [| exact H].
  apply IH. cbn. apply Forall_dict_del, H.
Qed.

Lemma update_session_best_Forall (P : string * LapData -> Prop) self b k t :
  (forall k' l, P (k', l) -> P (k', set_isSessionBest false l)) ->
  Forall P (laps self) ->
  Forall P (laps (IRacing.update_session_best self b k t)).
Proof.
  intros HP H. unfold IRacing.update_session_best.
  destruct b; [| exact H]. cbn.
  destruct (session_best_id self) as [bid |]; [| exact H].
  destruct (str_truthy bid && dict_mem bid (laps self)); [| exact H].
  cbn. apply Forall_dict_alter; assumption.
Qed.

Lemma complete_lap_rejects self uuid time_ms lap_time track_name car_name :
  (length (current_lap_points self) < 100)%nat
  \/ (lap_time < 10)%Q \/ (1200 < lap_time)%Q ->
  exists self',
    IRacing.complete_lap self uuid time_ms lap_time track_name car_name
      = (None, self')
    /\ laps self' = laps self.
Proof.
  intros H. unfold IRacing.complete_lap.
  destruct (negb (recording_active self)
            || (length (current_lap_points self) <? 100)%nat) eqn:E1.
  { eexists. split; reflexivity. }
  destruct (Qltb lap_time 10 || Qltb 1200 lap_time) eqn:E2.
  { eexists. split; reflexivity. }
  exfalso. apply orb_false_iff in E1 as [_ E1], E2 as [E2 E3].
  apply Nat.ltb_ge in E1. apply Qltb_ge in E2, E3.
  destruct H as [H | [H | H]]; [lia | lra | lra].
Qed.

Lemma save_pending_lap_rejects self uuid time_ms lap_time :
  (length (pending_lap_points self) < 100)%nat
  \/ (lap_time < 10)%Q \/ (1200 < lap_time)%Q ->
  exists self',
    IRacing.save_pending_lap self uuid time_ms lap_time = (None, self')
    /\ laps self' = laps self.
Proof.
  intros H. unfold IRacing.save_pending_lap.
  destruct ((length (pending_lap_points self) =? 0)%nat
            || (length (pending_lap_points self) <? 100)%nat) eqn:E1.
  { eexists. split; reflexivity. }
  destruct (Qltb lap_time 10 || Qltb 1200 lap_time) eqn:E2.
  { eexists. split; reflexivity. }
  exfalso. apply orb_false_iff in E1 as [_ E1], E2 as [E2 E3].
  apply Nat.ltb_ge in E1. apply Qltb_ge in E2, E3.
  destruct H as [H | [H | H]]; [lia | lra | lra].
Qed.

Lemma lap_valid_unflag l : lap_valid l -> lap_valid (set_isSessionBest false l).
Proof. intros H. exact H. Qed.

(** The lap built by either completion path is valid. *)
Lemma new_lap_valid uuid n lap_time b tr car time_ms pts delta :
  (100 <= length pts)%nat -> (10 <= lap_time)%Q -> (lap_time <= 1200)%Q ->
  lap_valid
    (mkLap uuid n (py_round lap_time 3) b tr car time_ms (map asdict pts) delta).
Proof.
  intros Hn H1 H2. unfold lap_valid. cbn.
  rewrite length_map. split; [exact Hn|]. split.
  - apply (py_round_ge 10), H1.
  - apply (py_round_le 1200), H2.
Qed.

Lemma exec_iracing_valid self c :
  all_laps_valid self -> all_laps_valid (exec_iracing self c).2.
Proof.
  unfold all_laps_valid. intros H.
  destruct c as [n | p | uuid time_ms lap_time tr car | uuid time_ms lap_time
                 | | lap_id | | | pts number track car created_at]; cbn.
  - exact H.
  - unfold IRacing.add_point.
    destruct (negb (recording_active self)); [exact H|].
    destruct (_ || _); exact H.
  - unfold IRacing.complete_lap.
    destruct (negb (recording_active self)
              || (length (current_lap_points self) <? 100)%nat) eqn:E1;
      [exact H|].
    destruct (Qltb lap_time 10 || Qltb 1200 lap_time) eqn:E2; [exact H|].
    apply orb_false_iff in E1 as [_ E1], E2 as [E2 E3].
    apply Nat.ltb_ge in E1. apply Qltb_ge in E2, E3.
    cbn. apply enforce_limit_loop_Forall. cbn.
    apply Forall_dict_set.
    + apply new_lap_valid; assumption.
    + apply update_session_best_Forall; [| exact H].
      intros k' l Hl. exact Hl.
  - unfold IRacing.save_pending_lap.
    destruct ((length (pending_lap_points self) =? 0)%nat
              || (length (pending_lap_points self) <? 100)%nat) eqn:E1;
      [exact H|].
    destruct (Qltb lap_time 10 || Qltb 1200 lap_time) eqn:E2; [exact H|].
    apply orb_false_iff in E1 as [_ E1], E2 as [E2 E3].
    apply Nat.ltb_ge in E1. apply Qltb_ge in E2, E3.
    cbn. apply enforce_limit_loop_Forall. cbn.
    apply Forall_dict_set.
    + apply new_lap_valid; assumption.
    + apply update_session_best_Forall; [| exact H].
      intros k' l Hl. exact Hl.
  - apply enforce_limit_loop_Forall, H.
  - unfold IRacing.delete_lap.
    destruct (negb _); [exact H|].
    destruct (dict_mem lap_id (laps self)); [| exact H].
    cbn. apply Forall_dict_del, H.
  - exact H.
  - constructor.
  - exact H.
Qed.

Lemma run_calls_valid cs : forall self,
  all_laps_valid self -> all_laps_valid (run_calls exec_iracing self cs).2.
Proof.
  induction cs as [| c r IH]; intros self H; cbn; [exact H|].
  pose proof (exec_iracing_valid self c H) as H1.
  destruct (exec_iracing self c) as [res s1].
  specialize (IH s1 H1).
  destruct (run_calls exec_iracing s1 r) as [rs s2]. exact IH.
Qed.

Lemma float_enforce_limit_loop_Forall
    (P : string * FloatStorage.LapData -> Prop) fuel self :
  Forall P (FloatStorage.laps self) ->
  Forall P (FloatStorage.laps (FloatStorage.enforce_limit_loop fuel self)).
Proof.
  revert self. induction fuel as [| fuel IH]; intros self H; cbn; [exact H|].
  destruct (FloatStorage.max_laps self
            <? Z.of_nat (length (FloatStorage.laps self))); [| exact H].
  destruct (FloatStorage.find_oldest _ _ _ _) as [[k |] ot]; cbn; [| exact H].
  destruct (str_truthy k); [| exact H].
  apply IH. cbn. apply Forall_dict_del, H.
Qed.

Lemma float_update_session_best_Forall
    (P : string * FloatStorage.LapData -> Prop) self b k t :
  (forall k' l, P (k', l) -> P (k', FloatStorage.set_isSessionBest false l)) ->
  Forall P (FloatStorage.laps self) ->
  Forall P (FloatStorage.laps (FloatStorage.update_session_best self b k t)).
Proof.
  intros HP H. unfold FloatStorage.update_session_best.
  destruct b; [| exact H]. cbn.
  destruct (FloatStorage.session_best_id self) as [bid |]; [| exact H].
  destruct (str_truthy bid && dict_mem bid (FloatStorage.laps self));
    [| exact H].
  cbn. apply Forall_dict_alter; assumption.
Qed.

(** A float that passes both range tests is NaN or a number within
    [10, 1200]. *)
Lemma range_tests_passed (lap_time : float) :
  float_ltb lap_time (Finite 10) || float_ltb (Finite 1200) lap_time = false ->
  lap_time = NaN
  \/ exists q : Q, lap_time = Finite q /\ (10 <= q)%Q /\ (q <= 1200)%Q.
Proof.
  destruct lap_time as [q | | |]; cbn; try discriminate; [| auto].
  intros H. apply orb_false_iff in H as [H1 H2]. apply Qltb_ge in H1, H2.
  right. exists q. auto.
Qed.

Lemma float_complete_lap_rejects self uuid time_ms lap_time track_name car_name :
  (length (FloatStorage.current_lap_points self) < 100)%nat
  \/ float_ltb lap_time (Finite 10) = true
  \/ float_ltb (Finite 1200) lap_time = true ->
  exists self',
    FloatStorage.complete_lap self uuid time_ms lap_time track_name car_name
      = (None, self')
    /\ FloatStorage.laps self' = FloatStorage.laps self.
Proof.
  intros H. unfold FloatStorage.complete_lap.
  destruct (negb (FloatStorage.recording_active self)
            || (length (FloatStorage.current_lap_points self) <? 100)%nat)
    eqn:E1.
  { eexists. split; reflexivity. }
  destruct (float_ltb lap_time (Finite 10) || float_ltb (Finite 1200) lap_time)
    eqn:E2.
  { eexists. split; reflexivity. }
  exfalso. apply orb_false_iff in E1 as [_ E1], E2 as [E2 E3].
  apply Nat.ltb_ge in E1.
  destruct H as [H | [H | H]]; [lia | congruence | congruence].
Qed.

Lemma float_save_pending_lap_rejects self uuid time_ms lap_time :
  (length (FloatStorage.pending_lap_points self) < 100)%nat
  \/ float_ltb lap_time (Finite 10) = true
  \/ float_ltb (Finite 1200) lap_time = true ->
  exists self',
    FloatStorage.save_pending_lap self uuid time_ms lap_time = (None, self')
    /\ FloatStorage.laps self' = FloatStorage.laps self.
Proof.
  intros H. unfold FloatStorage.save_pending_lap.
  destruct ((length (FloatStorage.pending_lap_points self) =? 0)%nat
            || (length (FloatStorage.pending_lap_points self) <? 100)%nat)
    eqn:E1.
  { eexists. split; reflexivity. }
  destruct (float_ltb lap_time (Finite 10) || float_ltb (Finite 1200) lap_time)
    eqn:E2.
  { eexists. split; reflexivity. }
  exfalso. apply orb_false_iff in E1 as [_ E1], E2 as [E2 E3].
  apply Nat.ltb_ge in E1.
  destruct H as [H | [H | H]]; [lia | congruence | congruence].
Qed.

(** The lap built by either completion path from a lap time that is not
    NaN is valid. *)
Lemma float_new_lap_valid uuid n (lap_time : float) b tr car time_ms pts delta :
  (100 <= length pts)%nat ->
  float_ltb lap_time (Finite 10) || float_ltb (Finite 1200) lap_time = false ->
  is_nan lap_time = false ->
  FloatStorage.lap_valid
    (FloatStorage.mkLap uuid n (float_round lap_time 3) b tr car time_ms
       (map asdict pts) delta).
Proof.
  intros Hn Hr Hnan. unfold FloatStorage.lap_valid. cbn.
  rewrite length_map. split; [exact Hn|].
  destruct (range_tests_passed lap_time Hr) as [-> | (q & -> & H1 & H2)];
    [discriminate|].
  cbn. split; apply Qleb_le.
  - apply (py_round_ge 10), H1.
  - apply (py_round_le 1200), H2.
Qed.

Lemma float_exec_valid self c :
  FloatStorage.time_is_number c = true ->
  FloatStorage.all_laps_valid self ->
  FloatStorage.all_laps_valid (FloatStorage.exec self c).
Proof.
  unfold FloatStorage.all_laps_valid. intros Hc H.
  destruct c as [n | p | uuid time_ms lap_time tr car | uuid time_ms lap_time
                 | | lap_id | | | pts number track car created_at]; cbn.
  - exact H.
  - unfold FloatStorage.add_point.
    destruct (negb (FloatStorage.recording_active self)); [exact H|].
    destruct (_ || _); exact H.
  - unfold FloatStorage.complete_lap.
    destruct (negb (FloatStorage.recording_active self)
              || (length (FloatStorage.current_lap_points self) <? 100)%nat)
      eqn:E1; [exact H|].
    destruct (float_ltb lap_time (Finite 10)
              || float_ltb (Finite 1200) lap_time) eqn:E2; [exact H|].
    apply orb_false_iff in E1 as [_ E1]. apply Nat.ltb_ge in E1.
    cbn in Hc. apply negb_true_iff in Hc.
    cbn. apply float_enforce_limit_loop_Forall. cbn.
    apply Forall_dict_set.
    + apply float_new_lap_valid; assumption.
    + apply float_update_session_best_Forall; [| exact H].
      intros k' l Hl. exact Hl.
  - unfold FloatStorage.save_pending_lap.
    destruct ((length (FloatStorage.pending_lap_points self) =? 0)%nat
              || (length (FloatStorage.pending_lap_points self) <? 100)%nat)
      eqn:E1; [exact H|].
    destruct (float_ltb lap_time (Finite 10)
              || float_ltb (Finite 1200) lap_time) eqn:E2; [exact H|].
    apply orb_false_iff in E1 as [_ E1]. apply Nat.ltb_ge in E1.
    cbn in Hc. apply negb_true_iff in Hc.
    cbn. apply float_enforce_limit_loop_Forall. cbn.
    apply Forall_dict_set.
    + apply float_new_lap_valid; assumption.
    + apply float_update_session_best_Forall; [| exact H].
      intros k' l Hl. exact Hl.
  - apply float_enforce_limit_loop_Forall, H.
  - unfold FloatStorage.delete_lap.
    destruct (negb _); [exact H|].
    destruct (dict_mem lap_id (FloatStorage.laps self)); [| exact H].
    cbn. apply Forall_dict_del, H.
  - exact H.
  - constructor.
  - exact H.
Qed.

Lemma float_run_valid cs : forall self,
  forallb FloatStorage.time_is_number cs = true ->
  FloatStorage.all_laps_valid self ->
  FloatStorage.all_laps_valid (FloatStorage.run self cs).
Proof.
  unfold FloatStorage.run.
  induction cs as [| c r IH]; intros self Hc H; cbn; [exact H|].
  cbn in Hc. apply andb_true_iff in Hc as [Hc Hr].
  apply IH; [exact Hr|]. apply float_exec_valid; assumption.
Qed.

Lemma float_new_lap_valid_or_nan uuid n (lap_time : float) b tr car time_ms
    pts delta :
  (100 <= length pts)%nat ->
  float_ltb lap_time (Finite 10) || float_ltb (Finite 1200) lap_time = false ->
  FloatStorage.lap_valid_or_nan
    (FloatStorage.mkLap uuid n (float_round lap_time 3) b tr car time_ms
       (map asdict pts) delta).
Proof.
  intros Hn Hr. unfold FloatStorage.lap_valid_or_nan. cbn.
  rewrite length_map. split; [exact Hn|].
  destruct (range_tests_passed lap_time Hr) as [-> | (q & -> & H1 & H2)];
    [left; reflexivity|].
  right. cbn. split; apply Qleb_le.
  - apply (py_round_ge 10), H1.
  - apply (py_round_le 1200), H2.
Qed.

Lemma float_exec_valid_or_nan self c :
  FloatStorage.all_laps_valid_or_nan self ->
  FloatStorage.all_laps_valid_or_nan (FloatStorage.exec self c).
Proof.
  unfold FloatStorage.all_laps_valid_or_nan. intros H.
  destruct c as [n | p | uuid time_ms lap_time tr car | uuid time_ms lap_time
                 | | lap_id | | | pts number track car created_at]; cbn.
  - exact H.
  - unfold FloatStorage.add_point.
    destruct (negb (FloatStorage.recording_active self)); [exact H|].
    destruct (_ || _); exact H.
  - unfold FloatStorage.complete_lap.
    destruct (negb (FloatStorage.recording_active self)
              || (length (FloatStorage.current_lap_points self) <? 100)%nat)
      eqn:E1; [exact H|].
    destruct (float_ltb lap_time (Finite 10)
              || float_ltb (Finite 1200) lap_time) eqn:E2; [exact H|].
    apply orb_false_iff in E1 as [_ E1]. apply Nat.ltb_ge in E1.
    cbn. apply float_enforce_limit_loop_Forall. cbn.
    apply Forall_dict_set.
    + apply float_new_lap_valid_or_nan; assumption.
    + apply float_update_session_best_Forall; [| exact H].
      intros k' l Hl. exact Hl.
  - unfold FloatStorage.save_pending_lap.
    destruct ((length (FloatStorage.pending_lap_points self) =? 0)%nat
              || (length (FloatStorage.pending_lap_points self) <? 100)%nat)
      eqn:E1; [exact H|].
    destruct (float_ltb lap_time (Finite 10)
              || float_ltb (Finite 1200) lap_time) eqn:E2; [exact H|].
    apply orb_false_iff in E1 as [_ E1]. apply Nat.ltb_ge in E1.
    cbn. apply float_enforce_limit_loop_Forall. cbn.
    apply Forall_dict_set.
    + apply float_new_lap_valid_or_nan; assumption.
    + apply float_update_session_best_Forall; [| exact H].
      intros k' l Hl. exact Hl.
  - apply float_enforce_limit_loop_Forall, H.
  - unfold FloatStorage.delete_lap.
    destruct (negb _); [exact H|].
    destruct (dict_mem lap_id (FloatStorage.laps self)); [| exact H].
    cbn. apply Forall_dict_del, H.
  - exact H.
  - constructor.
  - exact H.
Qed.

Lemma float_run_valid_or_nan cs : forall self,
  FloatStorage.all_laps_valid_or_nan self ->
  FloatStorage.all_laps_valid_or_nan (FloatStorage.run self cs).
Proof.
  unfold FloatStorage.run.
  induction cs as [| c r IH]; intros self H; cbn; [exact H|].
  apply IH, float_exec_valid_or_nan, H.
Qed.




(** ** C4: two laps on an empty service *)

(** As stated the scenario fails on the second lap: its
    [deltaToSessionBest] is taken against the best time before the lap
    was stored, 94.010 - 95.432, and is not 0.0. *)
Lemma second_lap_delta_not_zero :
  exists lap2,
    second_lap_done.1 = Some lap2
    /\ isSessionBest lap2 = true
    /\ ~ (deltaToSessionBest lap2 == 0)%Q.
Proof.
  eexists. split; [vm_compute; reflexivity|].
  split; [reflexivity|]. cbn. intros H. discriminate H.
Qed.

(** C4 (amended). On an empty service, 150 recorded points with rising
    [distancePct] and [complete_lap(95.432, "Spa", "GT3")] give a lap
    with [isSessionBest = true] and [deltaToSessionBest = 0.0].  A second
    recorded lap completed in 94.010 s gives a lap with
    [isSessionBest = true] and [deltaToSessionBest = -1.422], the
    difference to the best time before it; the first lap stays stored
    with [isSessionBest = false] and its [deltaToSessionBest] still
    0.0. *)
Theorem two_laps_scenario :
  exists lap1 lap2 lap1',
    first_lap_done.1 = Some lap1
    /\ length (points lap1) = 150%nat
    /\ isSessionBest lap1 = true
    /\ (deltaToSessionBest lap1 == 0)%Q
    /\ IRacing.get_lap first_lap_done.2 (id lap1) = Some lap1
    /\ second_lap_done.1 = Some lap2
    /\ isSessionBest lap2 = true
    /\ (deltaToSessionBest lap2 == - (1422 # 1000))%Q
    /\ IRacing.get_lap second_lap_done.2 (id lap2) = Some lap2
    /\ IRacing.get_lap second_lap_done.2 (id lap1) = Some lap1'
    /\ isSessionBest lap1' = false
    /\ lap1' = set_isSessionBest false lap1
    /\ (deltaToSessionBest lap1' == 0)%Q.
Proof.
  do 3 eexists.
  split; [vm_compute; reflexivity|].
  split; [reflexivity|].
  split; [reflexivity|].
  split; [reflexivity|].
  split; [vm_compute; reflexivity|].
  split; [vm_compute; reflexivity|].
  split; [reflexivity|].
  split; [reflexivity|].
  split; [vm_compute; reflexivity|].
  split; [vm_compute; reflexivity|].
  split; [reflexivity|].
  split; [reflexivity|].
  reflexivity.
Qed.

(** ** Lookups after updates *)

Section DictUpdates.
Context {V : Type}.
Implicit Types (d : dict V) (k : string) (v : V).

Lemma dict_get_set k k' v d :
  dict_get k' (dict_set k v d)
  = if String.eqb k' k then Some v else dict_get k' d.
Proof.
  induction d as [| [k0 v0] r IH]; cbn.
  - destruct (String.eqb k' k); reflexivity.
  - destruct (String.eqb_spec k k0) as [-> | Hne]; cbn.
    + destruct (String.eqb k' k0); reflexivity.
    + rewrite IH.
      destruct (String.eqb_spec k' k0) as [-> | Hne'].
      * destruct (String.eqb_spec k0 k); [congruence | reflexivity].
      * reflexivity.
Qed.

Lemma dict_get_del_ne k k' d :
  k' <> k -> dict_get k' (dict_del k d) = dict_get k' d.
Proof.
  intros Hne. induction d as [| [k0 v0] r IH]; cbn; [reflexivity|].
  destruct (String.eqb_spec k k0) as [-> | Hne0]; cbn.
  - destruct (String.eqb_spec k' k0); [congruence | reflexivity].
  - rewrite IH. reflexivity.
Qed.

Lemma dict_get_del_eq k d :
  NoDup (dict_keys d) -> dict_get k (dict_del k d) = None.
Proof.
  induction d as [| [k0 v0] r IH]; cbn; [reflexivity|].
  intros Hnd. apply NoDup_cons in Hnd as [Hk0 Hnd].
  destruct (String.eqb_spec k k0) as [-> | Hne]; cbn.
  - apply dict_get_None. intros Hin. apply Hk0, list_elem_of_In, Hin.
  - destruct (String.eqb_spec k k0); [congruence | auto].
Qed.

Lemma dict_get_alter (f : V -> V) k k' d :
  dict_get k' (dict_alter f k d)
  = if String.eqb k' k then option_map f (dict_get k d) else dict_get k' d.
Proof.
  induction d as [| [k0 v0] r IH]; cbn.
  - destruct (String.eqb k' k); reflexivity.
  - destruct (String.eqb_spec k k0) as [-> | Hne]; cbn.
    + destruct (String.eqb k' k0); reflexivity.
    + rewrite IH.
      destruct (String.eqb_spec k' k0) as [-> | Hne'].
      * destruct (String.eqb_spec k0 k); [congruence | reflexivity].
      * reflexivity.
Qed.

Lemma dict_keys_alter (f : V -> V) k d :
  dict_keys (dict_alter f k d) = dict_keys d.
Proof.
  induction d as [| [k0 v0] r IH]; cbn; [reflexivity|].
  destruct (String.eqb k k0); cbn; [reflexivity | f_equal; exact IH].
Qed.

Lemma dict_set_fresh k v d :
  dict_get k d = None -> dict_set k v d = d ++ [(k, v)].
Proof.
  induction d as [| [k0 v0] r IH]; cbn; [reflexivity|].
  destruct (String.eqb k k0); [discriminate|].
  intros H. f_equal. auto.
Qed.

Lemma dict_keys_set k v d :
  dict_keys (dict_set k v d)
  = if dict_mem k d then dict_keys d else dict_keys d ++ [k].
Proof.
  unfold dict_mem, dict_keys.
  induction d as [| [k0 v0] r IH]; cbn; [reflexivity|].
  destruct (String.eqb_spec k k0) as [-> | Hne]; cbn; [reflexivity|].
  rewrite IH. destruct (dict_get k r); reflexivity.
Qed.

Lemma NoDup_dict_set k v d :
  NoDup (dict_keys d) -> NoDup (dict_keys (dict_set k v d)).
Proof.
  intros Hnd. rewrite dict_keys_set. unfold dict_mem.
  destruct (dict_get k d) eqn:E; [exact Hnd|].
  apply NoDup_app. split; [exact Hnd|]. split.
  - intros x Hx Hk. apply list_elem_of_In in Hx.
    apply list_elem_of_In in Hk. cbn in Hk. destruct Hk as [<- | []].
    apply dict_get_None in E. tauto.
  - apply NoDup_singleton.
Qed.

Lemma dict_keys_del_incl k d x :
  In x (dict_keys (dict_del k d)) -> In x (dict_keys d).
Proof.
  induction d as [| [k0 v0] r IH]; cbn; [tauto|].
  destruct (String.eqb k k0); cbn; tauto.
Qed.

Lemma NoDup_dict_del k d :
  NoDup (dict_keys d) -> NoDup (dict_keys (dict_del k d)).
Proof.
  induction d as [| [k0 v0] r IH]; cbn; [auto|].
  intros Hnd. apply NoDup_cons in Hnd as [Hk0 Hnd].
  destruct (String.eqb k k0); cbn; [exact Hnd|].
  apply NoDup_cons. split; [| auto].
  intros Hin. apply Hk0. apply list_elem_of_In.
  apply list_elem_of_In in Hin. eapply dict_keys_del_incl, Hin.
Qed.

Lemma dict_del_length k d :
  dict_mem k d = true -> length d = S (length (dict_del k d)).
Proof.
  unfold dict_mem.
  induction d as [| [k0 v0] r IH]; cbn; [discriminate|].
  destruct (String.eqb k k0); cbn; [reflexivity|].
  intros H. f_equal. auto.
Qed.

Lemma dict_get_Some_In k v d : In (k, v) d -> dict_mem k d = true.
Proof.
  unfold dict_mem.
  induction d as [| [k0 v0] r IH]; cbn; [tauto|].
  intros [Heq | Hin].
  - inversion Heq; subst. now rewrite String.eqb_refl.
  - destruct (String.eqb k k0); [reflexivity | auto].
Qed.
End DictUpdates.

(** ** C2: the session-best invariant *)

Lemma str_truthy_ne (s : string) : str_truthy s = true <-> s <> ""%string.
Proof.
  unfold str_truthy. destruct (String.eqb_spec s ""); cbn; split;
    congruence.
Qed.

Lemma id_differs_ne k b : IRacing.id_differs k (Some b) = true <-> k <> b.
Proof.
  cbn. destruct (String.eqb_spec k b); cbn; split; congruence.
Qed.

Lemma store_inv_init : store_inv [] None PosInf.
Proof.
  split; [constructor|]. split; [discriminate|]. split; reflexivity.
Qed.

Lemma store_inv_del d bid bt k :
  store_inv d bid bt -> IRacing.id_differs k bid = true ->
  store_inv (dict_del k d) bid bt.
Proof.
  intros (Hnd & Hflag & Hbest) Hk.
  assert (Hsub : forall k' l, dict_get k' (dict_del k d) = Some l ->
                              dict_get k' d = Some l).
  { intros k' l H. destruct (String.eqb_spec k' k) as [-> | Hne].
    - rewrite dict_get_del_eq in H by exact Hnd. discriminate.
    - rewrite dict_get_del_ne in H by exact Hne. exact H. }
  split; [apply NoDup_dict_del, Hnd|].
  split; [intros k' l H; apply Hflag, Hsub, H|].
  destruct bid as [b |].
  - destruct Hbest as (Hb & t & lap & Ht & Hlap & Hround & Hmin).
    split; [exact Hb|]. exists t, lap.
    apply id_differs_ne in Hk.
    rewrite dict_get_del_ne by congruence.
    repeat split; try assumption.
    intros k' l H. apply (Hmin k'), Hsub, H.
  - destruct Hbest as [-> ->]. split; reflexivity.
Qed.

(** What the scan of [_enforce_limit] returns is the starting candidate
    or the key of a lap that is not the session best. *)
Lemma find_oldest_differs best items oid ot k ot' :
  IRacing.find_oldest best items oid ot = (Some k, ot') ->
  oid = Some k \/ (IRacing.id_differs k best = true /\ In k (dict_keys items)).
Proof.
  revert oid ot. induction items as [| [k0 l0] r IH]; intros oid ot; cbn.
  - intros [= -> _]. now left.
  - destruct (IRacing.id_differs k0 best
              && IRacing.older_than (completedAt l0) ot) eqn:E; intros H.
    + apply IH in H as [[= ->] | [H1 H2]].
      * right. apply andb_true_iff in E as [E _]. split; [exact E | now left].
      * right. split; [exact H1 | now right].
    + apply IH in H as [-> | [H1 H2]]; [now left|].
      right. split; [exact H1 | now right].
Qed.

Lemma enforce_limit_loop_inv fuel self :
  best_inv self -> best_inv (IRacing.enforce_limit_loop fuel self).
Proof.
  revert self. induction fuel as [| fuel IH]; intros self H; cbn; [exact H|].
  destruct (max_laps self <? Z.of_nat (length (laps self))); [| exact H].
  destruct (IRacing.find_oldest _ _ _ _) as [[k |] ot] eqn:E; cbn; [| exact H].
  destruct (str_truthy k); [| exact H].
  apply IH. unfold best_inv. cbn.
  apply store_inv_del; [exact H|].
  apply find_oldest_differs in E as [[=] | [E _]]. exact E.
Qed.

Lemma enforce_limit_loop_best fuel self :
  session_best_id (IRacing.enforce_limit_loop fuel self) = session_best_id self
  /\ session_best_time (IRacing.enforce_limit_loop fuel self)
     = session_best_time self
  /\ max_laps (IRacing.enforce_limit_loop fuel self) = max_laps self.
Proof.
  revert self. induction fuel as [| fuel IH]; intros self; cbn; [auto|].
  destruct (max_laps self <? Z.of_nat (length (laps self))); [| auto].
  destruct (IRacing.find_oldest _ _ _ _) as [[k |] ot]; cbn; [| auto].
  destruct (str_truthy k); [| auto].
  destruct (IH (set_laps (dict_del k (laps self)) self)) as (H1 & H2 & H3).
  rewrite H1, H2, H3. auto.
Qed.

(** Storing a new lap under a fresh identifier keeps the invariant. *)
Lemma store_lap_inv self uuid lap lap_time :
  best_inv self -> uuid <> ""%string -> dict_get uuid (laps self) = None ->
  isSessionBest lap = lt_pyfloat lap_time (session_best_time self) ->
  (lapTime lap == py_round lap_time 3)%Q ->
  let s1 :=
    IRacing.update_session_best self
      (lt_pyfloat lap_time (session_best_time self)) uuid lap_time in
  store_inv (dict_set uuid lap (laps s1)) (session_best_id s1)
            (session_best_time s1).
Proof.
  intros (Hnd & Hflag & Hbest) Hne Hfresh Hlapflag Hlaptime.
  unfold IRacing.update_session_best.
  destruct (lt_pyfloat lap_time (session_best_time self)) eqn:Elt.
  - destruct (session_best_id self) as [b |] eqn:Ebid.
    + destruct Hbest as (Hb & t & lapb & Ht & Hlapb & Hround & Hmin).
      assert (Hbt : str_truthy b = true) by (apply str_truthy_ne, Hb).
      assert (Hmem : dict_mem b (laps self) = true)
        by (unfold dict_mem; rewrite Hlapb; reflexivity).
      rewrite Hbt, Hmem. cbn.
      rewrite Ht in Elt. cbn in Elt. apply Qltb_lt in Elt.
      assert (Hle : (py_round lap_time 3 <= py_round t 3)%Q)
        by (apply py_round_mono; lra).
      split.
      { apply NoDup_dict_set. rewrite dict_keys_alter. exact Hnd. }
      split.
      { intros k l. rewrite dict_get_set.
        destruct (String.eqb_spec k uuid) as [-> | Hku].
        - intros [= <-]. tauto.
        - rewrite dict_get_alter.
          destruct (String.eqb_spec k b) as [-> | Hkb].
          + rewrite Hlapb. cbn. intros [= <-]. cbn.
            split; [discriminate | congruence].
          + intros H. apply Hflag in H.
            split; [intros H1; apply H in H1; congruence | congruence]. }
      split; [exact Hne|]. exists lap_time, lap.
      split; [reflexivity|]. split.
      { rewrite dict_get_set, String.eqb_refl. reflexivity. }
      split; [exact Hlaptime|].
      intros k l. rewrite dict_get_set.
      destruct (String.eqb_spec k uuid) as [-> | Hku].
      * intros [= <-]. lra.
      * rewrite dict_get_alter.
        destruct (String.eqb_spec k b) as [-> | Hkb].
        -- rewrite Hlapb. cbn. intros [= <-]. cbn. lra.
        -- intros H. apply Hmin in H. lra.
    + destruct Hbest as [Hd Ht]. cbn. rewrite Hd in *. cbn.
      split; [repeat constructor; apply not_elem_of_nil|].
      split.
      { intros k l. cbn.
        destruct (String.eqb_spec k uuid) as [-> | Hku]; [| discriminate].
        intros [= <-]. tauto. }
      split; [exact Hne|]. exists lap_time, lap.
      split; [reflexivity|]. cbn. rewrite String.eqb_refl.
      split; [reflexivity|]. split; [exact Hlaptime|].
      intros k l.
      destruct (String.eqb_spec k uuid) as [-> | Hku]; [| discriminate].
      intros [= <-]. lra.
  - destruct (session_best_time self) as [t |] eqn:Ebt; [| discriminate].
    cbn in Elt. apply Qltb_ge in Elt.
    destruct (session_best_id self) as [b |] eqn:Ebid;
      [| destruct Hbest as [_ [=]]].
    destruct Hbest as (Hb & t' & lapb & [= <-] & Hlapb & Hround & Hmin).
    assert (Hbu : b <> uuid) by congruence.
    cbn. rewrite ?Ebid, ?Ebt.
    split; [apply NoDup_dict_set, Hnd|].
    split.
    { intros k l. rewrite dict_get_set.
      destruct (String.eqb_spec k uuid) as [-> | Hku].
      - intros [= <-]. rewrite Hlapflag.
        split; [discriminate | congruence].
      - apply Hflag. }
    split; [exact Hb|]. exists t, lapb.
    split; [reflexivity|]. split.
    { rewrite dict_get_set.
      destruct (String.eqb_spec b uuid); [congruence | exact Hlapb]. }
    split; [exact Hround|].
    intros k l. rewrite dict_get_set.
    destruct (String.eqb_spec k uuid) as [-> | Hku].
    + intros [= <-].
      assert (Hle : (py_round t 3 <= py_round lap_time 3)%Q)
        by (apply py_round_mono; exact Elt).
      lra.
    + apply Hmin.
Qed.

Lemma best_inv_minimal self : best_inv self -> best_is_minimal self.
Proof.
  intros (Hnd & Hflag & Hbest) b Hb. rewrite Hb in Hbest.
  destruct Hbest as (Hne & t & lap & Ht & Hlap & Hround & Hmin).
  exists lap. split; [apply dict_get_In, Hlap|].
  intros k l Hin. apply In_dict_get in Hin; [| exact Hnd].
  apply Hmin in Hin. lra.
Qed.

Lemma flagged_laps_none (d : dict LapData) :
  (forall k l, In (k, l) d -> isSessionBest l = false) -> flagged_laps d = [].
Proof.
  induction d as [| [k0 l0] r IH]; intros H; cbn; [reflexivity|].
  rewrite (H k0 l0) by now left.
  apply IH. intros k l Hin. apply (H k). now right.
Qed.

Lemma flagged_laps_one (d : dict LapData) b lap :
  NoDup (dict_keys d) ->
  (forall k l, In (k, l) d -> (isSessionBest l = true <-> k = b)) ->
  In (b, lap) d -> flagged_laps d = [(b, lap)].
Proof.
  induction d as [| [k0 l0] r IH]; intros Hnd H Hin; [destruct Hin|].
  cbn in Hnd. apply NoDup_cons in Hnd as [Hk0 Hnd].
  assert (Hrest : forall k l, In (k, l) r -> k <> k0).
  { intros k l Hkl ->. apply Hk0. apply list_elem_of_In.
    apply (in_map fst) in Hkl. exact Hkl. }
  cbn. destruct Hin as [[= -> ->] | Hin].
  - assert (Hf : isSessionBest lap = true) by (apply (H b); [now left | reflexivity]).
    rewrite Hf. f_equal. apply flagged_laps_none.
    intros k l Hkl. destruct (isSessionBest l) eqn:E; [| reflexivity].
    exfalso. apply (Hrest k l Hkl). apply (H k l); [now right | exact E].
  - assert (Hf : isSessionBest l0 = false).
    { destruct (isSessionBest l0) eqn:E; [| reflexivity].
      exfalso. apply (Hrest b lap Hin). symmetry.
      apply (H k0 l0); [now left | exact E]. }
    rewrite Hf. apply IH; [exact Hnd | | exact Hin].
    intros k l Hkl. apply H. now right.
Qed.

Lemma best_inv_one_flagged self : best_inv self -> one_flagged self.
Proof.
  intros (Hnd & Hflag & Hbest). unfold one_flagged.
  destruct (session_best_id self) as [b |].
  - destruct Hbest as (Hne & t & lap & Ht & Hlap & _).
    exists lap. apply flagged_laps_one; [exact Hnd | | apply dict_get_In, Hlap].
    intros k l Hin. apply In_dict_get in Hin; [| exact Hnd].
    rewrite (Hflag k l Hin). split; congruence.
  - destruct Hbest as [-> _]. reflexivity.
Qed.

Lemma pyfloat_le_refl x : pyfloat_le x x.
Proof. destruct x; cbn; [apply Qle_refl | exact I]. Qed.

Lemma update_session_best_le self uuid lap_time :
  pyfloat_le
    (session_best_time
       (IRacing.update_session_best self
          (lt_pyfloat lap_time (session_best_time self)) uuid lap_time))
    (session_best_time self).
Proof.
  unfold IRacing.update_session_best.
  destruct (lt_pyfloat lap_time (session_best_time self)) eqn:E;
    [| apply pyfloat_le_refl].
  cbn. destruct (session_best_time self) as [t |]; [| exact I].
  cbn in E. apply Qltb_lt in E. cbn. lra.
Qed.

Lemma call_fresh_spec self uuid :
  str_truthy uuid && negb (dict_mem uuid (laps self)) = true ->
  uuid <> ""%string /\ dict_get uuid (laps self) = None.
Proof.
  intros H. apply andb_true_iff in H as [H1 H2].
  split; [apply str_truthy_ne, H1|].
  unfold dict_mem in H2. destruct (dict_get uuid (laps self));
    [discriminate | reflexivity].
Qed.

(** The invariant does not read the recording attributes. *)
Lemma best_inv_recording self pts b :
  best_inv self -> best_inv (set_current_lap_points pts (set_recording_active b self)).
Proof. intros H. exact H. Qed.

Lemma exec_iracing_inv self c :
  best_inv self -> call_fresh self c = true ->
  best_inv (exec_iracing self c).2.
Proof.
  intros H Hfresh.
  destruct c as [n | p | uuid time_ms lap_time tr car | uuid time_ms lap_time
                 | | lap_id | | | pts number track car created_at]; cbn.
  - exact H.
  - unfold IRacing.add_point.
    destruct (negb (recording_active self)); [exact H|].
    destruct (_ || _); exact H.
  - unfold IRacing.complete_lap.
    destruct (negb (recording_active self) || _); [exact H|].
    destruct (Qltb lap_time 10 || Qltb 1200 lap_time); [exact H|].
    cbn in Hfresh. apply call_fresh_spec in Hfresh as [Hne Hnew].
    cbn. apply best_inv_recording.
    apply enforce_limit_loop_inv.
    apply (store_lap_inv self uuid _ lap_time H Hne Hnew);
      [reflexivity | cbn; reflexivity].
  - unfold IRacing.save_pending_lap.
    destruct ((length (pending_lap_points self) =? 0)%nat || _); [exact H|].
    destruct (Qltb lap_time 10 || Qltb 1200 lap_time); [exact H|].
    cbn in Hfresh. apply call_fresh_spec in Hfresh as [Hne Hnew].
    cbn. apply enforce_limit_loop_inv.
    apply (store_lap_inv self uuid _ lap_time H Hne Hnew);
      [reflexivity | cbn; reflexivity].
  - apply enforce_limit_loop_inv, H.
  - unfold IRacing.delete_lap.
    destruct (IRacing.id_differs lap_id (session_best_id self)) eqn:E;
      [| exact H].
    cbn. destruct (dict_mem lap_id (laps self)); [| exact H].
    apply store_inv_del; assumption.
  - exact H.
  - apply store_inv_init.
  - exact H.
Qed.

Lemma exec_iracing_best_time self c :
  best_time_step c self (exec_iracing self c).2.
Proof.
  destruct c as [n | p | uuid time_ms lap_time tr car | uuid time_ms lap_time
                 | | lap_id | | | pts number track car created_at]; cbn.
  - apply pyfloat_le_refl.
  - unfold IRacing.add_point.
    destruct (negb (recording_active self)); [apply pyfloat_le_refl|].
    destruct (_ || _); apply pyfloat_le_refl.
  - unfold IRacing.complete_lap.
    destruct (negb (recording_active self) || _); [apply pyfloat_le_refl|].
    destruct (Qltb lap_time 10 || Qltb 1200 lap_time);
      [apply pyfloat_le_refl|].
    cbn. unfold IRacing._enforce_limit.
    match goal with
    | |- context [IRacing.enforce_limit_loop ?f ?s] =>
        destruct (enforce_limit_loop_best f s) as (_ & -> & _)
    end.
    apply update_session_best_le.
  - unfold IRacing.save_pending_lap.
    destruct ((length (pending_lap_points self) =? 0)%nat || _);
      [apply pyfloat_le_refl|].
    destruct (Qltb lap_time 10 || Qltb 1200 lap_time);
      [apply pyfloat_le_refl|].
    cbn. unfold IRacing._enforce_limit.
    match goal with
    | |- context [IRacing.enforce_limit_loop ?f ?s] =>
        destruct (enforce_limit_loop_best f s) as (_ & -> & _)
    end.
    apply update_session_best_le.
  - unfold IRacing._enforce_limit.
    destruct (enforce_limit_loop_best (length (laps self)) self)
      as (_ & -> & _).
    apply pyfloat_le_refl.
  - unfold IRacing.delete_lap.
    destruct (negb _); [apply pyfloat_le_refl|].
    destruct (dict_mem lap_id (laps self)); apply pyfloat_le_refl.
  - apply pyfloat_le_refl.
  - auto.
  - apply pyfloat_le_refl.
Qed.

Lemma run_calls_inv cs : forall self,
  best_inv self -> calls_fresh self cs = true ->
  best_inv (run_calls exec_iracing self cs).2.
Proof.
  induction cs as [| c r IH]; intros self H Hf; cbn; [exact H|].
  cbn in Hf. apply andb_true_iff in Hf as [Hc Hr].
  pose proof (exec_iracing_inv self c H Hc) as H1.
  destruct (exec_iracing self c) as [res s1]. cbn in *.
  specialize (IH s1 H1 Hr).
  destruct (run_calls exec_iracing s1 r) as [rs s2]. exact IH.
Qed.



(** ** C3: the limit on stored laps and eviction *)

Lemma id_differs_spec k best :
  IRacing.id_differs k best = true <-> best <> Some k.
Proof.
  destruct best as [b |]; cbn; [| split; [discriminate | reflexivity]].
  destruct (String.eqb_spec k b); cbn; split; congruence.
Qed.

(** The scan returns a running candidate that is at most as old as every
    lap it has passed that is not the session best. *)
Lemma find_oldest_spec best items : forall oid ot k ot',
  IRacing.find_oldest best items oid ot = (Some k, ot') ->
  (oid = None -> ot = None) -> (forall k0, oid = Some k0 -> ot <> None) ->
  exists t,
    ot' = Some t
    /\ ((oid = Some k /\ ot = Some t)
        \/ exists lap, In (k, lap) items
                       /\ IRacing.id_differs k best = true
                       /\ completedAt lap = t)
    /\ (forall k' lap', In (k', lap') items ->
                        IRacing.id_differs k' best = true ->
                        t <= completedAt lap')
    /\ (forall t0, ot = Some t0 -> t <= t0).
Proof.
  induction items as [| [k0 l0] r IH]; intros oid ot k ot' H Hn Hs; cbn in H.
  - injection H as -> ->.
    destruct ot' as [t |]; [| exfalso; eapply Hs; eauto].
    exists t. split; [reflexivity|]. split; [left; auto|].
    split; [intros ? ? []|]. intros t0 [= ->]. lia.
  - destruct (IRacing.id_differs k0 best) eqn:Ed; cbn in H.
    + destruct (IRacing.older_than (completedAt l0) ot) eqn:Eo.
      * apply IH in H as (t & -> & Hsrc & Hmin & Hacc);
          [| discriminate | intros ? _; discriminate].
        exists t. split; [reflexivity|].
        assert (Hc0 : t <= completedAt l0) by (apply Hacc; reflexivity).
        split.
        { right. destruct Hsrc as [[[= ->] [= <-]] | (lap & Hin & Hd & Ht)].
          - exists l0. split; [now left | auto].
          - exists lap. split; [now right | auto]. }
        split.
        { intros k' lap' [[= <- <-] | Hin] Hd'; [exact Hc0 | eauto]. }
        intros t0 ->. cbn in Eo. lia.
      * apply IH in H as (t & -> & Hsrc & Hmin & Hacc); [| exact Hn | exact Hs].
        exists t. split; [reflexivity|].
        split.
        { destruct Hsrc as [Hsrc | (lap & Hin & Hd & Ht)]; [now left|].
          right. exists lap. split; [now right | auto]. }
        split; [| exact Hacc].
        intros k' lap' [[= <- <-] | Hin] Hd'; [| eauto].
        destruct ot as [t0 |]; [| discriminate].
        cbn in Eo. specialize (Hacc t0 eq_refl). lia.
    + apply IH in H as (t & -> & Hsrc & Hmin & Hacc); [| exact Hn | exact Hs].
      exists t. split; [reflexivity|].
      split.
      { destruct Hsrc as [Hsrc | (lap & Hin & Hd & Ht)]; [now left|].
        right. exists lap. split; [now right | auto]. }
      split; [| exact Hacc].
      intros k' lap' [[= <- <-] | Hin] Hd'; [congruence | eauto].
Qed.

(** A candidate once found is never dropped. *)
Lemma find_oldest_keeps best items : forall k0 ot,
  exists k t, IRacing.find_oldest best items (Some k0) ot = (Some k, t).
Proof.
  induction items as [| [k1 l1] r IH]; intros k0 ot; cbn; [eauto|].
  destruct (_ && _); apply IH.
Qed.

(** Without a candidate every stored lap is the session best. *)
Lemma find_oldest_none best items ot' :
  IRacing.find_oldest best items None None = (None, ot') ->
  forall k lap, In (k, lap) items -> IRacing.id_differs k best = false.
Proof.
  induction items as [| [k0 l0] r IH]; cbn; intros H k lap Hin;
    [destruct Hin|].
  destruct (IRacing.id_differs k0 best) eqn:Ed; cbn in H.
  - destruct (find_oldest_keeps best r k0 (Some (completedAt l0)))
      as (k1 & t & E). rewrite E in H. discriminate.
  - destruct Hin as [[= <- <-] | Hin]; [exact Ed | eauto].
Qed.

Lemma evicts_chain fuel : forall self,
  rtc evicts self (IRacing.enforce_limit_loop fuel self).
Proof.
  induction fuel as [| fuel IH]; intros self; cbn; [apply rtc_refl|].
  destruct (max_laps self <? Z.of_nat (length (laps self))) eqn:Elen;
    [| apply rtc_refl].
  destruct (IRacing.find_oldest _ _ _ _) as [[k |] ot] eqn:E; cbn;
    [| apply rtc_refl].
  destruct (str_truthy k); [| apply rtc_refl].
  eapply rtc_l; [| apply IH].
  apply find_oldest_spec in E as (t & -> & Hsrc & Hmin & _);
    [| reflexivity | discriminate].
  destruct Hsrc as [[[=] _] | (lap & Hin & Hd & <-)].
  apply (evicts_oldest self k lap).
  - apply Z.ltb_lt, Elen.
  - exact Hin.
  - apply id_differs_spec, Hd.
  - intros k' lap' Hin' Hb. apply (Hmin k' lap' Hin').
    apply id_differs_spec, Hb.
Qed.

Lemma enforce_limit_loop_keeps_best fuel : forall self b,
  session_best_id self = Some b ->
  dict_get b (laps (IRacing.enforce_limit_loop fuel self))
  = dict_get b (laps self).
Proof.
  induction fuel as [| fuel IH]; intros self b Hb; cbn; [reflexivity|].
  destruct (max_laps self <? Z.of_nat (length (laps self))); [| reflexivity].
  destruct (IRacing.find_oldest _ _ _ _) as [[k |] ot] eqn:E; cbn;
    [| reflexivity].
  destruct (str_truthy k); [| reflexivity].
  rewrite IH by exact Hb. cbn.
  apply dict_get_del_ne.
  apply find_oldest_differs in E as [[=] | [E _]].
  rewrite Hb in E. apply id_differs_ne in E. congruence.
Qed.

Lemma In_keys_mem (d : dict LapData) k :
  In k (dict_keys d) -> dict_mem k d = true.
Proof.
  unfold dict_keys. rewrite in_map_iff. intros ([k' l] & <- & Hin).
  eapply dict_get_Some_In, Hin.
Qed.

(** The loop of [_enforce_limit] ends within [length laps] iterations:
    at most [max_laps] laps are left, or the scan has found no key to
    delete. *)
Lemma enforce_limit_loop_stops fuel : forall self,
  (length (laps self) <= fuel)%nat ->
  let self' := IRacing.enforce_limit_loop fuel self in
  Z.of_nat (length (laps self')) <= max_laps self'
  \/ IRacing.opt_truthy
       (IRacing.find_oldest (session_best_id self') (laps self') None None).1
     = false.
Proof.
  induction fuel as [| fuel IH]; intros self Hlen; cbn.
  - right. destruct (laps self); [reflexivity | cbn in Hlen; lia].
  - destruct (max_laps self <? Z.of_nat (length (laps self))) eqn:Elen.
    2:{ left. apply Z.ltb_ge, Elen. }
    destruct (IRacing.find_oldest _ _ _ _) as [[k |] ot] eqn:E; cbn.
    2:{ right. rewrite E. reflexivity. }
    destruct (str_truthy k) eqn:Ek.
    2:{ right. rewrite E. cbn. exact Ek. }
    apply IH. cbn.
    apply find_oldest_differs in E as [[=] | [_ Hin]].
    apply In_keys_mem, dict_del_length in Hin. lia.
Qed.

Lemma keys_ok_del d k : keys_ok d -> keys_ok (dict_del k d).
Proof.
  intros [Hnd Hne]. split; [apply NoDup_dict_del, Hnd|].
  intros k' Hin. apply Hne. eapply dict_keys_del_incl, Hin.
Qed.

Lemma keys_ok_set d k l : keys_ok d -> k <> ""%string -> keys_ok (dict_set k l d).
Proof.
  intros [Hnd Hne] Hk. split; [apply NoDup_dict_set, Hnd|].
  intros k'. rewrite dict_keys_set.
  destruct (dict_mem k d); [apply Hne|].
  rewrite in_app_iff. intros [Hin | [<- | []]]; [apply Hne, Hin | exact Hk].
Qed.

Lemma keys_ok_alter d f k : keys_ok d -> keys_ok (dict_alter f k d).
Proof. unfold keys_ok. rewrite dict_keys_alter. tauto. Qed.

Lemma enforce_limit_loop_keys fuel : forall self,
  keys_ok (laps self) -> keys_ok (laps (IRacing.enforce_limit_loop fuel self)).
Proof.
  induction fuel as [| fuel IH]; intros self H; cbn; [exact H|].
  destruct (max_laps self <? Z.of_nat (length (laps self))); [| exact H].
  destruct (IRacing.find_oldest _ _ _ _) as [[k |] ot]; cbn; [| exact H].
  destruct (str_truthy k); [| exact H].
  apply IH. cbn. apply keys_ok_del, H.
Qed.

Lemma NoDup_same_length (l : list string) b :
  NoDup l -> (forall x, In x l -> x = b) -> (length l <= 1)%nat.
Proof.
  intros Hnd H. destruct l as [| x [| y r]]; cbn; [lia | lia |].
  exfalso. apply NoDup_cons in Hnd as [Hx _].
  apply Hx. rewrite (H x), <- (H y); cbn; auto.
  apply list_elem_of_In. now left.
Qed.

(** With room for at least one lap, [_enforce_limit] leaves at most
    [max_laps] laps. *)
Lemma enforce_limit_bound self :
  1 <= max_laps self -> keys_ok (laps self) ->
  Z.of_nat (length (laps (IRacing._enforce_limit self))) <= max_laps self.
Proof.
  intros Hmax Hkeys. unfold IRacing._enforce_limit.
  pose proof (enforce_limit_loop_stops (length (laps self)) self (le_n _)) as Hs.
  pose proof (enforce_limit_loop_keys (length (laps self)) self Hkeys)
    as [Hnd Hne].
  destruct (enforce_limit_loop_best (length (laps self)) self)
    as (Hbid & _ & Hm).
  cbv zeta in Hs. rewrite Hm in Hs.
  destruct Hs as [Hs | Hs]; [exact Hs|].
  destruct (IRacing.find_oldest _ _ _ _) as [[k |] ot] eqn:E; cbn in Hs.
  - apply find_oldest_differs in E as [[=] | [_ Hin]].
    apply Hne in Hin. apply str_truthy_ne in Hin. congruence.
  - pose proof (find_oldest_none _ _ _ E) as Hall.
    destruct (session_best_id
                (IRacing.enforce_limit_loop (length (laps self)) self))
      as [b |] eqn:Eb.
    + assert (Hlen : (length
                        (dict_keys
                           (laps (IRacing.enforce_limit_loop
                                    (length (laps self)) self))) <= 1)%nat).
      { apply (NoDup_same_length _ b); [exact Hnd|].
        intros x Hx. unfold dict_keys in Hx. apply in_map_iff in Hx.
        destruct Hx as ([k l] & <- & Hin). cbn.
        specialize (Hall k l Hin). cbn in Hall.
        destruct (String.eqb_spec k b); [assumption | discriminate]. }
      unfold dict_keys in Hlen. rewrite length_map in Hlen. lia.
    + destruct (laps (IRacing.enforce_limit_loop (length (laps self)) self))
        as [| [k l] r]; [cbn; lia|].
      specialize (Hall k l (or_introl eq_refl)). discriminate.
Qed.

Lemma update_session_best_keys self b uuid lap_time :
  keys_ok (laps self) ->
  keys_ok (laps (IRacing.update_session_best self b uuid lap_time))
  /\ max_laps (IRacing.update_session_best self b uuid lap_time)
     = max_laps self.
Proof.
  intros H. unfold IRacing.update_session_best.
  destruct b; [| auto]. cbn.
  destruct (session_best_id self) as [bid |]; [| auto].
  destruct (str_truthy bid && dict_mem bid (laps self)); [| auto].
  cbn. split; [apply keys_ok_alter, H | reflexivity].
Qed.

Lemma complete_lap_bound self uuid time_ms lap_time track_name car_name lap self' :
  1 <= max_laps self -> keys_ok (laps self) -> uuid <> ""%string ->
  IRacing.complete_lap self uuid time_ms lap_time track_name car_name
    = (Some lap, self') ->
  Z.of_nat (length (laps self')) <= max_laps self'.
Proof.
  intros Hmax Hkeys Hne. unfold IRacing.complete_lap.
  destruct (negb (recording_active self) || _); [discriminate|].
  destruct (Qltb lap_time 10 || Qltb 1200 lap_time); [discriminate|].
  intros [= <- <-]. cbn.
  destruct (update_session_best_keys self
              (lt_pyfloat lap_time (session_best_time self)) uuid lap_time
              Hkeys) as [Hk Hm].
  match goal with
  | |- context [IRacing.enforce_limit_loop ?f ?s] =>
      pose proof (enforce_limit_bound s) as Hb;
      destruct (enforce_limit_loop_best f s) as (_ & _ & Hm')
  end.
  unfold IRacing._enforce_limit in Hb. rewrite Hm'. cbn in Hb |- *.
  apply Hb; [lia|]. apply keys_ok_set; assumption.
Qed.

Lemma save_pending_lap_bound self uuid time_ms lap_time lap self' :
  1 <= max_laps self -> keys_ok (laps self) -> uuid <> ""%string ->
  IRacing.save_pending_lap self uuid time_ms lap_time = (Some lap, self') ->
  Z.of_nat (length (laps self')) <= max_laps self'.
Proof.
  intros Hmax Hkeys Hne. unfold IRacing.save_pending_lap.
  destruct ((length (pending_lap_points self) =? 0)%nat || _);
    [discriminate|].
  destruct (Qltb lap_time 10 || Qltb 1200 lap_time); [discriminate|].
  intros [= <- <-]. cbn.
  destruct (update_session_best_keys self
              (lt_pyfloat lap_time (session_best_time self)) uuid lap_time
              Hkeys) as [Hk Hm].
  match goal with
  | |- context [IRacing.enforce_limit_loop ?f ?s] =>
      pose proof (enforce_limit_bound s) as Hb;
      destruct (enforce_limit_loop_best f s) as (_ & _ & Hm')
  end.
  unfold IRacing._enforce_limit in Hb. rewrite Hm'. cbn in Hb |- *.
  apply Hb; [lia|]. apply keys_ok_set; assumption.
Qed.

(** As stated the limit fails for a service created with [max_laps = 0]:
    its first lap is the session best, which eviction never removes. *)
Lemma limit_exceeded_with_zero_max_laps :
  exists lap self',
    zero_limit_lap_done = (Some lap, self')
    /\ ~ (Z.of_nat (length (laps self')) <= max_laps self').
Proof.
  do 2 eexists. split; [vm_compute; reflexivity|].
  cbn. lia.
Qed.

(** C3 (amended). For a service with [max_laps >= 1], after every
    [complete_lap] or [save_pending_lap] call that stores a lap
    [len(laps) <= max_laps].  [_enforce_limit] is a chain of evictions,
    each removing one stored lap whose key is not [session_best_id] and
    whose [completedAt] is smallest among such laps, and the lap under
    [session_best_id] is never removed by it. *)
Theorem eviction_limit_and_best :
  (forall self uuid time_ms lap_time track_name car_name lap self',
      1 <= max_laps self -> keys_ok (laps self) -> uuid <> ""%string ->
      IRacing.complete_lap self uuid time_ms lap_time track_name car_name
        = (Some lap, self') ->
      Z.of_nat (length (laps self')) <= max_laps self') /\
  (forall self uuid time_ms lap_time lap self',
      1 <= max_laps self -> keys_ok (laps self) -> uuid <> ""%string ->
      IRacing.save_pending_lap self uuid time_ms lap_time = (Some lap, self') ->
      Z.of_nat (length (laps self')) <= max_laps self') /\
  (forall self, rtc evicts self (IRacing._enforce_limit self)) /\
  (forall self b,
      session_best_id self = Some b ->
      dict_get b (laps (IRacing._enforce_limit self))
      = dict_get b (laps self)).
Proof.
  split; [exact complete_lap_bound|].
  split; [exact save_pending_lap_bound|].
  split; [intros self; apply evicts_chain|].
  intros self b. apply enforce_limit_loop_keeps_best.
Qed.

Lemma eviction_limit_and_best_witness :
  Z.of_nat (length (laps second_lap_done.2)) <= max_laps second_lap_done.2.
Proof.
  destruct eviction_limit_and_best as (H & _).
  eapply (H (record_lap first_lap_done.2 2 (rising_points 150))
            "8b71e4d2" 1700000189442 (94010 # 1000) "Spa" "GT3").
  - vm_compute. discriminate.
  - split.
    + vm_compute. repeat constructor. apply not_elem_of_nil.
    + vm_compute. intros k [<- | []]. discriminate.
  - discriminate.
  - vm_compute. reflexivity.
Defined.

(** ** C6: creation of the pending lap at a lap change *)

(** At a lap change without a lap time the live buffer becomes the
    pending lap exactly when it holds more than [MIN_LAP_POINTS] points;
    the recorder starts the new lap in every case. *)
Lemma on_lap_change_without_time self ir now player_idx current_lap
    last_lap_time uuid time_ms :
  (last_lap_time <= 0)%Q ->
  let pts := current_lap_points (lap_storage self) in
  let r := on_lap_change self ir now player_idx current_lap last_lap_time
             uuid time_ms in
  r.1 = None
  /\ recording_active (lap_storage r.2) = true
  /\ current_lap_number (lap_storage r.2) = current_lap
  /\ current_lap_points (lap_storage r.2) = []
  /\ prev_lap_for_capture r.2 = current_lap
  /\ ((100 < length pts)%nat ->
      pending_lap_points (lap_storage r.2) = pts
      /\ pending_lap_number (lap_storage r.2) = prev_lap_for_capture self
      /\ pending_lap_track (lap_storage r.2) = lap_track_name ir
      /\ pending_lap_car (lap_storage r.2) = lap_car_name ir player_idx
      /\ pending_lap_created_at (lap_storage r.2) = now)
  /\ ((length pts <= 100)%nat ->
      pending_lap_points (lap_storage r.2)
      = pending_lap_points (lap_storage self)
      /\ pending_lap_number (lap_storage r.2)
         = pending_lap_number (lap_storage self)
      /\ pending_lap_track (lap_storage r.2)
         = pending_lap_track (lap_storage self)
      /\ pending_lap_car (lap_storage r.2)
         = pending_lap_car (lap_storage self)
      /\ pending_lap_created_at (lap_storage r.2)
         = pending_lap_created_at (lap_storage self)).
Proof.
  intros Hle pts r. subst pts r. unfold on_lap_change.
  assert (E : Qltb 0 last_lap_time = false) by (apply Qltb_ge, Hle).
  rewrite E. cbn [lap_storage set_prev_lap_for_capture].
  unfold MIN_LAP_POINTS.
  destruct (100 <? length (current_lap_points (lap_storage self)))%nat eqn:En.
  - apply Nat.ltb_lt in En. cbn. repeat split; try reflexivity; lia.
  - apply Nat.ltb_ge in En. cbn. repeat split; try reflexivity; lia.
Qed.

(** C6, evaluated on the code.  A lap change from lap 1 to lap 2 with
    [LapLastLapTime = 0] and exactly 100 buffered points, the minimum
    for a valid lap, creates no pending lap: the test is
    [len(points) > MIN_LAP_POINTS].  With 101 points the pending lap is
    created with the buffer, the lap number, the names and the time of
    the tick.  In both ticks the recorder starts lap 2. *)
Theorem pending_lap_needs_101_points :
  length (current_lap_points (lap_storage (service_on_lap_1 100))) = 100%nat
  /\ (boundary_tick 100).1 = None
  /\ pending_lap_points (lap_storage (boundary_tick 100).2) = []
  /\ laps (lap_storage (boundary_tick 100).2) = []
  /\ recording_active (lap_storage (boundary_tick 100).2) = true
  /\ current_lap_number (lap_storage (boundary_tick 100).2) = 2
  /\ current_lap_points (lap_storage (boundary_tick 100).2) = []
  /\ pending_lap_points (lap_storage (boundary_tick 101).2) = rising_points 101
  /\ pending_lap_number (lap_storage (boundary_tick 101).2) = 1
  /\ pending_lap_track (lap_storage (boundary_tick 101).2) = "Spa"%string
  /\ pending_lap_car (lap_storage (boundary_tick 101).2) = "GT3"%string
  /\ pending_lap_created_at (lap_storage (boundary_tick 101).2) = 1700000100%Q
  /\ recording_active (lap_storage (boundary_tick 101).2) = true
  /\ current_lap_number (lap_storage (boundary_tick 101).2) = 2.
Proof.
  repeat split; vm_compute; reflexivity.
Qed.

(** ** C5: resolution and timeout of the pending lap *)

Lemma find_oldest_app best (d : dict LapData) k l : forall oid ot,
  IRacing.find_oldest best (d ++ [(k, l)]) oid ot
  = let '(o, t) := IRacing.find_oldest best d oid ot in
    if IRacing.id_differs k best && IRacing.older_than (completedAt l) t
    then (Some k, Some (completedAt l)) else (o, t).
Proof.
  induction d as [| [k0 l0] r IH]; intros oid ot; cbn.
  - destruct (_ && _); reflexivity.
  - destruct (_ && _); apply IH.
Qed.

Lemma dict_get_app_last (d : dict LapData) k l :
  ~ In k (dict_keys d) -> dict_get k (d ++ [(k, l)]) = Some l.
Proof.
  induction d as [| [k0 l0] r IH]; cbn; intros Hn.
  - now rewrite String.eqb_refl.
  - destruct (String.eqb_spec k k0) as [-> | Hne]; [tauto|].
    apply IH. tauto.
Qed.

Lemma dict_del_app_in (d : dict LapData) k x :
  In k (dict_keys d) -> dict_del k (d ++ [x]) = dict_del k d ++ [x].
Proof.
  induction d as [| [k0 l0] r IH]; cbn; [tauto|].
  destruct (String.eqb_spec k k0) as [-> | Hne]; [reflexivity|].
  intros [Heq | Hin]; [congruence|].
  rewrite IH by exact Hin. reflexivity.
Qed.

Lemma dict_del_incl (d : dict LapData) k x : In x (dict_del k d) -> In x d.
Proof.
  induction d as [| [k0 l0] r IH]; cbn; [tauto|].
  destruct (String.eqb k k0); cbn; tauto.
Qed.

Lemma NoDup_keys_app_last (d : dict LapData) k l :
  NoDup (dict_keys (d ++ [(k, l)]))
  <-> NoDup (dict_keys d) /\ ~ In k (dict_keys d).
Proof.
  unfold dict_keys. rewrite map_app. cbn. rewrite NoDup_app.
  split.
  - intros (H1 & H2 & _). split; [exact H1|].
    intros Hin. apply (H2 k); [apply list_elem_of_In, Hin|].
    apply list_elem_of_In. now left.
  - intros [H1 H2]. split; [exact H1|]. split; [| apply NoDup_singleton].
    intros x Hx Hk. apply list_elem_of_In in Hk. destruct Hk as [<- | []].
    apply H2, list_elem_of_In, Hx.
Qed.

(** A lap appended last that is no older than the others outlives
    [_enforce_limit] when the limit is at least two. *)
Lemma enforce_limit_loop_keeps_new fuel : forall self d uuid lap,
  laps self = d ++ [(uuid, lap)] ->
  2 <= max_laps self ->
  NoDup (dict_keys (d ++ [(uuid, lap)])) ->
  (forall k l, In (k, l) d -> completedAt l <= completedAt lap) ->
  dict_get uuid (laps (IRacing.enforce_limit_loop fuel self)) = Some lap.
Proof.
  induction fuel as [| fuel IH]; intros self d uuid lap Hlaps Hmax Hnd Hold.
  - cbn. rewrite Hlaps. apply dict_get_app_last.
    apply NoDup_keys_app_last in Hnd. tauto.
  - cbn.
    assert (Hlast : dict_get uuid (laps self) = Some lap).
    { rewrite Hlaps. apply dict_get_app_last.
      apply NoDup_keys_app_last in Hnd. tauto. }
    destruct (max_laps self <? Z.of_nat (length (laps self))) eqn:Elen;
      [| exact Hlast].
    destruct (IRacing.find_oldest _ _ _ _) as [[k |] ot] eqn:E; cbn;
      [| exact Hlast].
    destruct (str_truthy k); [| exact Hlast].
    apply NoDup_keys_app_last in Hnd as [Hndd Hfresh].
    assert (Hk : In k (dict_keys d)).
    { rewrite Hlaps, find_oldest_app in E.
      destruct (IRacing.find_oldest (session_best_id self) d None None)
        as [[k0 |] t] eqn:E0.
      - apply find_oldest_spec in E0
          as (t0 & -> & [[[=] _] | (lap0 & Hin0 & _ & <-)] & _ & _);
          [| reflexivity | discriminate].
        assert (Hno : IRacing.older_than (completedAt lap)
                        (Some (completedAt lap0)) = false).
        { cbn. apply Z.ltb_ge. eapply Hold, Hin0. }
        rewrite Hno, andb_false_r in E. injection E as <- _.
        apply (in_map fst) in Hin0. exact Hin0.
      - exfalso. pose proof (find_oldest_none _ _ _ E0) as Hall.
        apply Z.ltb_lt in Elen. rewrite Hlaps, length_app in Elen.
        cbn in Elen.
        assert (Hlen : (length (dict_keys d) <= 1)%nat).
        { destruct (session_best_id self) as [b |].
          - apply (NoDup_same_length _ b); [exact Hndd|].
            intros x Hx. unfold dict_keys in Hx. apply in_map_iff in Hx.
            destruct Hx as ([k1 l1] & <- & Hin). cbn.
            specialize (Hall k1 l1 Hin). cbn in Hall.
            destruct (String.eqb_spec k1 b); [assumption | discriminate].
          - destruct d as [| [k1 l1] r]; [cbn; lia|].
            specialize (Hall k1 l1 (or_introl eq_refl)). discriminate. }
        unfold dict_keys in Hlen. rewrite length_map in Hlen. lia. }
    apply (IH _ (dict_del k d) uuid lap).
    + cbn. rewrite Hlaps. apply dict_del_app_in, Hk.
    + exact Hmax.
    + apply NoDup_keys_app_last. split; [apply NoDup_dict_del, Hndd|].
      intros Hin. apply Hfresh. eapply dict_keys_del_incl, Hin.
    + intros k' l' Hin. apply (Hold k'). eapply dict_del_incl, Hin.
Qed.

(** [_enforce_limit] changes nothing but the stored laps. *)
Lemma enforce_limit_loop_frame fuel : forall self,
  IRacing.enforce_limit_loop fuel self
  = set_laps (laps (IRacing.enforce_limit_loop fuel self)) self.
Proof.
  induction fuel as [| fuel IH]; intros self; cbn.
  - destruct self; reflexivity.
  - destruct (max_laps self <? Z.of_nat (length (laps self)));
      [| destruct self; reflexivity].
    destruct (IRacing.find_oldest _ _ _ _) as [[k |] ot]; cbn;
      [| destruct self; reflexivity].
    destruct (str_truthy k); [| destruct self; reflexivity].
    rewrite IH at 1. reflexivity.
Qed.

Lemma In_dict_alter (f : LapData -> LapData) b (d : dict LapData) k l :
  In (k, l) (dict_alter f b d) ->
  exists l0, In (k, l0) d /\ (l = l0 \/ l = f l0).
Proof.
  induction d as [| [k0 l0] r IH]; cbn; [tauto|].
  destruct (String.eqb b k0); cbn.
  - intros [[= <- <-] | Hin]; eauto.
  - intros [[= <- <-] | Hin]; [eauto|].
    apply IH in Hin as (l1 & H1 & H2). eauto.
Qed.

Lemma update_session_best_laps self flag uuid lap_time :
  let s1 := IRacing.update_session_best self flag uuid lap_time in
  dict_keys (laps s1) = dict_keys (laps self)
  /\ (forall k l, In (k, l) (laps s1) ->
                  exists l0, In (k, l0) (laps self)
                             /\ completedAt l = completedAt l0).
Proof.
  unfold IRacing.update_session_best.
  destruct flag; cbn; [| split; eauto].
  destruct (session_best_id self) as [b |]; [| cbn; split; eauto].
  destruct (str_truthy b && dict_mem b (laps self)); cbn; [| split; eauto].
  split; [apply dict_keys_alter|].
  intros k l Hin. apply In_dict_alter in Hin as (l0 & H0 & [-> | ->]); eauto.
Qed.

(** A pending lap of at least 100 points with a lap time within
    [10, 1200] is stored with the pending points and returned. *)
Lemma save_pending_lap_stores self uuid time_ms lap_time :
  (100 <= length (pending_lap_points self))%nat ->
  (10 <= lap_time)%Q -> (lap_time <= 1200)%Q ->
  exists lap self',
    IRacing.save_pending_lap self uuid time_ms lap_time = (Some lap, self')
    /\ id lap = uuid
    /\ points lap = pending_lap_points self
    /\ lapNumber lap = pending_lap_number self
    /\ lapTime lap = py_round lap_time 3
    /\ pending_lap_points self' = []
    /\ (2 <= max_laps self ->
        NoDup (dict_keys (laps self)) ->
        dict_get uuid (laps self) = None ->
        (forall k l, In (k, l) (laps self) -> completedAt l <= time_ms) ->
        dict_get uuid (laps self') = Some lap).
Proof.
  intros Hn H1 H2. unfold IRacing.save_pending_lap.
  assert (E1 : ((length (pending_lap_points self) =? 0)%nat
                || (length (pending_lap_points self) <? 100)%nat) = false).
  { apply orb_false_iff. split; [apply Nat.eqb_neq | apply Nat.ltb_ge]; lia. }
  assert (E2 : Qltb lap_time 10 || Qltb 1200 lap_time = false).
  { apply orb_false_iff. split; apply Qltb_ge; assumption. }
  rewrite E1, E2. cbv zeta.
  do 2 eexists. split; [reflexivity|].
  split; [reflexivity|].
  split; [cbn; apply map_id|].
  split; [reflexivity|].
  split; [reflexivity|].
  split.
  { unfold IRacing._enforce_limit. rewrite enforce_limit_loop_frame.
    reflexivity. }
  intros Hmax Hnd Hfresh Hold.
  destruct (update_session_best_laps self
              (lt_pyfloat lap_time (session_best_time self)) uuid lap_time)
    as [Hkeys Hin1].
  set (s1 := IRacing.update_session_best self
               (lt_pyfloat lap_time (session_best_time self)) uuid lap_time)
    in *.
  assert (Hfresh1 : dict_get uuid (laps s1) = None).
  { apply dict_get_None. rewrite Hkeys. apply dict_get_None, Hfresh. }
  assert (Hm1 : max_laps s1 = max_laps self).
  { unfold s1, IRacing.update_session_best.
    destruct (lt_pyfloat lap_time (session_best_time self)); [| reflexivity].
    cbn. destruct (session_best_id self) as [b |]; [| reflexivity].
    destruct (str_truthy b && dict_mem b (laps self)); reflexivity. }
  unfold IRacing._enforce_limit.
  eapply (enforce_limit_loop_keeps_new _ _ (laps s1)).
  - cbn. apply dict_set_fresh, Hfresh1.
  - cbn. rewrite Hm1. exact Hmax.
  - apply NoDup_keys_app_last. rewrite Hkeys.
    split; [exact Hnd | apply dict_get_None, Hfresh].
  - intros k l Hin. apply Hin1 in Hin as (l0 & Hin0 & ->).
    cbn. eapply Hold, Hin0.
Qed.

(** A tick that passes the connection and rate checks and finds a
    pending lap older than 10 s clears it before anything else. *)
Lemma capture_clears_stale_pending self ir now uuid time_ms :
  connected self = true -> is_connected ir = true ->
  (LAP_CAPTURE_INTERVAL <= now - last_lap_capture_time self)%Q ->
  pending_lap_points (lap_storage self) <> [] ->
  (pending_lap_created_at (lap_storage self) + 10 < now)%Q ->
  resolve_pending (lap_storage self) now (_safe_get (LapLastLapTime ir) 0%Q)
    uuid time_ms
  = (None, IRacing.clear_pending_lap (lap_storage self))
  /\ capture_lap_telemetry self ir now uuid time_ms
     = capture_lap_telemetry
         (set_lap_storage (IRacing.clear_pending_lap (lap_storage self)) self)
         ir now uuid time_ms.
Proof.
  intros Hc Hi Hrate Hpend Hage.
  assert (Hres : forall llt,
             resolve_pending (lap_storage self) now llt uuid time_ms
             = (None, IRacing.clear_pending_lap (lap_storage self))).
  { intros llt. unfold resolve_pending.
    destruct (pending_lap_points (lap_storage self)) as [| p r] eqn:Ep;
      [congruence|].
    cbn [length Nat.ltb Nat.leb].
    assert (E : Qltb 10 (now - pending_lap_created_at (lap_storage self))
                = true) by (apply Qltb_lt; lra).
    rewrite E. reflexivity. }
  split; [apply Hres|].
  unfold capture_lap_telemetry. cbn [connected is_connected set_lap_storage
    last_lap_capture_time].
  rewrite Hc, Hi. cbn [negb orb].
  assert (Er : Qltb (now - last_lap_capture_time self) LAP_CAPTURE_INTERVAL
               = false) by (apply Qltb_ge, Hrate).
  rewrite Er.
  cbn [lap_storage set_last_lap_capture_time]. rewrite Hres.
  unfold resolve_pending at 1. cbn. reflexivity.
Qed.

(** A tick that finds a pending lap not older than 10 s and reads a
    lap time saves the pending lap and returns it. *)
Lemma capture_resolves_pending self ir now uuid time_ms last_lap_time :
  connected self = true -> is_connected ir = true ->
  (LAP_CAPTURE_INTERVAL <= now - last_lap_capture_time self)%Q ->
  LapLastLapTime ir = Some last_lap_time ->
  (now - pending_lap_created_at (lap_storage self) <= 10)%Q ->
  (100 <= length (pending_lap_points (lap_storage self)))%nat ->
  (10 <= last_lap_time)%Q -> (last_lap_time <= 1200)%Q ->
  exists lap self',
    capture_lap_telemetry self ir now uuid time_ms = (Some lap, self')
    /\ IRacing.save_pending_lap (lap_storage self) uuid time_ms last_lap_time
       = (Some lap, lap_storage self')
    /\ id lap = uuid
    /\ points lap = pending_lap_points (lap_storage self)
    /\ lapNumber lap = pending_lap_number (lap_storage self)
    /\ lapTime lap = py_round last_lap_time 3
    /\ pending_lap_points (lap_storage self') = []
    /\ (2 <= max_laps (lap_storage self) ->
        NoDup (dict_keys (laps (lap_storage self))) ->
        dict_get uuid (laps (lap_storage self)) = None ->
        (forall k l, In (k, l) (laps (lap_storage self)) ->
                     completedAt l <= time_ms) ->
        IRacing.get_lap (lap_storage self') uuid = Some lap).
Proof.
  intros Hc Hi Hrate Hllt Hage Hn H1 H2.
  destruct (save_pending_lap_stores (lap_storage self) uuid time_ms
              last_lap_time Hn H1 H2)
    as (lap & st' & Hsave & Hid & Hpts & Hnum & Htime & Hpend & Hkept).
  exists lap, (set_lap_storage st' (set_last_lap_capture_time now self)).
  split.
  { unfold capture_lap_telemetry. rewrite Hc, Hi. cbn [negb orb].
    assert (Er : Qltb (now - last_lap_capture_time self) LAP_CAPTURE_INTERVAL
                 = false) by (apply Qltb_ge, Hrate).
    rewrite Er. cbn [lap_storage set_last_lap_capture_time].
    rewrite Hllt.
    change (_safe_get (Some last_lap_time) 0%Q) with last_lap_time.
    unfold resolve_pending.
    assert (El : (0 <? length (pending_lap_points (lap_storage self)))%nat
                 = true) by (apply Nat.ltb_lt; lia).
    assert (Ea : Qltb 10 (now - pending_lap_created_at (lap_storage self))
                 = false) by (apply Qltb_ge, Hage).
    assert (Et : Qltb 0 last_lap_time = true) by (apply Qltb_lt; lra).
    rewrite El, Ea, Et, Hsave. reflexivity. }
  cbn [lap_storage set_lap_storage].
  repeat (split; [assumption|]).
  exact Hkept.
Qed.

(** C5. A tick of [capture_lap_telemetry] (connected, not rate limited)
    that runs later than 10.0 s after [pending_lap_created_at] discards
    the pending buffer with [clear_pending_lap], whatever lap time it
    reads: the tick is the tick of a service without pending lap, and no
    lap is stored from the buffer.  A tick within the 10.0 s that reads
    a lap time in [10.0, 1200.0] for a pending lap of at least 100 points
    calls [save_pending_lap], which returns a lap whose points are the
    pending points; the lap is stored under its identifier (a fresh
    one, with room for at least two laps and a time stamp not before
    those of the stored laps). *)
Theorem pending_lap_timeout_and_resolution :
  (forall self ir now uuid time_ms,
      connected self = true -> is_connected ir = true ->
      (LAP_CAPTURE_INTERVAL <= now - last_lap_capture_time self)%Q ->
      pending_lap_points (lap_storage self) <> [] ->
      (pending_lap_created_at (lap_storage self) + 10 < now)%Q ->
      resolve_pending (lap_storage self) now
        (_safe_get (LapLastLapTime ir) 0%Q) uuid time_ms
      = (None, IRacing.clear_pending_lap (lap_storage self))
      /\ pending_lap_points (IRacing.clear_pending_lap (lap_storage self)) = []
      /\ laps (IRacing.clear_pending_lap (lap_storage self))
         = laps (lap_storage self)
      /\ capture_lap_telemetry self ir now uuid time_ms
         = capture_lap_telemetry
             (set_lap_storage (IRacing.clear_pending_lap (lap_storage self))
                self)
             ir now uuid time_ms) /\
  (forall self ir now uuid time_ms last_lap_time,
      connected self = true -> is_connected ir = true ->
      (LAP_CAPTURE_INTERVAL <= now - last_lap_capture_time self)%Q ->
      LapLastLapTime ir = Some last_lap_time ->
      (now - pending_lap_created_at (lap_storage self) <= 10)%Q ->
      (100 <= length (pending_lap_points (lap_storage self)))%nat ->
      (10 <= last_lap_time)%Q -> (last_lap_time <= 1200)%Q ->
      exists lap self',
        capture_lap_telemetry self ir now uuid time_ms = (Some lap, self')
        /\ IRacing.save_pending_lap (lap_storage self) uuid time_ms
             last_lap_time
           = (Some lap, lap_storage self')
        /\ id lap = uuid
        /\ points lap = pending_lap_points (lap_storage self)
        /\ lapNumber lap = pending_lap_number (lap_storage self)
        /\ lapTime lap = py_round last_lap_time 3
        /\ pending_lap_points (lap_storage self') = []
        /\ (2 <= max_laps (lap_storage self) ->
            NoDup (dict_keys (laps (lap_storage self))) ->
            dict_get uuid (laps (lap_storage self)) = None ->
            (forall k l, In (k, l) (laps (lap_storage self)) ->
                         completedAt l <= time_ms) ->
            IRacing.get_lap (lap_storage self') uuid = Some lap)).
Proof.
  split.
  - intros self ir now uuid time_ms Hc Hi Hrate Hpend Hage.
    destruct (capture_clears_stale_pending self ir now uuid time_ms
                Hc Hi Hrate Hpend Hage) as [Hres Hcap].
    repeat split; assumption || reflexivity.
  - exact capture_resolves_pending.
Qed.

Lemma pending_lap_timeout_and_resolution_witness :
  (capture_lap_telemetry service_with_pending (frame_on_track 2 0)
     (1700000100 + (1005 # 100)) "8b71e4d2" 1700000110050
   = capture_lap_telemetry
       (set_lap_storage
          (IRacing.clear_pending_lap (lap_storage service_with_pending))
          service_with_pending)
       (frame_on_track 2 0) (1700000100 + (1005 # 100)) "8b71e4d2"
       1700000110050) /\
  (exists lap self',
      capture_lap_telemetry service_with_pending (frame_on_track 2 (882 # 10))
        (1700000100 + (5 # 100)) "8b71e4d2" 1700000100050
      = (Some lap, self')
      /\ points lap = rising_points 120
      /\ IRacing.get_lap (lap_storage self') "8b71e4d2" = Some lap).
Proof.
  destruct pending_lap_timeout_and_resolution as [Hstale Hsave].
  split.
  - assert (Hc : connected service_with_pending = true)
      by (vm_compute; reflexivity).
    assert (Hi : is_connected (frame_on_track 2 0) = true) by reflexivity.
    assert (Hrate : (LAP_CAPTURE_INTERVAL
                     <= 1700000100 + (1005 # 100)
                        - last_lap_capture_time service_with_pending)%Q)
      by (vm_compute; discriminate).
    assert (Hp : pending_lap_points (lap_storage service_with_pending) <> [])
      by (vm_compute; discriminate).
    assert (Ha : (pending_lap_created_at (lap_storage service_with_pending)
                  + 10 < 1700000100 + (1005 # 100))%Q)
      by (vm_compute; reflexivity).
    destruct (Hstale service_with_pending (frame_on_track 2 0)
                (1700000100 + (1005 # 100))%Q "8b71e4d2"%string 1700000110050
                Hc Hi Hrate Hp Ha) as (_ & _ & _ & H).
    exact H.
  - assert (Hc : connected service_with_pending = true)
      by (vm_compute; reflexivity).
    assert (Hi : is_connected (frame_on_track 2 (882 # 10)) = true)
      by reflexivity.
    assert (Hrate : (LAP_CAPTURE_INTERVAL
                     <= 1700000100 + (5 # 100)
                        - last_lap_capture_time service_with_pending)%Q)
      by (vm_compute; discriminate).
    assert (Hllt : LapLastLapTime (frame_on_track 2 (882 # 10))
                   = Some (882 # 10)%Q) by reflexivity.
    assert (Hage : (1700000100 + (5 # 100)
                    - pending_lap_created_at (lap_storage service_with_pending)
                    <= 10)%Q) by (vm_compute; discriminate).
    assert (Hn : (100 <= length (pending_lap_points
                                   (lap_storage service_with_pending)))%nat)
      by (vm_compute; lia).
    assert (H1 : (10 <= 882 # 10)%Q) by (vm_compute; discriminate).
    assert (H2 : (882 # 10 <= 1200)%Q) by (vm_compute; discriminate).
    destruct (Hsave service_with_pending (frame_on_track 2 (882 # 10))
                (1700000100 + (5 # 100))%Q "8b71e4d2"%string 1700000100050
                (882 # 10)%Q Hc Hi Hrate Hllt Hage Hn H1 H2)
      as (lap & self' & Hcap & _ & _ & Hpts & _ & _ & _ & Hkept).
    exists lap, self'. split; [exact Hcap|].
    split; [rewrite Hpts; vm_compute; reflexivity|].
    apply Hkept.
    + vm_compute. discriminate.
    + vm_compute. constructor.
    + vm_compute. reflexivity.
    + assert (Hnone : laps (lap_storage service_with_pending) = [])
        by (vm_compute; reflexivity).
      rewrite Hnone. intros k l [].
Defined.

(* ================================================================== *)
(** * Further properties of the lap storage *)

(** An under-limit dictionary with two laps, used to instantiate the
    statements below. *)
Lemma two_laps_keys : NoDup (dict_keys (laps second_lap_done.2)).
Proof. apply (bool_decide_unpack _). vm_compute. reflexivity. Qed.

(** [delete_lap] refuses the session-best id and unknown ids and leaves
    the service as it is; otherwise it removes exactly the lap stored
    under the id: that id is no longer found, every other id is looked
    up as before, and one lap less is stored. *)
Theorem delete_lap_spec (self : LapStorageService) (lap_id : string) :
  NoDup (dict_keys (laps self)) ->
  let r := IRacing.delete_lap self lap_id in
  (r.1 = true <->
   session_best_id self <> Some lap_id /\ dict_mem lap_id (laps self) = true)
  /\ (r.1 = false -> r.2 = self)
  /\ (r.1 = true ->
      IRacing.get_lap r.2 lap_id = None
      /\ length (laps self) = S (length (laps r.2)))
  /\ (forall k, k <> lap_id -> IRacing.get_lap r.2 k = IRacing.get_lap self k)
  /\ session_best_id r.2 = session_best_id self
  /\ session_best_time r.2 = session_best_time self.
Proof.
  intros Hnd r. subst r. unfold IRacing.delete_lap, IRacing.get_lap.
  destruct (IRacing.id_differs lap_id (session_best_id self)) eqn:Ed; cbn.
  - apply id_differs_spec in Ed.
    destruct (dict_mem lap_id (laps self)) eqn:Em; cbn.
    + split; [tauto|]. split; [discriminate|].
      split.
      { intros _. split; [apply dict_get_del_eq, Hnd|].
        apply dict_del_length, Em. }
      split; [intros k Hk; apply dict_get_del_ne, Hk | auto].
    + split; [split; [discriminate | intros [_ Hm]; discriminate Hm]|].
      repeat split; auto; discriminate.
  - assert (Hb : session_best_id self = Some lap_id).
    { destruct (session_best_id self) as [b |]; [| discriminate].
      cbn in Ed. destruct (String.eqb_spec lap_id b); [congruence | discriminate]. }
    split; [split; [discriminate | intros [H _]; congruence]|].
    repeat split; auto; discriminate.
Qed.

Lemma delete_lap_spec_witness :
  (IRacing.delete_lap second_lap_done.2 "8b71e4d2").1 = false
  /\ IRacing.get_lap (IRacing.delete_lap second_lap_done.2 "3f2a9c10").2
       "3f2a9c10" = None.
Proof.
  split.
  - destruct (delete_lap_spec second_lap_done.2 "8b71e4d2" two_laps_keys)
      as (H & _).
    apply not_true_is_false. intros E.
    apply H in E as [E _]. apply E. vm_compute. reflexivity.
  - destruct (delete_lap_spec second_lap_done.2 "3f2a9c10" two_laps_keys)
      as (H & _ & Hdel & _).
    apply Hdel. apply H. split.
    + vm_compute. discriminate.
    + vm_compute. reflexivity.
Defined.

Lemma complete_lap_inactive self uuid time_ms lap_time track car :
  recording_active self = false ->
  IRacing.complete_lap self uuid time_ms lap_time track car
  = (None, set_recording_active false self).
Proof. intros H. unfold IRacing.complete_lap. rewrite H. reflexivity. Qed.

(** [complete_lap] always leaves recording inactive, so a second
    [complete_lap] without a [start_lap] in between returns [None] and
    stores nothing. *)
Theorem complete_lap_twice (self : LapStorageService)
    (uuid uuid' : string) (time_ms time_ms' : Z) (lap_time lap_time' : Q)
    (track car track' car' : string) :
  let s1 := (IRacing.complete_lap self uuid time_ms lap_time track car).2 in
  let r2 := IRacing.complete_lap s1 uuid' time_ms' lap_time' track' car' in
  recording_active s1 = false
  /\ r2.1 = None
  /\ laps r2.2 = laps s1
  /\ session_best_id r2.2 = session_best_id s1
  /\ session_best_time r2.2 = session_best_time s1.
Proof.
  cbv zeta.
  assert (H : recording_active
                (IRacing.complete_lap self uuid time_ms lap_time track car).2
              = false).
  { unfold IRacing.complete_lap.
    destruct (negb (recording_active self) || _); [reflexivity|].
    destruct (Qltb lap_time 10 || Qltb 1200 lap_time); reflexivity. }
  split; [exact H|].
  rewrite (complete_lap_inactive _ uuid' time_ms' lap_time' track' car' H).
  cbn. auto.
Qed.

(** No pending lap is left by [save_pending_lap], whether it stores a
    lap or rejects it, nor by [clear_pending_lap]; a [save_pending_lap]
    that follows returns [None] and stores nothing, so a pending lap is
    saved at most once. *)
Theorem pending_lap_saved_once (self : LapStorageService)
    (uuid uuid' : string) (time_ms time_ms' : Z) (lap_time lap_time' : Q) :
  let s1 := (IRacing.save_pending_lap self uuid time_ms lap_time).2 in
  let s2 := IRacing.clear_pending_lap self in
  pending_lap_points s1 = []
  /\ (IRacing.save_pending_lap s1 uuid' time_ms' lap_time').1 = None
  /\ laps (IRacing.save_pending_lap s1 uuid' time_ms' lap_time').2 = laps s1
  /\ (IRacing.save_pending_lap s2 uuid' time_ms' lap_time').1 = None
  /\ laps (IRacing.save_pending_lap s2 uuid' time_ms' lap_time').2 = laps self.
Proof.
  cbv zeta.
  assert (Hnone : forall s, pending_lap_points s = [] ->
            (IRacing.save_pending_lap s uuid' time_ms' lap_time').1 = None
            /\ laps (IRacing.save_pending_lap s uuid' time_ms' lap_time').2
               = laps s).
  { intros s Hs. unfold IRacing.save_pending_lap. rewrite Hs. cbn. auto. }
  assert (H1 : pending_lap_points
                 (IRacing.save_pending_lap self uuid time_ms lap_time).2 = []).
  { unfold IRacing.save_pending_lap.
    destruct ((length (pending_lap_points self) =? 0)%nat || _);
      [reflexivity|].
    destruct (Qltb lap_time 10 || Qltb 1200 lap_time); [reflexivity|].
    cbn. unfold IRacing._enforce_limit. rewrite enforce_limit_loop_frame.
    reflexivity. }
  split; [exact H1|].
  destruct (Hnone _ H1) as [Ha Hb].
  destruct (Hnone (IRacing.clear_pending_lap self) eq_refl) as [Hc Hd].
  auto.
Qed.

(** A recorded lap of at least 100 points with a lap time within
    [10, 1200] is stored by [complete_lap]. *)
Lemma complete_lap_stores self uuid time_ms lap_time track car :
  recording_active self = true ->
  (100 <= length (current_lap_points self))%nat ->
  (10 <= lap_time)%Q -> (lap_time <= 1200)%Q ->
  exists lap self',
    IRacing.complete_lap self uuid time_ms lap_time track car
      = (Some lap, self')
    /\ lap = mkLap uuid (current_lap_number self) (py_round lap_time 3)
               (lt_pyfloat lap_time (session_best_time self)) track car
               time_ms (current_lap_points self)
               (IRacing.delta_to_best lap_time (session_best_time self))
    /\ recording_active self' = false
    /\ current_lap_points self' = []
    /\ session_best_id self'
       = (if lt_pyfloat lap_time (session_best_time self)
          then Some uuid else session_best_id self)
    /\ session_best_time self'
       = (if lt_pyfloat lap_time (session_best_time self)
          then Fin lap_time else session_best_time self)
    /\ (lt_pyfloat lap_time (session_best_time self) = true ->
        dict_get uuid (laps self') = Some lap)
    /\ (2 <= max_laps self ->
        NoDup (dict_keys (laps self)) ->
        dict_get uuid (laps self) = None ->
        (forall k l, In (k, l) (laps self) -> completedAt l <= time_ms) ->
        dict_get uuid (laps self') = Some lap).
Proof.
  intros Hrec Hn H1 H2. unfold IRacing.complete_lap.
  assert (E1 : (negb (recording_active self)
                || (length (current_lap_points self) <? 100)%nat) = false).
  { rewrite Hrec. cbn [negb orb]. apply Nat.ltb_ge. lia. }
  assert (E2 : Qltb lap_time 10 || Qltb 1200 lap_time = false).
  { apply orb_false_iff. split; apply Qltb_ge; assumption. }
  rewrite E1, E2. cbv zeta.
  unfold asdict. rewrite map_id.
  set (flag := lt_pyfloat lap_time (session_best_time self)).
  set (lap := mkLap uuid (current_lap_number self) (py_round lap_time 3) flag
                track car time_ms (current_lap_points self)
                (IRacing.delta_to_best lap_time (session_best_time self))).
  set (s1 := IRacing.update_session_best self flag uuid lap_time).
  assert (Hid1 : session_best_id s1
                 = if flag then Some uuid else session_best_id self).
  { unfold s1, IRacing.update_session_best. destruct flag; reflexivity. }
  assert (Ht1 : session_best_time s1
                = if flag then Fin lap_time else session_best_time self).
  { unfold s1, IRacing.update_session_best. destruct flag; reflexivity. }
  assert (Hm1 : max_laps s1 = max_laps self).
  { unfold s1, IRacing.update_session_best.
    destruct flag; [| reflexivity].
    cbn. destruct (session_best_id self) as [b |]; [| reflexivity].
    destruct (str_truthy b && dict_mem b (laps self)); reflexivity. }
  exists lap. eexists. split; [reflexivity|].
  split; [reflexivity|]. split; [reflexivity|]. split; [reflexivity|].
  cbn [session_best_id session_best_time laps set_current_lap_points
       set_recording_active].
  unfold IRacing._enforce_limit.
  match goal with
  | |- context [IRacing.enforce_limit_loop ?f ?s] =>
      destruct (enforce_limit_loop_best f s) as (Hb1 & Hb2 & _);
      rewrite Hb1, Hb2
  end.
  split; [exact Hid1|]. split; [exact Ht1|].
  split.
  { intros Hflag.
    rewrite (enforce_limit_loop_keeps_best _ _ uuid).
    - cbn. rewrite dict_get_set, String.eqb_refl. reflexivity.
    - cbn. rewrite Hid1, Hflag. reflexivity. }
  intros Hmax Hnd Hfresh Hold.
  destruct (update_session_best_laps self flag uuid lap_time)
    as [Hkeys Hin1]. fold s1 in Hkeys, Hin1.
  assert (Hfresh1 : dict_get uuid (laps s1) = None).
  { apply dict_get_None. rewrite Hkeys. apply dict_get_None, Hfresh. }
  eapply (enforce_limit_loop_keeps_new _ _ (laps s1)).
  - cbn. apply dict_set_fresh, Hfresh1.
  - cbn. rewrite Hm1. exact Hmax.
  - apply NoDup_keys_app_last. rewrite Hkeys.
    split; [exact Hnd | apply dict_get_None, Hfresh].
  - intros k l Hin. apply Hin1 in Hin as (l0 & Hin0 & ->).
    cbn. eapply Hold, Hin0.
Qed.

Lemma complete_lap_Some_inv self uuid time_ms lap_time track car lap self' :
  IRacing.complete_lap self uuid time_ms lap_time track car = (Some lap, self') ->
  recording_active self = true
  /\ (100 <= length (current_lap_points self))%nat
  /\ (10 <= lap_time)%Q /\ (lap_time <= 1200)%Q.
Proof.
  unfold IRacing.complete_lap.
  destruct (negb (recording_active self)
            || (length (current_lap_points self) <? 100)%nat) eqn:E1;
    [discriminate|].
  destruct (Qltb lap_time 10 || Qltb 1200 lap_time) eqn:E2; [discriminate|].
  intros _. apply orb_false_iff in E1 as [E0 E1], E2 as [E2 E3].
  apply negb_false_iff in E0. apply Nat.ltb_ge in E1. apply Qltb_ge in E2, E3.
  auto.
Qed.

Lemma save_pending_lap_Some_inv self uuid time_ms lap_time lap self' :
  IRacing.save_pending_lap self uuid time_ms lap_time = (Some lap, self') ->
  (100 <= length (pending_lap_points self))%nat
  /\ (10 <= lap_time)%Q /\ (lap_time <= 1200)%Q.
Proof.
  unfold IRacing.save_pending_lap.
  destruct ((length (pending_lap_points self) =? 0)%nat
            || (length (pending_lap_points self) <? 100)%nat) eqn:E1;
    [discriminate|].
  destruct (Qltb lap_time 10 || Qltb 1200 lap_time) eqn:E2; [discriminate|].
  intros _. apply orb_false_iff in E1 as [_ E1], E2 as [E2 E3].
  apply Nat.ltb_ge in E1. apply Qltb_ge in E2, E3. auto.
Qed.

(** A lap returned by [complete_lap] carries the live buffer and the
    current lap number, and [get_lap] finds it under its identifier
    afterwards (for a fresh identifier, a limit of at least two laps and
    a time stamp not before those of the stored laps). *)
Theorem completed_lap_is_retrievable (self : LapStorageService)
    (uuid : string) (time_ms : Z) (lap_time : Q) (track car : string)
    (lap : LapData) (self' : LapStorageService) :
  IRacing.complete_lap self uuid time_ms lap_time track car = (Some lap, self') ->
  2 <= max_laps self ->
  NoDup (dict_keys (laps self)) ->
  dict_get uuid (laps self) = None ->
  (forall k l, In (k, l) (laps self) -> completedAt l <= time_ms) ->
  id lap = uuid
  /\ points lap = current_lap_points self
  /\ lapNumber lap = current_lap_number self
  /\ trackName lap = track /\ carName lap = car
  /\ completedAt lap = time_ms
  /\ IRacing.get_lap self' (id lap) = Some lap.
Proof.
  intros Hc Hmax Hnd Hfresh Hold.
  destruct (complete_lap_Some_inv _ _ _ _ _ _ _ _ Hc) as (Hrec & Hn & H1 & H2).
  destruct (complete_lap_stores self uuid time_ms lap_time track car
              Hrec Hn H1 H2)
    as (lap0 & s0 & Hc0 & Hlap & _ & _ & _ & _ & _ & Hkept).
  rewrite Hc0 in Hc. injection Hc as <- <-.
  specialize (Hkept Hmax Hnd Hfresh Hold).
  subst lap0. cbn. repeat split; try reflexivity. exact Hkept.
Qed.

Lemma completed_lap_is_retrievable_witness :
  exists lap self',
    IRacing.complete_lap (record_lap first_lap_done.2 2 (rising_points 150))
      "8b71e4d2" 1700000189442 (94010 # 1000) "Spa" "GT3" = (Some lap, self')
    /\ IRacing.get_lap self' "8b71e4d2" = Some lap.
Proof.
  assert (E : exists lap s,
             IRacing.complete_lap
               (record_lap first_lap_done.2 2 (rising_points 150))
               "8b71e4d2" 1700000189442 (94010 # 1000) "Spa" "GT3"
             = (Some lap, s))
    by (do 2 eexists; vm_compute; reflexivity).
  destruct E as (lap & s & E). exists lap, s. split; [exact E|].
  assert (H1 : 2 <= max_laps (record_lap first_lap_done.2 2
                                (rising_points 150)))
    by (vm_compute; discriminate).
  assert (H2 : NoDup (dict_keys (laps (record_lap first_lap_done.2 2
                                         (rising_points 150)))))
    by (apply (bool_decide_unpack _); vm_compute; reflexivity).
  assert (H3 : dict_get "8b71e4d2"
                 (laps (record_lap first_lap_done.2 2 (rising_points 150)))
               = None) by (vm_compute; reflexivity).
  assert (H4 : forall k l,
             In (k, l) (laps (record_lap first_lap_done.2 2
                                (rising_points 150))) ->
             completedAt l <= 1700000189442).
  { assert (Hone : exists l0,
               laps (record_lap first_lap_done.2 2 (rising_points 150))
               = [("3f2a9c10"%string, l0)]
               /\ completedAt l0 = 1700000095432).
    { eexists. split; vm_compute; reflexivity. }
    destruct Hone as (l0 & -> & Ht).
    intros k l [[= <- <-] | []]. rewrite Ht. lia. }
  destruct (completed_lap_is_retrievable _ _ _ _ _ _ _ _ E H1 H2 H3 H4)
    as (Hid & _ & _ & _ & _ & _ & Hget).
  rewrite <- Hid. exact Hget.
Defined.

Lemma float_find_oldest_differs best items oid ot k ot' :
  FloatStorage.find_oldest best items oid ot = (Some k, ot') ->
  oid = Some k \/ (IRacing.id_differs k best = true /\ In k (dict_keys items)).
Proof.
  revert oid ot. induction items as [| [k0 l0] r IH]; intros oid ot; cbn.
  - intros [= -> _]. now left.
  - destruct (IRacing.id_differs k0 best
              && IRacing.older_than (FloatStorage.completedAt l0) ot) eqn:E;
      intros H.
    + apply IH in H as [[= ->] | [H1 H2]].
      * right. apply andb_true_iff in E as [E _]. split; [exact E | now left].
      * right. split; [exact H1 | now right].
    + apply IH in H as [-> | [H1 H2]]; [now left|].
      right. split; [exact H1 | now right].
Qed.

Lemma float_enforce_limit_loop_best fuel self :
  FloatStorage.session_best_id (FloatStorage.enforce_limit_loop fuel self)
  = FloatStorage.session_best_id self
  /\ FloatStorage.session_best_time (FloatStorage.enforce_limit_loop fuel self)
     = FloatStorage.session_best_time self.
Proof.
  revert self. induction fuel as [| fuel IH]; intros self; cbn; [auto|].
  destruct (FloatStorage.max_laps self
            <? Z.of_nat (length (FloatStorage.laps self))); [| auto].
  destruct (FloatStorage.find_oldest _ _ _ _) as [[k |] ot]; cbn; [| auto].
  destruct (str_truthy k); [| auto].
  destruct (IH (FloatStorage.set_laps
                  (dict_del k (FloatStorage.laps self)) self)) as (H1 & H2).
  rewrite H1, H2. auto.
Qed.

Lemma float_enforce_limit_loop_keeps_best fuel : forall self b,
  FloatStorage.session_best_id self = Some b ->
  dict_get b (FloatStorage.laps (FloatStorage.enforce_limit_loop fuel self))
  = dict_get b (FloatStorage.laps self).
Proof.
  induction fuel as [| fuel IH]; intros self b Hb; cbn; [reflexivity|].
  destruct (FloatStorage.max_laps self
            <? Z.of_nat (length (FloatStorage.laps self))); [| reflexivity].
  destruct (FloatStorage.find_oldest _ _ _ _) as [[k |] ot] eqn:E; cbn;
    [| reflexivity].
  destruct (str_truthy k); [| reflexivity].
  rewrite IH by exact Hb. cbn.
  apply dict_get_del_ne.
  apply float_find_oldest_differs in E as [[=] | [E _]].
  rewrite Hb in E. apply id_differs_ne in E. congruence.
Qed.

(** In a session without a best time yet (a new service, or after
    [reset_session]) a lap that [complete_lap] stores has
    [deltaToSessionBest = 0.0].  When its lap time is not NaN it is the
    session best: it is flagged, its identifier and its lap time become
    the session best and [get_session_best] returns it.  When its lap
    time is NaN the lap is stored without the flag, with a [lapTime]
    that is NaN, and the session is left without a best time. *)
Theorem first_lap_is_session_best (self : FloatStorage.LapStorageService)
    (uuid : string) (time_ms : Z) (lap_time : float) (track car : string)
    (lap : FloatStorage.LapData) (self' : FloatStorage.LapStorageService) :
  FloatStorage.session_best_time self = PlusInf -> uuid <> ""%string ->
  FloatStorage.complete_lap self uuid time_ms lap_time track car
    = (Some lap, self') ->
  FloatStorage.deltaToSessionBest lap = Finite 0
  /\ (is_nan lap_time = false ->
      FloatStorage.isSessionBest lap = true
      /\ FloatStorage.session_best_id self' = Some uuid
      /\ FloatStorage.session_best_time self' = lap_time
      /\ FloatStorage.get_session_best self' = Some lap)
  /\ (lap_time = NaN ->
      FloatStorage.isSessionBest lap = false
      /\ FloatStorage.lapTime lap = NaN
      /\ FloatStorage.session_best_id self' = FloatStorage.session_best_id self
      /\ FloatStorage.session_best_time self' = PlusInf).
Proof.
  intros Hinf Hne. unfold FloatStorage.complete_lap.
  destruct (negb (FloatStorage.recording_active self)
            || (length (FloatStorage.current_lap_points self) <? 100)%nat)
    eqn:E1; [discriminate|].
  destruct (float_ltb lap_time (Finite 10)
            || float_ltb (Finite 1200) lap_time) eqn:E2; [discriminate|].
  cbv zeta. rewrite Hinf. intros H. inversion H as [[Hlap Hself]]. clear H.
  unfold FloatStorage._enforce_limit.
  match goal with
  | |- context [FloatStorage.enforce_limit_loop ?f ?s] =>
      destruct (float_enforce_limit_loop_best f s) as (Hb1 & Hb2);
      pose proof (float_enforce_limit_loop_keeps_best f s uuid) as Hkeep;
      set (s3 := FloatStorage.enforce_limit_loop f s) in *
  end.
  cbn [FloatStorage.session_best_id FloatStorage.session_best_time
       FloatStorage.set_laps] in Hb1, Hb2, Hkeep.
  unfold FloatStorage.get_session_best.
  cbn [FloatStorage.session_best_id FloatStorage.session_best_time
       FloatStorage.set_current_lap_points FloatStorage.set_recording_active
       FloatStorage.deltaToSessionBest FloatStorage.isSessionBest
       FloatStorage.lapTime FloatStorage.laps].
  rewrite Hb1, Hb2.
  split; [reflexivity|].
  destruct (range_tests_passed lap_time E2) as [-> | (q & -> & _)].
  - split; [discriminate|]. intros _.
    change (float_ltb NaN PlusInf) with false.
    cbn [FloatStorage.update_session_best].
    split; [reflexivity|]. split; [reflexivity|]. split; [reflexivity|].
    exact Hinf.
  - split; [| discriminate]. intros _.
    change (float_ltb (Finite q) PlusInf) with true in *.
    cbn [FloatStorage.update_session_best FloatStorage.session_best_id
         FloatStorage.session_best_time FloatStorage.set_session_best_time
         FloatStorage.set_session_best_id] in *.
    split; [reflexivity|]. split; [reflexivity|]. split; [reflexivity|].
    apply str_truthy_ne in Hne. rewrite Hne.
    rewrite (Hkeep eq_refl).
    unfold FloatStorage.set_laps at 1. cbn [FloatStorage.laps].
    rewrite dict_get_set, String.eqb_refl. reflexivity.
Qed.

Lemma first_lap_is_session_best_witness :
  (exists lap self',
     FloatStorage.complete_lap
       (FloatStorage.record_lap (FloatStorage.init MAX_STORED_LAPS) 1
          (rising_points 150))
       "3f2a9c10" 1700000095432 (Finite (95432 # 1000)) "Spa" "GT3"
     = (Some lap, self')
     /\ FloatStorage.isSessionBest lap = true
     /\ FloatStorage.deltaToSessionBest lap = Finite 0
     /\ FloatStorage.get_session_best self' = Some lap) /\
  (exists lap self',
     FloatStorage.complete_lap
       (FloatStorage.record_lap (FloatStorage.init MAX_STORED_LAPS) 1
          (rising_points 150))
       "3f2a9c10" 1700000095432 NaN "Spa" "GT3" = (Some lap, self')
     /\ FloatStorage.isSessionBest lap = false
     /\ FloatStorage.lapTime lap = NaN
     /\ FloatStorage.session_best_time self' = PlusInf).
Proof.
  assert (H1 : FloatStorage.session_best_time
                 (FloatStorage.record_lap (FloatStorage.init MAX_STORED_LAPS) 1
                    (rising_points 150)) = PlusInf)
    by (vm_compute; reflexivity).
  assert (H2 : "3f2a9c10"%string <> ""%string) by discriminate.
  split.
  - assert (E : exists lap s,
               FloatStorage.complete_lap
                 (FloatStorage.record_lap (FloatStorage.init MAX_STORED_LAPS) 1
                    (rising_points 150))
                 "3f2a9c10" 1700000095432 (Finite (95432 # 1000)) "Spa" "GT3"
               = (Some lap, s))
      by (do 2 eexists; vm_compute; reflexivity).
    destruct E as (lap & s & E). exists lap, s. split; [exact E|].
    destruct (first_lap_is_session_best
                (FloatStorage.record_lap (FloatStorage.init MAX_STORED_LAPS) 1
                   (rising_points 150))
                "3f2a9c10" 1700000095432 (Finite (95432 # 1000)) "Spa" "GT3"
                lap s H1 H2 E)
      as (Hd & Hnum & _).
    destruct (Hnum eq_refl) as (Hb & _ & _ & Hg).
    split; [exact Hb|]. split; [exact Hd | exact Hg].
  - assert (E : exists lap s,
               FloatStorage.complete_lap
                 (FloatStorage.record_lap (FloatStorage.init MAX_STORED_LAPS) 1
                    (rising_points 150))
                 "3f2a9c10" 1700000095432 NaN "Spa" "GT3" = (Some lap, s))
      by (do 2 eexists; vm_compute; reflexivity).
    destruct E as (lap & s & E). exists lap, s. split; [exact E|].
    destruct (first_lap_is_session_best
                (FloatStorage.record_lap (FloatStorage.init MAX_STORED_LAPS) 1
                   (rising_points 150))
                "3f2a9c10" 1700000095432 NaN "Spa" "GT3" lap s H1 H2 E)
      as (_ & _ & Hnan).
    destruct (Hnan eq_refl) as (Hb & Ht & _ & Hbt).
    split; [exact Hb|]. split; [exact Ht | exact Hbt].
Defined.

Lemma py_round_nonpos q n : (q <= 0)%Q -> (py_round q n <= 0)%Q.
Proof. intros H. apply (py_round_le 0), H. Qed.

Lemma py_round_nonneg q n : (0 <= q)%Q -> (0 <= py_round q n)%Q.
Proof. intros H. apply (py_round_ge 0), H. Qed.

Lemma delta_to_best_sign lap_time best :
  (lt_pyfloat lap_time best = true ->
     (IRacing.delta_to_best lap_time best <= 0)%Q)
  /\ (lt_pyfloat lap_time best = false ->
     (0 <= IRacing.delta_to_best lap_time best)%Q).
Proof.
  destruct best as [b |]; cbn.
  - split; intros H.
    + apply Qltb_lt in H. apply py_round_nonpos. lra.
    + apply Qltb_ge in H. apply py_round_nonneg. lra.
  - split; [intros _; apply Qle_refl | discriminate].
Qed.

(** The [deltaToSessionBest] of a stored lap is never positive for a lap
    flagged as session best and never negative for any other lap,
    whether it comes from [complete_lap] or from [save_pending_lap]. *)
Theorem delta_sign_follows_flag (self : LapStorageService)
    (uuid : string) (time_ms : Z) (lap_time : Q) (track car : string)
    (lap : LapData) (self' : LapStorageService) :
  IRacing.complete_lap self uuid time_ms lap_time track car = (Some lap, self')
  \/ IRacing.save_pending_lap self uuid time_ms lap_time = (Some lap, self') ->
  (isSessionBest lap = true -> (deltaToSessionBest lap <= 0)%Q)
  /\ (isSessionBest lap = false -> (0 <= deltaToSessionBest lap)%Q).
Proof.
  intros [Hc | Hc].
  - destruct (complete_lap_Some_inv _ _ _ _ _ _ _ _ Hc) as (Hrec & Hn & H1 & H2).
    destruct (complete_lap_stores self uuid time_ms lap_time track car
                Hrec Hn H1 H2) as (lap0 & s0 & Hc0 & Hlap & _).
    rewrite Hc0 in Hc. injection Hc as <- <-. subst lap0. cbn.
    apply delta_to_best_sign.
  - revert Hc. unfold IRacing.save_pending_lap.
    destruct ((length (pending_lap_points self) =? 0)%nat || _);
      [discriminate|].
    destruct (Qltb lap_time 10 || Qltb 1200 lap_time); [discriminate|].
    intros [= <- _]. cbn. apply delta_to_best_sign.
Qed.

Lemma delta_sign_follows_flag_witness :
  exists lap self',
    IRacing.complete_lap
      (record_lap (IRacing.init MAX_STORED_LAPS) 1 (rising_points 150))
      "3f2a9c10" 1700000095432 (95432 # 1000) "Spa" "GT3" = (Some lap, self')
    /\ (isSessionBest lap = true -> (deltaToSessionBest lap <= 0)%Q).
Proof.
  assert (E : exists lap s,
             IRacing.complete_lap
               (record_lap (IRacing.init MAX_STORED_LAPS) 1
                  (rising_points 150))
               "3f2a9c10" 1700000095432 (95432 # 1000) "Spa" "GT3"
             = (Some lap, s))
    by (do 2 eexists; vm_compute; reflexivity).
  destruct E as (lap & s & E). exists lap, s. split; [exact E|].
  destruct (delta_sign_follows_flag _ _ _ _ _ _ _ _ (or_introl E)) as [H _].
  exact H.
Defined.

(** Once the loop of [_enforce_limit] has stopped, running it again
    changes nothing. *)
Lemma enforce_limit_loop_stopped fuel self :
  Z.of_nat (length (laps self)) <= max_laps self
  \/ IRacing.opt_truthy
       (IRacing.find_oldest (session_best_id self) (laps self) None None).1
     = false ->
  IRacing.enforce_limit_loop fuel self = self.
Proof.
  intros H. destruct fuel as [| fuel]; cbn; [reflexivity|].
  destruct (max_laps self <? Z.of_nat (length (laps self))) eqn:Elen;
    [| reflexivity].
  apply Z.ltb_lt in Elen. destruct H as [H | H]; [lia|].
  destruct (IRacing.find_oldest _ _ _ _) as [[k |] ot]; cbn in *;
    [| reflexivity].
  rewrite H. reflexivity.
Qed.

(** [_enforce_limit] does nothing to a service within its limit, and
    enforcing the limit twice is the same as enforcing it once. *)
Theorem enforce_limit_idempotent (self : LapStorageService) :
  IRacing._enforce_limit (IRacing._enforce_limit self)
  = IRacing._enforce_limit self
  /\ (Z.of_nat (length (laps self)) <= max_laps self ->
      IRacing._enforce_limit self = self).
Proof.
  split.
  - unfold IRacing._enforce_limit at 1.
    apply enforce_limit_loop_stopped.
    unfold IRacing._enforce_limit.
    apply (enforce_limit_loop_stops (length (laps self)) self (le_n _)).
  - intros H. apply enforce_limit_loop_stopped. now left.
Qed.

Lemma enforce_limit_idempotent_witness :
  IRacing._enforce_limit (IRacing.init MAX_STORED_LAPS)
  = IRacing.init MAX_STORED_LAPS.
Proof.
  apply (enforce_limit_idempotent (IRacing.init MAX_STORED_LAPS)).
  vm_compute. discriminate.
Defined.

Lemma max_completedAt_spec l : forall best,
  (max_completedAt best l = best \/ In (max_completedAt best l) l)
  /\ completedAt best <= completedAt (max_completedAt best l)
  /\ forall x, In x l -> completedAt x <= completedAt (max_completedAt best l).
Proof.
  induction l as [| y r IH]; intros best; cbn.
  - split; [now left|]. split; [lia | tauto].
  - destruct (completedAt best <? completedAt y) eqn:E.
    + apply Z.ltb_lt in E. destruct (IH y) as (H1 & H2 & H3).
      split; [destruct H1 as [-> | H1]; auto|].
      split; [lia|]. intros x [<- | Hx]; auto.
    + apply Z.ltb_ge in E. destruct (IH best) as (H1 & H2 & H3).
      split; [destruct H1; auto|].
      split; [exact H2|]. intros x [<- | Hx]; [lia | auto].
Qed.

(** [get_last_lap] returns [None] exactly when no lap is stored;
    otherwise it returns a stored lap whose [completedAt] is the largest
    of all stored laps. *)
Theorem get_last_lap_spec (self : LapStorageService) :
  match get_last_lap self with
  | None => laps self = []
  | Some lap =>
      In lap (dict_values (laps self))
      /\ forall l, In l (dict_values (laps self)) ->
                   completedAt l <= completedAt lap
  end.
Proof.
  unfold get_last_lap, dict_values.
  destruct (laps self) as [| [k x] r]; cbn; [reflexivity|].
  destruct (max_completedAt_spec (map snd r) x) as (H1 & H2 & H3).
  split.
  - destruct H1 as [-> | H1]; auto.
  - intros l [<- | Hl]; auto.
Qed.

Lemma insert_newest_first_perm x l :
  Permutation (insert_newest_first x l) (x :: l).
Proof.
  induction l as [| y r IH]; cbn; [reflexivity|].
  destruct (completedAt x <? completedAt y); [| reflexivity].
  rewrite IH. apply perm_swap.
Qed.

Lemma sorted_newest_first_perm l : Permutation (sorted_newest_first l) l.
Proof.
  induction l as [| x r IH]; cbn; [reflexivity|].
  rewrite insert_newest_first_perm. now constructor.
Qed.

Lemma insert_newest_first_sorted x l :
  StronglySorted newest_first l ->
  StronglySorted newest_first (insert_newest_first x l).
Proof.
  induction 1 as [| y r Hr IH Hy]; cbn; [repeat constructor|].
  destruct (completedAt x <? completedAt y) eqn:E.
  - apply Z.ltb_lt in E. constructor; [exact IH|].
    apply Forall_forall. intros z Hz. apply list_elem_of_In in Hz.
    apply (Permutation_in _ (insert_newest_first_perm x r)) in Hz.
    destruct Hz as [<- | Hz]; [unfold newest_first; lia|].
    rewrite Forall_forall in Hy. apply Hy, list_elem_of_In, Hz.
  - apply Z.ltb_ge in E. constructor; [constructor; assumption|].
    constructor; [exact E|].
    rewrite Forall_forall in Hy |- *. intros z Hz.
    specialize (Hy z Hz). unfold newest_first in *. lia.
Qed.

Lemma sorted_newest_first_sorted l :
  StronglySorted newest_first (sorted_newest_first l).
Proof.
  induction l as [| x r IH]; cbn; [constructor|].
  apply insert_newest_first_sorted, IH.
Qed.

Lemma summary_sorted l :
  StronglySorted newest_first l ->
  StronglySorted (fun a b => sum_completedAt b <= sum_completedAt a)
    (map summary l).
Proof.
  induction 1 as [| y r Hr IH Hy]; cbn; constructor; [exact IH|].
  rewrite Forall_forall in Hy. rewrite Forall_forall. intros e He.
  apply list_elem_of_In, in_map_iff in He. destruct He as (z & <- & Hz).
  apply (Hy z), list_elem_of_In, Hz.
Qed.

(** [get_all_laps] lists every stored lap exactly once, newest first. *)
Theorem get_all_laps_spec (self : LapStorageService) :
  Permutation (get_all_laps self) (map summary (dict_values (laps self)))
  /\ StronglySorted
       (fun a b => sum_completedAt b <= sum_completedAt a)
       (get_all_laps self)
  /\ length (get_all_laps self) = length (laps self).
Proof.
  unfold get_all_laps. split.
  - apply Permutation_map, sorted_newest_first_perm.
  - split; [apply summary_sorted, sorted_newest_first_sorted|].
    rewrite length_map.
    rewrite (Permutation_length (sorted_newest_first_perm _)).
    unfold dict_values. apply length_map.
Qed.

Lemma last_pct_app last pts p :
  last_pct last (pts ++ [p]) = distancePct p.
Proof.
  unfold last_pct. rewrite map_app. cbn. apply last_last.
Qed.

Lemma last_cons_shift (l : list Q) : forall x d,
  List.last (x :: l) d = List.last l x.
Proof.
  induction l as [| y r IH]; intros x d; [reflexivity|].
  change (List.last (x :: y :: r) d) with (List.last (y :: r) d).
  rewrite (IH y d), (IH y x). reflexivity.
Qed.

Lemma forward_from_app pts : forall last p,
  forward_from last pts ->
  (last_pct last pts <= distancePct p)%Q \/ (distancePct p < 5 # 100)%Q ->
  forward_from last (pts ++ [p]).
Proof.
  induction pts as [| q r IH]; intros last p H Hp.
  - cbn. split; [exact Hp | exact I].
  - destruct H as [Hq Hr]. cbn [app forward_from]. split; [exact Hq|].
    apply IH; [exact Hr|].
    unfold last_pct in *. cbn [map] in Hp.
    rewrite last_cons_shift in Hp. exact Hp.
Qed.

Lemma add_point_buffer_ok self p :
  buffer_ok self -> buffer_ok (IRacing.add_point self p).
Proof.
  intros [Hf Hl]. unfold IRacing.add_point.
  destruct (recording_active self) eqn:Hrec; cbn [negb].
  2:{ split; [exact Hf | rewrite Hrec; discriminate]. }
  destruct (Qleb (last_distance_pct self) (distancePct p)
            || Qltb (distancePct p) (5 # 100)) eqn:E.
  2:{ split; [exact Hf | intros _; apply Hl; reflexivity]. }
  apply moving_forward_bool in E. unfold moving_forward in E.
  rewrite (Hl eq_refl) in E.
  split; cbn.
  - apply forward_from_app; assumption.
  - intros _. symmetry. apply last_pct_app.
Qed.

Lemma buffer_ok_frame self self' :
  current_lap_points self' = current_lap_points self ->
  recording_active self' = recording_active self ->
  last_distance_pct self' = last_distance_pct self ->
  buffer_ok self -> buffer_ok self'.
Proof. unfold buffer_ok. intros -> -> ->. tauto. Qed.

Lemma exec_iracing_buffer_ok self c :
  buffer_ok self -> buffer_ok (exec_iracing self c).2.
Proof.
  intros H.
  destruct c as [n | p | uuid time_ms lap_time tr car | uuid time_ms lap_time
                 | | lap_id | | | pts number track car created_at]; cbn.
  - split; [exact I | reflexivity].
  - apply add_point_buffer_ok, H.
  - unfold IRacing.complete_lap.
    destruct (negb (recording_active self) || _).
    { cbn. destruct H as [Hf _]. split; [exact Hf | discriminate]. }
    destruct (Qltb lap_time 10 || Qltb 1200 lap_time);
      cbn; (split; [exact I | discriminate]).
  - unfold IRacing.save_pending_lap.
    destruct ((length (pending_lap_points self) =? 0)%nat || _); [exact H|].
    destruct (Qltb lap_time 10 || Qltb 1200 lap_time); [exact H|].
    cbn. unfold IRacing._enforce_limit. rewrite enforce_limit_loop_frame.
    revert H. apply buffer_ok_frame; cbn.
    all: unfold IRacing.update_session_best.
    all: destruct (lt_pyfloat lap_time (session_best_time self));
      [| reflexivity].
    all: cbn; destruct (session_best_id self) as [b |]; [| reflexivity].
    all: destruct (str_truthy b && dict_mem b (laps self)); reflexivity.
  - unfold IRacing._enforce_limit. rewrite enforce_limit_loop_frame. exact H.
  - unfold IRacing.delete_lap.
    destruct (negb _); [exact H|].
    destruct (dict_mem lap_id (laps self)); exact H.
  - exact H.
  - split; [exact I | discriminate].
  - exact H.
Qed.

(** The samples of the live buffer are always in the order [add_point]
    accepts: each is at least as far round the lap as the one before, or
    lies in the first 5% of the lap.  This holds of a new service, is
    kept by every call, and so holds of the points of every lap that
    [complete_lap] returns. *)
Theorem buffer_stays_forward :
  (forall max_laps, buffer_ok (IRacing.init max_laps)) /\
  (forall self c, buffer_ok self -> buffer_ok (exec_iracing self c).2) /\
  (forall self uuid time_ms lap_time track car lap self',
      buffer_ok self ->
      IRacing.complete_lap self uuid time_ms lap_time track car
        = (Some lap, self') ->
      forward_from 0 (points lap)).
Proof.
  split; [intros m; split; [exact I | discriminate]|].
  split; [exact exec_iracing_buffer_ok|].
  intros self uuid time_ms lap_time track car lap self' [Hf _] Hc.
  destruct (complete_lap_Some_inv _ _ _ _ _ _ _ _ Hc) as (Hrec & Hn & H1 & H2).
  destruct (complete_lap_stores self uuid time_ms lap_time track car
              Hrec Hn H1 H2) as (lap0 & s0 & Hc0 & Hlap & _).
  rewrite Hc0 in Hc. injection Hc as <- <-. subst lap0. exact Hf.
Qed.

Lemma buffer_stays_forward_witness :
  buffer_ok
    (IRacing.add_point (IRacing.start_lap (IRacing.init MAX_STORED_LAPS) 1)
       sample_point).
Proof.
  destruct buffer_stays_forward as (_ & H & _).
  apply (H (IRacing.start_lap (IRacing.init MAX_STORED_LAPS) 1)
           (call_add_point sample_point)).
  split; [exact I | reflexivity].
Defined.

(** Under the session-best invariant [get_session_best] returns [None]
    exactly when nothing is stored; otherwise it returns the stored lap
    under [session_best_id], which is flagged and has the smallest
    [lapTime] of all stored laps. *)
Theorem get_session_best_spec (self : LapStorageService) :
  best_inv self ->
  match IRacing.get_session_best self with
  | Some lap =>
      isSessionBest lap = true
      /\ (exists k, session_best_id self = Some k /\ In (k, lap) (laps self))
      /\ forall k l, In (k, l) (laps self) -> (lapTime lap <= lapTime l)%Q
  | None => laps self = []
  end.
Proof.
  intros (Hnd & Hflag & Hbest). unfold IRacing.get_session_best.
  destruct (session_best_id self) as [b |] eqn:Eb.
  - destruct Hbest as (Hne & t & lap & Ht & Hlap & Hround & Hmin).
    apply str_truthy_ne in Hne. rewrite Hne, Hlap.
    split; [apply (Hflag b lap Hlap); reflexivity|].
    split; [exists b; split; [reflexivity | apply dict_get_In, Hlap]|].
    intros k l Hin. apply In_dict_get in Hin; [| exact Hnd].
    apply Hmin in Hin. lra.
  - destruct Hbest as [-> _]. reflexivity.
Qed.

Lemma get_session_best_spec_witness :
  match
    IRacing.get_session_best
      (run_calls exec_iracing (IRacing.init MAX_STORED_LAPS) two_laps_calls).2
  with
  | Some lap => isSessionBest lap = true
  | None => False
  end.
Proof.
  assert (Hinv : best_inv
            (run_calls exec_iracing (IRacing.init MAX_STORED_LAPS)
               two_laps_calls).2).
  { apply run_calls_inv; [apply store_inv_init | vm_compute; reflexivity]. }
  pose proof (get_session_best_spec _ Hinv) as H.
  destruct (IRacing.get_session_best _) as [lap |] eqn:E.
  - apply H.
  - revert E. vm_compute. discriminate.
Defined.

(* ================================================================== *)
(** * Further properties of the sector tracker *)

Lemma sector_from_dist_range (d : float) :
  _get_sector_from_dist d = 1 \/ _get_sector_from_dist d = 2
  \/ _get_sector_from_dist d = 3.
Proof.
  unfold _get_sector_from_dist.
  destruct (float_ltb d (33 # 100)); [auto|].
  destruct (float_ltb d (66 # 100)); auto.
Qed.



Lemma update_car_lookup_ne t d s (m : gmap nat CarState) j i :
  i <> j -> update_car t d s m j !! i = m !! i.
Proof.
  intros Hne. unfold update_car.
  destruct (d !! j) as [dist |]; [| reflexivity].
  destruct (Qltb dist 0 || (length s <=? j)%nat); [reflexivity|].
  destruct (s !! j) as [sf |]; [| reflexivity].
  destruct (sf <? 0); [reflexivity|].
  destruct (m !! j); rewrite lookup_insert_ne; congruence.
Qed.

Lemma update_car_lookup_eq t d s (m m' : gmap nat CarState) i :
  m !! i = m' !! i -> update_car t d s m i !! i = update_car t d s m' i !! i.
Proof.
  intros H. unfold update_car.
  destruct (d !! i) as [dist |]; [| exact H].
  destruct (Qltb dist 0 || (length s <=? i)%nat); [exact H|].
  destruct (s !! i) as [sf |]; [| exact H].
  destruct (sf <? 0); [exact H|].
  rewrite <- H. destruct (m !! i); rewrite !lookup_insert_eq; reflexivity.
Qed.

(** The loop of [update] treats every car from its own previous state. *)
Lemma fold_update_car_lookup t d s n : forall start (m : gmap nat CarState) i,
  fold_left (update_car t d s) (seq start n) m !! i
  = if decide (start <= i < start + n)%nat
    then update_car t d s m i !! i
    else m !! i.
Proof.
  induction n as [| n IH]; intros start m i; cbn.
  - destruct (decide _); [lia | reflexivity].
  - rewrite IH.
    destruct (decide (S start <= i < S start + n)%nat) as [Hin | Hout].
    + destruct (decide _); [| lia].
      apply update_car_lookup_eq, update_car_lookup_ne. lia.
    + destruct (decide (start <= i < start + S n)%nat) as [Hin' | Hout'].
      * assert (i = start) by lia. subst i. reflexivity.
      * apply update_car_lookup_ne. lia.
Qed.

(** What one [update] does to the state of the car with index [i]:
    nothing beyond the first [max_cars] entries of the distance array, for
    a negative distance, or for a track-surface entry that is missing or
    negative; a car not seen before gets a fresh state without sector
    times; a known car is advanced by its new distance, whatever the
    other cars do. *)
Theorem update_per_car (self : OpponentSectorTracker)
    (dists : list Q) (surfaces : list Z) (session_time : Q) (i : nat) :
  let self' := update self (Some dists) (Some surfaces) session_time in
  max_cars self' = max_cars self
  /\ ((Nat.min (length dists) (max_cars self) <= i)%nat ->
      car_states self' !! i = car_states self !! i)
  /\ (forall dist,
        (i < max_cars self)%nat -> dists !! i = Some dist ->
        ((dist < 0)%Q \/ surfaces !! i = None
         \/ exists sf, surfaces !! i = Some sf /\ sf < 0) ->
        car_states self' !! i = car_states self !! i)
  /\ (forall dist sf,
        (i < max_cars self)%nat -> dists !! i = Some dist ->
        surfaces !! i = Some sf -> (0 <= dist)%Q -> 0 <= sf ->
        car_states self' !! i
        = Some match car_states self !! i with
               | None => first_sighting dist session_time
               | Some st => update_known st dist session_time
               end).
Proof.
  cbv zeta. unfold update.
  change (default [] (Some dists)) with dists.
  change (default [] (Some surfaces)) with surfaces.
  cbn [car_states max_cars].
  split; [reflexivity|].
  split.
  { intros Hi. rewrite fold_update_car_lookup.
    destruct (decide _); [lia | reflexivity]. }
  split.
  - intros dist Hi Hd Hskip. rewrite fold_update_car_lookup.
    destruct (decide _); [| reflexivity].
    unfold update_car. rewrite Hd.
    destruct (Qltb dist 0) eqn:E0; [reflexivity|]. cbn [orb].
    destruct (length surfaces <=? i)%nat; [reflexivity|].
    apply Qltb_ge in E0.
    destruct Hskip as [H | [H | (sf & H & Hsf)]]; [lra | |]; rewrite H;
      [reflexivity|].
    apply Z.ltb_lt in Hsf. rewrite Hsf. reflexivity.
  - intros dist sf Hi Hd Hs H0 Hsf. rewrite fold_update_car_lookup.
    assert (Hlen : (i < length dists)%nat) by (eapply lookup_lt_Some, Hd).
    assert (Hlen' : (i < length surfaces)%nat) by (eapply lookup_lt_Some, Hs).
    destruct (decide _); [| lia].
    unfold update_car. rewrite Hd, Hs.
    assert (E0 : Qltb dist 0 = false) by (apply Qltb_ge, H0).
    assert (E1 : (length surfaces <=? i)%nat = false)
      by (apply Nat.leb_gt, Hlen').
    assert (E2 : (sf <? 0) = false) by (apply Z.ltb_ge, Hsf).
    rewrite E0, E1, E2. cbn [orb].
    destruct (car_states self !! i); rewrite lookup_insert_eq; reflexivity.
Qed.

Lemma update_per_car_witness :
  car_states
    (update tracker_init (Some [30 # 100; 45 # 100]%Q) (Some [3; -1]) 12)
  !! 1%nat = None
  /\ car_states
       (update tracker_init (Some [30 # 100; 45 # 100]%Q) (Some [3; -1]) 12)
     !! 0%nat = Some (first_sighting (30 # 100) 12).
Proof.
  destruct (update_per_car tracker_init [30 # 100; 45 # 100]%Q [3; -1] 12 1)
    as (_ & _ & Hskip & _).
  destruct (update_per_car tracker_init [30 # 100; 45 # 100]%Q [3; -1] 12 0)
    as (_ & _ & _ & Hnew).
  split.
  - rewrite (Hskip (45 # 100)%Q); [reflexivity | cbn; lia | reflexivity |].
    right. right. exists (-1). split; [reflexivity | lia].
  - rewrite (Hnew (30 # 100)%Q 3); [reflexivity | cbn; lia | reflexivity
                                    | reflexivity | | lia].
    vm_compute. discriminate.
Defined.

Lemma set_sector_time_recorded k v ts q :
  In q (recorded_times (set_sector_time k v ts)) ->
  q = v \/ In q (recorded_times ts).
Proof.
  unfold set_sector_time, recorded_times.
  destruct ts as [a b c].
  destruct (k =? 1); [| destruct (k =? 2); [| destruct (k =? 3)]];
    cbn [s1 s2 s3]; rewrite !in_app_iff;
    destruct a, b, c; cbn; intuition congruence.
Qed.

(** A closed sector records the rounded time since the sector was
    entered, and only when that time is strictly between 0 and 300. *)
Lemma close_sector_recorded k t st q :
  In q (recorded_times (sector_times (close_sector k t st))) ->
  In q (recorded_times (sector_times st))
  \/ ((0 < t - sector_start_time st)%Q /\ (t - sector_start_time st < 300)%Q
      /\ q = py_round (t - sector_start_time st) 3).
Proof.
  unfold close_sector.
  destruct (Qltb 0 (t - sector_start_time st)
            && Qltb (t - sector_start_time st) 300) eqn:E; cbn; [| tauto].
  apply andb_true_iff in E as [E1 E2]. apply Qltb_lt in E1, E2.
  intros H. apply set_sector_time_recorded in H as [-> | H]; auto.
Qed.

Lemma update_known_recorded st d t q :
  In q (recorded_times (sector_times (update_known st d t))) ->
  In q (recorded_times (sector_times st))
  \/ ((0 < t - sector_start_time st)%Q /\ (t - sector_start_time st < 300)%Q
      /\ q = py_round (t - sector_start_time st) 3).
Proof.
  unfold update_known. cbn -[close_sector].
  destruct (negb (_get_sector_from_dist d =? last_sector st));
    cbn -[close_sector]; [| tauto].
  destruct ((last_sector st =? 3) && (_get_sector_from_dist d =? 1));
    cbn -[close_sector].
  { apply close_sector_recorded. }
  destruct (_get_sector_from_dist d =? last_sector st + 1);
    cbn -[close_sector]; [| tauto].
  apply close_sector_recorded.
Qed.

Lemma update_known_sector st d t :
  1 <= last_sector st <= 3 -> 1 <= last_sector (update_known st d t) <= 3.
Proof.
  intros H. unfold update_known.
  destruct (negb (_get_sector_from_dist d =? last_sector st));
    cbn [last_sector set_last_session_time set_last_dist set_last_sector];
    [| exact H].
  destruct (sector_from_dist_range d) as [-> | [-> | ->]]; lia.
Qed.

Lemma rounded_time_in_range e :
  (0 < e)%Q -> (e < 300)%Q ->
  (0 <= py_round e 3)%Q /\ (py_round e 3 <= 300)%Q.
Proof.
  intros H1 H2. split.
  - apply py_round_nonneg, Qlt_le_weak, H1.
  - apply (py_round_le 300), Qlt_le_weak, H2.
Qed.

Lemma update_tracker_ok self D S t :
  tracker_ok self -> tracker_ok (update self D S t).
Proof.
  intros Hok i st'. unfold update. cbn [car_states max_cars].
  rewrite fold_update_car_lookup.
  destruct (decide _) as [Hin | Hout]; [| apply Hok].
  unfold update_car.
  destruct (default [] D !! i) as [dist |]; [| apply Hok].
  destruct (Qltb dist 0 || _); [apply Hok|].
  destruct (default [] S !! i) as [sf |]; [| apply Hok].
  destruct (sf <? 0); [apply Hok|].
  destruct (car_states self !! i) as [st |] eqn:Est;
    rewrite lookup_insert_eq; intros [= <-].
  - destruct (Hok i st Est) as (Hi & Hsec & Htimes).
    split; [exact Hi|]. split; [apply update_known_sector, Hsec|].
    intros q Hq. apply update_known_recorded in Hq as [Hq | (H1 & H2 & ->)].
    + apply Htimes, Hq.
    + apply rounded_time_in_range; assumption.
  - split; [lia|]. split.
    + cbn. destruct (sector_from_dist_range dist) as [-> | [-> | ->]]; lia.
    + intros q [].
Qed.

Lemma update_all_tracker_ok frames : forall self,
  tracker_ok self -> tracker_ok (update_all self frames).
Proof.
  unfold update_all.
  induction frames as [| f r IH]; intros self H; cbn; [exact H|].
  apply IH, update_tracker_ok, H.
Qed.

Lemma update_all_max_cars frames : forall self,
  max_cars (update_all self frames) = max_cars self.
Proof.
  unfold update_all.
  induction frames as [| f r IH]; intros self; cbn; [reflexivity|].
  rewrite IH. reflexivity.
Qed.

Lemma tracker_init_ok : tracker_ok tracker_init.
Proof. intros i st H. cbn in H. rewrite lookup_empty in H. discriminate. Qed.

(** Over any sequence of frames fed to a new tracker, at most the first
    64 car indices are tracked, every tracked car is in sector 1, 2 or 3,
    and every sector time that [get_sectors] reports lies within
    [0, 300] seconds (it is the 3-decimal rounding of an elapsed time
    strictly between 0 and 300).  [reset] forgets every car. *)
Theorem tracker_invariant :
  (forall self D S t, tracker_ok self -> tracker_ok (update self D S t)) /\
  (forall frames i st,
      car_states (update_all tracker_init frames) !! i = Some st ->
      (i < 64)%nat /\ 1 <= last_sector st <= 3) /\
  (forall frames i q,
      In q (recorded_times (get_sectors (update_all tracker_init frames) i)) ->
      (0 <= q)%Q /\ (q <= 300)%Q) /\
  (forall self i,
      get_sectors (tracker_reset self) i = mkSectorTimes None None None
      /\ tracker_ok (tracker_reset self)).
Proof.
  split; [exact update_tracker_ok|].
  pose proof (fun frames => update_all_tracker_ok frames _ tracker_init_ok)
    as Hall.
  split.
  { intros frames i st H. destruct (Hall frames i st H) as (Hi & Hs & _).
    rewrite update_all_max_cars in Hi. cbn in Hi. auto. }
  split.
  { intros frames i q. unfold get_sectors.
    destruct (car_states (update_all tracker_init frames) !! i) as [st |] eqn:E;
      [| intros []].
    destruct (Hall frames i st E) as (_ & _ & Ht). apply Ht. }
  intros self i. split.
  - unfold get_sectors, tracker_reset. cbn. rewrite lookup_empty. reflexivity.
  - intros j st H. cbn in H. rewrite lookup_empty in H. discriminate.
Qed.

Lemma tracker_invariant_witness :
  let frames : list TrackerFrame :=
    [(Some [30 # 100]%Q, Some [3], 10%Q);
     (Some [40 # 100]%Q, Some [3], (355 # 10)%Q)] in
  In (25500 # 1000)%Q
     (recorded_times (get_sectors (update_all tracker_init frames) 0))
  /\ (0 <= 25500 # 1000)%Q /\ (25500 # 1000 <= 300)%Q.
Proof.
  intros frames.
  assert (Hin : In (25500 # 1000)%Q
            (recorded_times (get_sectors (update_all tracker_init frames) 0)))
    by (vm_compute; left; reflexivity).
  split; [exact Hin|].
  destruct tracker_invariant as (_ & _ & H & _).
  exact (H frames 0%nat (25500 # 1000)%Q Hin).
Defined.

(** What one frame does to a car the tracker already knows, whose sector
    is 1, 2 or 3 as it is for every tracked car.  The sector
    only changes when the distance falls into another third of the lap.
    A sector time is written only on a crossing to the next sector
    (1 to 2, 2 to 3, or 3 to 1): it is filed under the sector just left,
    it is the time since that sector's start rounded to 3 decimals, and it
    is dropped unless strictly between 0 and 300 s; the sector start is
    then the current session time.  Any other change of sector (backwards,
    or skipping one) moves the car to the new sector but leaves both the
    recorded times and the sector start as they were. *)
Theorem sector_recording (st : CarState) (d t : Q)
    (Hsec : 1 <= last_sector st <= 3) :
  let st' := update_known st d t in
  let cur := _get_sector_from_dist d in
  let prev := last_sector st in
  let e := (t - sector_start_time st)%Q in
  let crossing := (prev = 3 /\ cur = 1) \/ cur = prev + 1 in
  last_dist st' = d /\ last_session_time st' = t /\
  (cur = prev ->
     last_sector st' = prev /\ sector_times st' = sector_times st
     /\ sector_start_time st' = sector_start_time st) /\
  (cur <> prev -> last_sector st' = cur) /\
  (cur <> prev -> ~ crossing ->
     sector_times st' = sector_times st
     /\ sector_start_time st' = sector_start_time st) /\
  (crossing ->
     sector_start_time st' = t
     /\ ((0 < e)%Q -> (e < 300)%Q ->
         sector_times st'
         = set_sector_time prev (py_round e 3) (sector_times st))
     /\ (~ ((0 < e)%Q /\ (e < 300)%Q) ->
         sector_times st' = sector_times st)).
Proof.
  clear Hsec. cbv zeta. unfold update_known.
  split; [reflexivity|]. split; [reflexivity|].
  destruct (Z.eqb_spec (_get_sector_from_dist d) (last_sector st)) as [E | E];
    cbn [negb].
  { split; [intros _; cbn; auto|]. split; [intros H; contradiction|].
    split; [intros H; contradiction|].
    intros [[H3 H1] | H]; [rewrite H3 in E; rewrite H1 in E; discriminate
                          | lia]. }
  split; [intros H; contradiction|]. split; [intros _; reflexivity|].
  assert (Hclose : forall k,
    sector_start_time (close_sector k t st) = t
    /\ ((0 < t - sector_start_time st)%Q -> (t - sector_start_time st < 300)%Q ->
        sector_times (close_sector k t st)
        = set_sector_time k (py_round (t - sector_start_time st) 3)
            (sector_times st))
    /\ (~ ((0 < t - sector_start_time st)%Q
           /\ (t - sector_start_time st < 300)%Q) ->
        sector_times (close_sector k t st) = sector_times st)).
  { intros k. unfold close_sector. cbv zeta.
    split; [reflexivity|].
    destruct (Qltb 0 (t - sector_start_time st)) eqn:E1;
      [destruct (Qltb (t - sector_start_time st) 300) eqn:E2 |];
      cbn [andb]; split; try reflexivity.
    - intros []. split; [apply Qltb_lt, E1 | apply Qltb_lt, E2].
    - intros _ H. apply Qltb_ge in E2.
      exfalso. apply (Qlt_not_le _ _ H), E2.
    - intros H _. apply Qltb_ge in E1.
      exfalso. apply (Qlt_not_le _ _ H), E1. }
  destruct (Z.eqb_spec (last_sector st) 3) as [E3 | E3]; cbn [andb].
  - destruct (Z.eqb_spec (_get_sector_from_dist d) 1) as [E1 | E1].
    + split; [intros _ []; left; auto|]. intros _.
      rewrite E3. apply (Hclose 3).
    + destruct (Z.eqb_spec (_get_sector_from_dist d) (last_sector st + 1))
        as [E4 | E4].
      * split; [intros _ []; right; exact E4|]. intros _. apply (Hclose _).
      * split; [intros _ _; split; reflexivity|].
        intros [[_ H] | H]; contradiction.
  - destruct (Z.eqb_spec (_get_sector_from_dist d) (last_sector st + 1))
      as [E4 | E4].
    + split; [intros _ []; right; exact E4|]. intros _. apply (Hclose _).
    + split; [intros _ _; split; reflexivity|].
      intros [[H _] | H]; contradiction.
Qed.

Lemma sector_recording_witness :
  let st := first_sighting (30 # 100) 10 in
  sector_times (update_known st (40 # 100) (355 # 10))
  = mkSectorTimes (Some (py_round (255 # 10) 3)) None None.
Proof.
  intros st.
  assert (Hsec : 1 <= last_sector st <= 3) by (vm_compute; split; discriminate).
  destruct (sector_recording st (40 # 100) (355 # 10) Hsec)
    as (_ & _ & _ & _ & _ & H).
  assert (Hc : (last_sector st = 3
                /\ _get_sector_from_dist (40 # 100) = 1)
               \/ _get_sector_from_dist (40 # 100) = last_sector st + 1)
    by (right; vm_compute; reflexivity).
  destruct (H Hc) as (_ & Hrec & _).
  assert (H0 : (0 < (355 # 10) - sector_start_time st)%Q)
    by (vm_compute; reflexivity).
  assert (H1 : ((355 # 10) - sector_start_time st < 300)%Q)
    by (vm_compute; reflexivity).
  rewrite (Hrec H0 H1). vm_compute. reflexivity.
Defined.

(* ================================================================== *)
(** * What the polling loop reports *)

Lemma read_telemetry_tracked self fs ir sv t fuel self' fs' :
  read_telemetry self fs ir sv = (Some (t, fuel), self', fs') ->
  prev_lap self' = currentLap t
  /\ prev_flag self' = flags_raw t
  /\ prev_position self' = position_overall t
  /\ prev_in_pit self' = inPitLane t
  /\ prev_incidents self' = incidents_count t
  /\ prev_session_state self' = session_stateRaw t.
Proof.
  unfold read_telemetry.
  destruct (negb (connected self) || negb (is_connected ir));
    [discriminate|]. cbv zeta.
  destruct (index_or _ _ 0) as [position |]; [| discriminate].
  destruct (index_or _ _ 0) as [cp |]; [| discriminate].
  destruct (if _ : bool then _ else true); [| discriminate].
  destruct (fuel_block _ _ _ _ _) as [[[fl fi] fs1] |]; [| discriminate].
  intros [= <- _ <- _]. cbn. repeat split; reflexivity.
Qed.

Lemma detect_events_unchanged_frame self t ir now current_time e :
  prev_lap self = currentLap t ->
  prev_flag self = flags_raw t ->
  prev_position self = position_overall t ->
  prev_in_pit self = inPitLane t ->
  prev_incidents self = incidents_count t ->
  prev_session_state self = session_stateRaw t ->
  In e (detect_events self (Some t) ir now current_time).1 ->
  is_change_event e = false.
Proof.
  intros H1 H2 H3 H4 H5 H6. unfold detect_events. cbv zeta.
  set (joined := negb _ || negb _).
  assert (Hev : forall self1 ev1,
    (ev1 = [] \/ ev1 = [session_joined (session_type t) (position_overall t)]) ->
    prev_lap self1 = currentLap t -> prev_flag self1 = flags_raw t ->
    prev_position self1 = position_overall t ->
    prev_in_pit self1 = inPitLane t ->
    prev_incidents self1 = incidents_count t ->
    prev_session_state self1 = session_stateRaw t ->
    forall x,
    In x (ev1
      ++ (if (prev_lap self1 <? currentLap t) && (0 <? prev_lap self1)
          then [lap_complete (currentLap t - 1)] else [])
      ++ (if negb (flags_raw t =? prev_flag self1)
          then [flag_change (prev_flag self1) (flags_raw t)] else [])
      ++ (if negb (position_overall t =? prev_position self1)
             && (0 <? prev_position self1)
          then [position_change (prev_position self1) (position_overall t)
                  (prev_position self1 - position_overall t)]
          else [])
      ++ (if negb (Bool.eqb (inPitLane t) (prev_in_pit self1))
          then [if inPitLane t then pit_entry else pit_exit] else [])
      ++ (if prev_incidents self1 <? incidents_count t
          then [incident (incidents_count t)
                  (incidents_count t - prev_incidents self1)]
          else [])
      ++ (if negb (session_stateRaw t =? prev_session_state self1)
          then [session_state_change (prev_session_state self1)
                  (session_stateRaw t)]
          else [])) ->
    is_change_event x = false).
  { intros self1 ev1 Hev1 -> -> -> -> -> -> x.
    rewrite !Z.ltb_irrefl, !Z.eqb_refl, Bool.eqb_reflx. cbn [negb andb app].
    rewrite app_nil_r.
    destruct Hev1 as [-> | ->]; [intros [] |].
    intros [<- | []]. reflexivity. }
  destruct joined.
  - set (self1 := set_session_joined_sent _ _).
    specialize (Hev self1 _ (or_intror eq_refl) H1 H2 H3 H4 H5 H6).
    destruct (spotter_enabled self1 t ir); [| exact (Hev e)].
    destruct (_update_spotter_state self1 now (_detect_proximity ir))
      as [[call |] self2]; [| exact (Hev e)].
    destruct (str_truthy call && _); [| exact (Hev e)].
    cbn [fst]. rewrite in_app_iff. intros [H | [<- | []]];
      [exact (Hev e H) | reflexivity].
  - specialize (Hev self [] (or_introl eq_refl) H1 H2 H3 H4 H5 H6).
    destruct (spotter_enabled self t ir); [| exact (Hev e)].
    destruct (_update_spotter_state self now (_detect_proximity ir))
      as [[call |] self2]; [| exact (Hev e)].
    destruct (str_truthy call && _); [| exact (Hev e)].
    cbn [fst]. rewrite in_app_iff. intros [H | [<- | []]];
      [exact (Hev e H) | reflexivity].
Qed.

(** In the polling loop [detect_events] is given the dictionary that
    [read_telemetry] has just built, and [read_telemetry] has already
    stored the same lap, flags, position, pit state, incident count and
    session state as the previous frame.  So the loop never broadcasts a
    lap_complete, flag_change, position_change, pit_entry, pit_exit,
    incident or session_state_change event: every event of a pass is a
    session_joined or a spotter event. *)
Theorem loop_reports_no_change_event (self : IRacingTelemetryService)
    (fs : FuelState) (ir : Frame) (sv : FrameSession) (now current_time : Q)
    (e : Event) :
  In e (telemetry_loop_events self fs ir sv now current_time).1.1 ->
  is_change_event e = false.
Proof.
  unfold telemetry_loop_events.
  destruct (read_telemetry self fs ir sv) as [[[[t fuel] |] self1] fs1] eqn:E;
    [| intros []].
  destruct (is_session_active self1 ir); [| intros []].
  destruct (read_telemetry_tracked _ _ _ _ _ _ _ _ E)
    as (H1 & H2 & H3 & H4 & H5 & H6).
  pose proof (detect_events_unchanged_frame self1 t ir now current_time e
                H1 H2 H3 H4 H5 H6) as H.
  destruct (detect_events self1 (Some t) ir now current_time) as [events self2].
  exact H.
Qed.

Lemma loop_reports_no_change_event_witness :
  let self := update_tracking 3 0 5 false 0 4 (set_connected true service_init) in
  let sv := mkFrameSession (Some [4]) (Some [4]) None (Some 0) (Some 0)
              (Some 100%Q) (Some [Some "Race"%string]) (Some 40%Q)
              (Some true) in
  (telemetry_loop_events self fuel_init (frame_on_track 4 0) sv
     1700000000 1700000000).1.1
  = [session_joined "Race" 4]
  /\ is_change_event (session_joined "Race" 4) = false.
Proof.
  intros self sv.
  assert (E : (telemetry_loop_events self fuel_init (frame_on_track 4 0) sv
                 1700000000 1700000000).1.1
              = [session_joined "Race" 4]) by (vm_compute; reflexivity).
  split; [exact E|].
  apply (loop_reports_no_change_event self fuel_init (frame_on_track 4 0) sv
           1700000000 1700000000).
  rewrite E. left. reflexivity.
Defined.

(* ================================================================== *)
(** * The spotter and the events over many ticks *)

Ltac split_ifs :=
  repeat match goal with
         | |- context [if ?b then _ else _] => destruct b eqn:?
         end.

(** [_update_spotter_state] writes the three spotter attributes only. *)
Lemma update_spotter_state_frame self now proximity :
  let self' := (_update_spotter_state self now proximity).2 in
  spotter_cooldown self' = spotter_cooldown self
  /\ spotter_still_interval self' = spotter_still_interval self
  /\ session_joined_sent self' = session_joined_sent self
  /\ current_session_id self' = current_session_id self
  /\ _last_spotter_emit self' = _last_spotter_emit self
  /\ prev_lap self' = prev_lap self
  /\ spotter_state self' = proximity_state proximity.
Proof.
  destruct proximity as [[] []]; unfold _update_spotter_state, proximity_state;
    cbn [andb]; cbv zeta.
  all: destruct (negb _) eqn:Hs; split_ifs; cbn; repeat split; try reflexivity.
  all: apply negb_false_iff, String.eqb_eq in Hs; symmetry; exact Hs.
Qed.

Lemma update_spotter_state_call self now proximity :
  match (_update_spotter_state self now proximity).1 with
  | Some c =>
      spotter_last_call (_update_spotter_state self now proximity).2 = now
      /\ (is_clear_call c = true
          \/ (is_threat c = true
              /\ (spotter_cooldown self <= now - spotter_last_call self)%Q)
          \/ (is_still_call c = true
              /\ (spotter_still_interval self
                  <= now - spotter_last_call self)%Q))
  | None =>
      spotter_last_call (_update_spotter_state self now proximity).2
      = spotter_last_call self
  end.
Proof.
  destruct proximity as [[] []]; unfold _update_spotter_state;
    cbn [andb]; cbv zeta.
  all: destruct (negb _) eqn:Hs; cbn [String.eqb Ascii.eqb Bool.eqb].
  all: try (destruct (Qleb (spotter_cooldown self) _) eqn:Hc;
            [apply Qleb_le in Hc; cbn; split; [reflexivity|];
             right; left; split; [reflexivity | exact Hc]
            | cbn; reflexivity]).
  all: try (split_ifs; cbn; split; reflexivity || (left; reflexivity)).
  all: destruct (is_threat (spotter_state self)
                 && Qleb (spotter_still_interval self) _) eqn:Hc;
    [| cbn; reflexivity].
  all: apply andb_true_iff in Hc as [Ht Hc]; apply Qleb_le in Hc.
  all: split_ifs; cbn [fst snd].
  all: try (exfalso; unfold is_threat in Ht;
            repeat match goal with
                   | H : String.eqb _ _ = false |- _ =>
                       rewrite H in Ht; clear H
                   end; discriminate).
  all: split; [reflexivity|]; right; right; split; [| exact Hc].
  all: unfold variant_str; split_ifs; reflexivity.
Qed.

Lemma calls_spaced_run ticks : forall self,
  calls_spaced (spotter_cooldown self) (spotter_still_interval self)
    (spotter_last_call self) (spotter_run self ticks).1.
Proof.
  induction ticks as [| [now proximity] rest IH]; intros self; cbn [spotter_run];
    [exact I|].
  pose proof (update_spotter_state_call self now proximity) as Hcall.
  destruct (update_spotter_state_frame self now proximity)
    as (Hcd & Hsi & _).
  specialize (IH (_update_spotter_state self now proximity).2).
  rewrite Hcd, Hsi in IH.
  destruct (_update_spotter_state self now proximity) as [event self1].
  cbn [fst snd] in *.
  destruct (spotter_run self1 rest) as [calls self2]. cbn [fst snd] in *.
  destruct event as [c |].
  - destruct Hcall as [Hlast Hc]. rewrite Hlast in IH.
    cbn [calls_spaced]. split; assumption.
  - rewrite Hcall in IH. exact IH.
Qed.

Lemma spotter_run_app self ticks tick :
  (spotter_run self (ticks ++ [tick])).2
  = (_update_spotter_state (spotter_run self ticks).2 tick.1 tick.2).2.
Proof.
  revert self. induction ticks as [| [now proximity] rest IH]; intros self.
  - destruct tick as [now proximity]. cbn.
    destruct (_update_spotter_state self now proximity). reflexivity.
  - cbn [app spotter_run].
    destruct (_update_spotter_state self now proximity) as [event self1].
    specialize (IH self1).
    destruct (spotter_run self1 (rest ++ [tick])) as [c1 s1].
    destruct (spotter_run self1 rest) as [c2 s2]. exact IH.
Qed.

Lemma threat_call_on_arrival self now proximity c :
  (_update_spotter_state self now proximity).1 = Some c ->
  is_threat c = true ->
  c = proximity_state proximity /\ spotter_state self <> c.
Proof.
  destruct proximity as [[] []]; unfold _update_spotter_state, proximity_state;
    cbn [andb]; cbv zeta.
  all: match goal with
       | |- context [negb (String.eqb ?a (spotter_state ?s))] =>
           destruct (String.eqb_spec a (spotter_state s)) as [E | E]
       end; cbn [negb String.eqb Ascii.eqb Bool.eqb].
  all: split_ifs; cbn [fst]; try discriminate.
  all: intros [= <-]; try discriminate.
  all: try (unfold variant_str; split_ifs; discriminate).
  all: intros _; split; [reflexivity | intros E'; apply E; symmetry; exact E'].
Qed.

(** Over any sequence of ticks of the spotter: a call that names a
    threat (car_left, car_right, three_wide) comes at least
    [spotter_cooldown] after the call before it, a "still there" call at
    least [spotter_still_interval] after the call before it, and every
    other call is one of the four clear calls.  Whether or not a call
    was made, the spotter state after a tick is the one given by the
    proximity flags of that tick, and a threat is called by its name
    only on the tick on which the state changes to it: a threat that
    appears during the cooldown is taken over silently. *)
Theorem spotter_calls_spaced (self : IRacingTelemetryService)
    (ticks : list (Q * (bool * bool))) :
  calls_spaced (spotter_cooldown self) (spotter_still_interval self)
    (spotter_last_call self) (spotter_run self ticks).1
  /\ (forall tick,
        spotter_state (spotter_run self (ticks ++ [tick])).2
        = proximity_state tick.2)
  /\ (forall now proximity c,
        (_update_spotter_state (spotter_run self ticks).2 now proximity).1
        = Some c ->
        is_threat c = true ->
        c = proximity_state proximity
        /\ spotter_state (spotter_run self ticks).2 <> c).
Proof.
  split; [apply calls_spaced_run|]. split.
  - intros tick. rewrite spotter_run_app.
    apply update_spotter_state_frame.
  - intros now proximity c. apply threat_call_on_arrival.
Qed.

Lemma spotter_calls_spaced_witness :
  let self := set_spotter_last_call 100 service_init in
  let ticks := [((1005 # 10)%Q, (true, false)); (101%Q, (true, false));
                ((1025 # 10)%Q, (false, false))] in
  (spotter_run self ticks).1 = [((1025 # 10)%Q, "clear_left"%string)]
  /\ (_update_spotter_state (spotter_run self ticks).2 104 (false, true)).1
     = Some "car_right"%string
  /\ spotter_state (spotter_run self ticks).2 <> "car_right"%string.
Proof.
  intros self ticks.
  assert (E : (spotter_run self ticks).1
              = [((1025 # 10)%Q, "clear_left"%string)])
    by (vm_compute; reflexivity).
  split; [exact E|].
  assert (Hc : (_update_spotter_state (spotter_run self ticks).2 104
                  (false, true)).1 = Some "car_right"%string)
    by (vm_compute; reflexivity).
  split; [exact Hc|].
  destruct (spotter_calls_spaced self ticks) as (_ & _ & H).
  assert (Ht : is_threat "car_right" = true) by reflexivity.
  exact (proj2 (H 104%Q (false, true) "car_right"%string Hc Ht)).
Defined.

(** The shape of the result of [detect_events]: events that are not
    spotter events, then at most one spotter event. *)
Lemma detect_events_shape self t ir now current_time :
  exists pre sp self',
    detect_events self (Some t) ir now current_time = (pre ++ sp, self')
    /\ forallb (fun e => negb (is_spotter e)) pre = true
    /\ length (List.filter is_session_joined (pre ++ sp))
       = (if negb (_safe_get (SessionNum ir) 0 =? current_session_id self)
             || negb (session_joined_sent self)
          then 1%nat else 0%nat)
    /\ session_joined_sent self' = true
    /\ current_session_id self' = _safe_get (SessionNum ir) 0
    /\ ((sp = [] /\ _last_spotter_emit self' = _last_spotter_emit self)
        \/ (exists c l r,
              sp = [spotter c l r]
              /\ (5 # 10 <= current_time
                             - default 0%Q (_last_spotter_emit self))%Q
              /\ _last_spotter_emit self' = Some current_time)).
Proof.
  unfold detect_events. cbv zeta.
  destruct (negb (_safe_get (SessionNum ir) 0 =? current_session_id self)
            || negb (session_joined_sent self)) eqn:Hj.
  - set (self1 := set_session_joined_sent _ _).
    match goal with
    | |- context [if spotter_enabled _ _ _ then _ else (?p, _)] =>
        set (pre := p)
    end.
    assert (Hpre : forallb (fun e => negb (is_spotter e)) pre = true).
    { subst pre. rewrite !forallb_app. split_ifs; reflexivity. }
    assert (Hcount : forall sp, forallb (fun e => negb (is_session_joined e)) sp = true ->
              length (List.filter is_session_joined (pre ++ sp)) = 1%nat).
    { intros sp Hsp. rewrite List.filter_app, List.length_app.
      replace (List.filter is_session_joined sp) with (@nil Event).
      - subst pre. cbn [app List.filter is_session_joined length].
        rewrite !List.filter_app. split_ifs; reflexivity.
      - symmetry. clear -Hsp. induction sp as [| e r IH]; [reflexivity|].
        cbn in *. apply andb_true_iff in Hsp as [He Hr].
        apply negb_true_iff in He. rewrite He. apply IH, Hr. }
    destruct (spotter_enabled self1 t ir).
    + pose proof (update_spotter_state_frame self1 now (_detect_proximity ir))
        as (_ & _ & Hs & Hc & He & _).
      destruct (_update_spotter_state self1 now (_detect_proximity ir))
        as [[call |] self2]; cbn [snd] in *.
      * destruct (str_truthy call) eqn:Hcall; cbn [andb].
        { destruct (Qleb _ _) eqn:Hq.
          - exists pre, [spotter call (_detect_proximity ir).1
                           (_detect_proximity ir).2], 
              (set__last_spotter_emit (Some current_time) self2).
            split; [reflexivity|]. split; [exact Hpre|].
            split; [apply Hcount; reflexivity|].
            split; [exact Hs|]. split; [exact Hc|]. right.
            exists call, (_detect_proximity ir).1, (_detect_proximity ir).2.
            split; [reflexivity|]. split; [| reflexivity].
            apply Qleb_le in Hq. rewrite He in Hq. exact Hq.
          - exists pre, [], self2. rewrite app_nil_r.
            split; [reflexivity|]. split; [exact Hpre|].
            split; [rewrite <- (app_nil_r pre); apply Hcount; reflexivity|].
            split; [exact Hs|]. split; [exact Hc|]. left. split; [reflexivity|exact He]. }
        exists pre, [], self2. rewrite app_nil_r.
        split; [reflexivity|]. split; [exact Hpre|].
        split; [rewrite <- (app_nil_r pre); apply Hcount; reflexivity|].
        split; [exact Hs|]. split; [exact Hc|]. left. split; [reflexivity|exact He].
      * exists pre, [], self2. rewrite app_nil_r.
        split; [reflexivity|]. split; [exact Hpre|].
        split; [rewrite <- (app_nil_r pre); apply Hcount; reflexivity|].
        split; [exact Hs|]. split; [exact Hc|]. left. split; [reflexivity|exact He].
    + exists pre, [], self1. rewrite app_nil_r.
      split; [reflexivity|]. split; [exact Hpre|].
      split; [rewrite <- (app_nil_r pre); apply Hcount; reflexivity|].
      split; [reflexivity|]. split; [reflexivity|]. left. split; reflexivity.
  - apply orb_false_iff in Hj as [Hj1 Hj2].
    apply negb_false_iff in Hj1, Hj2. apply Z.eqb_eq in Hj1.
    match goal with
    | |- context [if spotter_enabled _ _ _ then _ else (?p, _)] =>
        set (pre := p)
    end.
    assert (Hpre : forallb (fun e => negb (is_spotter e)) pre = true).
    { subst pre. rewrite !forallb_app. split_ifs; reflexivity. }
    assert (Hcount : forall sp, forallb (fun e => negb (is_session_joined e)) sp = true ->
              length (List.filter is_session_joined (pre ++ sp)) = 0%nat).
    { intros sp Hsp. rewrite List.filter_app, List.length_app.
      replace (List.filter is_session_joined sp) with (@nil Event).
      - subst pre. cbn [app List.filter is_session_joined length].
        rewrite !List.filter_app. split_ifs; reflexivity.
      - symmetry. clear -Hsp. induction sp as [| e r IH]; [reflexivity|].
        cbn in *. apply andb_true_iff in Hsp as [He Hr].
        apply negb_true_iff in He. rewrite He. apply IH, Hr. }
    destruct (spotter_enabled self t ir).
    + pose proof (update_spotter_state_frame self now (_detect_proximity ir))
        as (_ & _ & Hs & Hc & He & _).
      rewrite Hj2 in Hs. rewrite <- Hj1 in Hc.
      destruct (_update_spotter_state self now (_detect_proximity ir))
        as [[call |] self2]; cbn [snd] in *.
      * destruct (str_truthy call) eqn:Hcall; cbn [andb].
        { destruct (Qleb _ _) eqn:Hq.
          - exists pre, [spotter call (_detect_proximity ir).1
                           (_detect_proximity ir).2], 
              (set__last_spotter_emit (Some current_time) self2).
            split; [reflexivity|]. split; [exact Hpre|].
            split; [apply Hcount; reflexivity|].
            split; [exact Hs|]. split; [exact Hc|]. right.
            exists call, (_detect_proximity ir).1, (_detect_proximity ir).2.
            split; [reflexivity|]. split; [| reflexivity].
            apply Qleb_le in Hq. rewrite He in Hq. exact Hq.
          - exists pre, [], self2. rewrite app_nil_r.
            split; [reflexivity|]. split; [exact Hpre|].
            split; [rewrite <- (app_nil_r pre); apply Hcount; reflexivity|].
            split; [exact Hs|]. split; [exact Hc|]. left. split; [reflexivity|exact He]. }
        exists pre, [], self2. rewrite app_nil_r.
        split; [reflexivity|]. split; [exact Hpre|].
        split; [rewrite <- (app_nil_r pre); apply Hcount; reflexivity|].
        split; [exact Hs|]. split; [exact Hc|]. left. split; [reflexivity|exact He].
      * exists pre, [], self2. rewrite app_nil_r.
        split; [reflexivity|]. split; [exact Hpre|].
        split; [rewrite <- (app_nil_r pre); apply Hcount; reflexivity|].
        split; [exact Hs|]. split; [exact Hc|]. left. split; [reflexivity|exact He].
    + exists pre, [], self. rewrite app_nil_r.
      split; [reflexivity|]. split; [exact Hpre|].
      split; [rewrite <- (app_nil_r pre); apply Hcount; reflexivity|].
      split; [exact Hj2|]. split; [symmetry; exact Hj1|]. left. split; reflexivity.
Qed.

Lemma emits_spaced_prefix t pre later : forall last,
  forallb (fun e => negb (is_spotter e)) pre = true ->
  emits_spaced last (map (fun e => (t, e)) pre ++ later)
  <-> emits_spaced last later.
Proof.
  induction pre as [| e r IH]; intros last H; cbn [map app]; [tauto|].
  cbn in H. apply andb_true_iff in H as [He Hr].
  apply negb_true_iff in He. cbn [emits_spaced]. rewrite He. apply IH, Hr.
Qed.

(** Over any sequence of calls of [detect_events], two spotter events
    are never less than 0.5 s apart (by the clock reading that guards
    the emission), and no call yields two of them: a call of the spotter
    state machine that falls within 0.5 s of the spotter event before it
    is not passed on. *)
Theorem spotter_events_spaced (self : IRacingTelemetryService)
    (ticks : list Tick) :
  emits_spaced (default 0%Q (_last_spotter_emit self)) (detect_run self ticks).1.
Proof.
  revert self. induction ticks as [| k rest IH]; intros self; [exact I|].
  cbn [detect_run].
  destruct (tick_telemetry k) as [t |].
  - destruct (detect_events_shape self t (tick_frame k) (tick_now k)
                (tick_time k))
      as (pre & sp & self' & E & Hpre & _ & _ & _ & Hsp).
    rewrite E. specialize (IH self').
    destruct (detect_run self' rest) as [later self2]. cbn [fst] in *.
    rewrite map_app, <- app_assoc. apply emits_spaced_prefix; [exact Hpre|].
    destruct Hsp as [[-> Hl] | (c & l & r & -> & Hgap & Hl)].
    + rewrite Hl in IH. exact IH.
    + rewrite Hl in IH. cbn. split; assumption.
  - cbn [detect_events]. specialize (IH self).
    destruct (detect_run self rest) as [later self2]. exact IH.
Qed.

Lemma filter_stamped (p : Event -> bool) (t : Q) l :
  List.filter (fun te : Q * Event => p te.2) (map (fun e => (t, e)) l)
  = map (fun e => (t, e)) (List.filter p l).
Proof.
  induction l as [| e r IH]; [reflexivity|].
  cbn. destruct (p e); cbn; rewrite IH; reflexivity.
Qed.

Lemma detect_run_joined self ticks s :
  (forall k, In k ticks -> _safe_get (SessionNum (tick_frame k)) 0 = s) ->
  length (List.filter (fun te => is_session_joined te.2)
            (detect_run self ticks).1)
  = (if negb (s =? current_session_id self) || negb (session_joined_sent self)
     then if existsb (fun k => bool_decide (is_Some (tick_telemetry k))) ticks
          then 1%nat else 0%nat
     else 0%nat).
Proof.
  revert self. induction ticks as [| k rest IH]; intros self Hs.
  - cbn. destruct (_ || _); reflexivity.
  - cbn [detect_run existsb].
    assert (Hk : _safe_get (SessionNum (tick_frame k)) 0 = s)
      by (apply Hs; left; reflexivity).
    assert (Hrest : forall k', In k' rest ->
              _safe_get (SessionNum (tick_frame k')) 0 = s)
      by (intros k' Hin; apply Hs; right; exact Hin).
    destruct (tick_telemetry k) as [t |].
    + destruct (detect_events_shape self t (tick_frame k) (tick_now k)
                  (tick_time k))
        as (pre & sp & self' & E & _ & Hcount & Hsent & Hcur & _).
      rewrite E. specialize (IH self' Hrest).
      rewrite Hsent, Hcur, Hk, Z.eqb_refl in IH. cbn [negb orb] in IH.
      destruct (detect_run self' rest) as [later self2]. cbn [fst] in *.
      rewrite List.filter_app, List.length_app, IH, Nat.add_0_r.
      rewrite filter_stamped, length_map, Hcount, Hk.
      rewrite bool_decide_eq_true_2 by (eexists; reflexivity).
      cbn [orb]. destruct (_ || _); reflexivity.
    + cbn [detect_events]. specialize (IH self Hrest).
      destruct (detect_run self rest) as [later self2]. cbn [fst map app] in *.
      rewrite IH. rewrite bool_decide_eq_false_2 by (intros [x Hx]; discriminate).
      reflexivity.
Qed.

(** Over any sequence of calls of [detect_events] in which the SDK
    reports one and the same session number, session_joined is emitted
    at most once: exactly once, by the first call that is given a
    telemetry dictionary, when the service has not yet announced this
    session, and never when it has. *)
Theorem session_joined_once (self : IRacingTelemetryService)
    (ticks : list Tick) (s : Z) :
  (forall k, In k ticks -> _safe_get (SessionNum (tick_frame k)) 0 = s) ->
  let joined :=
    length (List.filter (fun te => is_session_joined te.2)
              (detect_run self ticks).1) in
  (joined <= 1)%nat
  /\ (session_joined_sent self = true -> current_session_id self = s ->
      joined = 0%nat)
  /\ ((session_joined_sent self = false \/ current_session_id self <> s) ->
      (exists k, In k ticks /\ tick_telemetry k <> None) ->
      joined = 1%nat).
Proof.
  intros Hs joined. subst joined. rewrite (detect_run_joined self ticks s Hs).
  split; [| split].
  - destruct (_ || _); [destruct (existsb _ _)|]; lia.
  - intros -> ->. rewrite Z.eqb_refl. reflexivity.
  - intros Hnew (k & Hin & Hk).
    replace (negb (s =? current_session_id self)
             || negb (session_joined_sent self)) with true.
    + replace (existsb _ ticks) with true; [reflexivity|].
      symmetry. apply existsb_exists. exists k. split; [exact Hin|].
      destruct (tick_telemetry k); [reflexivity | contradiction].
    + symmetry. apply orb_true_iff.
      destruct Hnew as [-> | Hne]; [right; reflexivity|].
      left. apply negb_true_iff, Z.eqb_neq. intros E. apply Hne. symmetry. exact E.
Qed.

Lemma session_joined_once_witness :
  let t := mkTelemetry 4 0 4 false 0 4 "Race" in
  let ticks := [mkTick (Some t) (frame_on_track 4 0) 10 10;
                mkTick None (frame_on_track 4 0) 11 11;
                mkTick (Some t) (frame_on_track 4 0) 12 12] in
  length (List.filter (fun te : Q * Event => is_session_joined te.2)
            (detect_run (set_connected true service_init) ticks).1)
  = 1%nat.
Proof.
  intros t ticks.
  assert (Hs : forall k, In k ticks ->
                 _safe_get (SessionNum (tick_frame k)) 0 = 0)
    by (intros k [<- | [<- | [<- | []]]]; reflexivity).
  destruct (session_joined_once (set_connected true service_init) ticks 0 Hs)
    as (_ & _ & H).
  apply H.
  - left. reflexivity.
  - exists (mkTick (Some t) (frame_on_track 4 0) 10 10).
    split; [left; reflexivity | discriminate].
Defined.

(* ================================================================== *)
(** * The fuel bookkeeping of [read_telemetry] *)

Lemma deque_append_ok maxlen x d :
  (0 < maxlen)%nat -> (length d <= maxlen)%nat -> (0 < x)%Q ->
  Forall (fun q => (0 < q)%Q) d ->
  (length (deque_append maxlen x d) <= maxlen)%nat
  /\ Forall (fun q => (0 < q)%Q) (deque_append maxlen x d).
Proof.
  intros Hm Hlen Hx Hd. unfold deque_append.
  assert (Hall : Forall (fun q => (0 < q)%Q) (d ++ [x])).
  { apply Forall_app. split; [exact Hd|]. constructor; [exact Hx | constructor]. }
  destruct (length d <? maxlen)%nat eqn:E.
  - apply Nat.ltb_lt in E. split; [| exact Hall].
    rewrite length_app. cbn. lia.
  - split.
    + destruct d as [| y r]; cbn in *; [lia|]. rewrite length_app. cbn. lia.
    + destruct (d ++ [x]) as [| y r]; cbn; [constructor|].
      inversion Hall; assumption.
Qed.

Lemma Qsum_from_nonneg l : forall acc,
  (0 <= acc)%Q -> Forall (fun q => (0 < q)%Q) l ->
  (acc <= fold_left Qplus l acc)%Q.
Proof.
  induction l as [| x r IH]; intros acc Hacc Hl; cbn; [apply Qle_refl|].
  inversion Hl as [| ? ? Hx Hr]; subst.
  apply Qle_trans with (acc + x)%Q; [lra|].
  apply IH; [lra | exact Hr].
Qed.

Lemma Qsum_pos x r :
  Forall (fun q => (0 < q)%Q) (x :: r) -> (0 < Qsum (x :: r))%Q.
Proof.
  intros H. inversion H as [| ? ? Hx Hr]; subst. unfold Qsum. cbn.
  apply Qlt_le_trans with (0 + x)%Q; [lra|].
  apply Qsum_from_nonneg; [lra | exact Hr].
Qed.

Lemma average_pos x r :
  Forall (fun q => (0 < q)%Q) (x :: r) ->
  (0 < Qsum (x :: r) / inject_Z (Z.of_nat (length (x :: r))))%Q.
Proof.
  intros H. apply Qlt_shift_div_l.
  - unfold Qlt, inject_Z. cbn. lia.
  - rewrite Qmult_0_l. apply Qsum_pos, H.
Qed.

Lemma fuel_usage_ok fs fuel_level current_lap prev_lap_ :
  fuel_ok fs ->
  fuel_ok (fuel_usage fs fuel_level current_lap prev_lap_).2
  /\ last_fuel_level (fuel_usage fs fuel_level current_lap prev_lap_).2
     = last_fuel_level fs
  /\ (fuel_level = None ->
      fuel_usage fs fuel_level current_lap prev_lap_ = (0%Q, fs)).
Proof.
  intros [Hlen Hpos]. unfold fuel_usage.
  destruct fuel_level as [fl |];
    [| split; [split; assumption|]; split; reflexivity].
  split; [| split; [| discriminate]].
  - destruct ((prev_lap_ <? current_lap) && Qltb 0 (lap_start_fuel fs)).
    + cbv zeta. unfold fuel_ok. cbn [snd fuel_used_history].
      destruct (Qltb 0 (lap_start_fuel fs - fl)) eqn:E; [| split; assumption].
      apply Qltb_lt in E.
      apply deque_append_ok; try assumption. unfold FUEL_HISTORY_SIZE. lia.
    + destruct (Qeq_bool (lap_start_fuel fs) 0); split; assumption.
  - destruct ((prev_lap_ <? current_lap) && Qltb 0 (lap_start_fuel fs));
      [reflexivity|].
    destruct (Qeq_bool (lap_start_fuel fs) 0); reflexivity.
Qed.

Lemma fuel_per_lap_avg_nonneg history :
  Forall (fun q => (0 < q)%Q) history -> (0 <= fuel_per_lap_avg history)%Q.
Proof.
  intros H. destruct history as [| x r]; [apply Qle_refl|].
  apply Qlt_le_weak, average_pos, H.
Qed.

Lemma estimated_laps_remaining_nonneg fuel_level avg :
  (0 <= estimated_laps_remaining fuel_level avg)%Q.
Proof.
  unfold estimated_laps_remaining.
  destruct fuel_level as [fl |]; [| apply Qle_refl].
  destruct (Qltb 0 fl) eqn:E1; cbn [andb]; [| apply Qle_refl].
  destruct (Qltb 0 avg) eqn:E2; [| apply Qle_refl].
  apply Qltb_lt in E1, E2. apply Qlt_le_weak, Qlt_shift_div_l; [exact E2|].
  rewrite Qmult_0_l. exact E1.
Qed.

Lemma fuel_block_ok fs fuel_level_raw is_on_track current_lap prev_lap_
    fuel_level fuel fs1 :
  fuel_ok fs ->
  fuel_block fs fuel_level_raw is_on_track current_lap prev_lap_
  = Some (fuel_level, fuel, fs1) ->
  fuel_ok fs1
  /\ last_fuel_level fs1 = last_fuel_level fs
  /\ fuel_level
     = (if Qltb fuel_level_raw (5 # 10) && is_on_track
        then None else Some fuel_level_raw)
  /\ fuel_level_out fuel = option_map (fun fl => py_round fl 2) fuel_level
  /\ (0 <= perLapAvg fuel)%Q
  /\ (0 <= estimatedLapsRemaining fuel)%Q
  /\ (fuel_used_history fs1 = [] -> estimatedLapsRemaining fuel == 0)%Q
  /\ (fuel_level = None ->
      fs1 = fs /\ usedLastLap fuel == 0 /\ estimatedLapsRemaining fuel == 0)%Q.
Proof.
  intros Hok. unfold fuel_block.
  destruct (fuel_check fs fuel_level_raw is_on_track) as [fl |] eqn:Ec;
    [| discriminate].
  destruct (fuel_usage_ok fs fl current_lap prev_lap_ Hok) as (Hok1 & Hl & Hn).
  destruct (fuel_usage fs fl current_lap prev_lap_) as [used fs1'].
  cbn [snd] in *. cbv zeta. intros [= <- <- <-].
  cbn [fuel_level_out usedLastLap perLapAvg estimatedLapsRemaining].
  split; [exact Hok1|]. split; [exact Hl|]. split.
  { revert Ec. unfold fuel_check.
    destruct (Qltb fuel_level_raw (5 # 10) && is_on_track).
    - destruct (last_fuel_level fs); [intros [= <-]; reflexivity | discriminate].
    - intros [= <-]. reflexivity. }
  split; [reflexivity|].
  split; [apply py_round_nonneg, fuel_per_lap_avg_nonneg, Hok1|].
  split; [apply py_round_nonneg, estimated_laps_remaining_nonneg|].
  split.
  - intros ->. apply (py_round_inject_Z 0). unfold estimated_laps_remaining.
    cbn [fuel_per_lap_avg]. destruct fl as [fl |]; [| reflexivity].
    replace (Qltb 0 0) with false by reflexivity. rewrite andb_false_r.
    reflexivity.
  - intros ->. specialize (Hn eq_refl). injection Hn as -> ->.
    split; [reflexivity|].
    split; apply (py_round_inject_Z 0); reflexivity.
Qed.

(** What [read_telemetry] does with the fuel attributes when it returns
    a dictionary. *)
Lemma read_telemetry_fuel self fs ir sv t fuel self' fs' :
  read_telemetry self fs ir sv = (Some (t, fuel), self', fs') ->
  exists fuel_level fs1,
    fuel_block fs (_safe_get (FuelLevel sv) 0%Q)
      (_safe_get (IsOnTrack sv) false) (_safe_get (Lap ir) 0) (prev_lap self)
    = Some (fuel_level, fuel, fs1)
    /\ fs' = mkFuelState (fuel_used_history fs1) fuel_level (lap_start_fuel fs1).
Proof.
  unfold read_telemetry.
  destruct (negb (connected self) || negb (is_connected ir));
    [discriminate|]. cbv zeta.
  destruct (index_or _ _ 0) as [position |]; [| discriminate].
  destruct (index_or _ _ 0) as [cp |]; [| discriminate].
  destruct (if _ : bool then _ else true); [| discriminate].
  match goal with
  | |- context [fuel_block fs ?a ?b ?c ?p] =>
      replace p with (prev_lap self)
        by (destruct (str_contains "Qualify" _); reflexivity);
      destruct (fuel_block fs a b c (prev_lap self))
        as [[[fl fi] fs1] |]; [| discriminate]
  end.
  intros H. inversion H; subst; clear H. exists fl, fs1. split; reflexivity.
Qed.

Lemma read_telemetry_fails_on_low_fuel self fs ir sv :
  last_fuel_level fs = None -> low_fuel_on_track sv = true ->
  (read_telemetry self fs ir sv).1.1 = None
  /\ (read_telemetry self fs ir sv).2 = fs.
Proof.
  intros Hl Hlow. unfold read_telemetry.
  destruct (negb (connected self) || negb (is_connected ir));
    [split; reflexivity|]. cbv zeta.
  destruct (index_or _ _ 0) as [position |]; [| split; reflexivity].
  destruct (index_or _ _ 0) as [cp |]; [| split; reflexivity].
  destruct (if _ : bool then _ else true); [| split; reflexivity].
  unfold fuel_block, fuel_check. unfold low_fuel_on_track in Hlow.
  rewrite Hlow, Hl. split; reflexivity.
Qed.

Lemma read_telemetry_fuel_ok self fs ir sv :
  fuel_ok fs -> fuel_ok (read_telemetry self fs ir sv).2.
Proof.
  intros Hok.
  destruct (read_telemetry self fs ir sv) as [[[[t fuel] |] self'] fs'] eqn:E.
  - destruct (read_telemetry_fuel _ _ _ _ _ _ _ _ E) as (fl & fs1 & Hb & ->).
    destruct (fuel_block_ok _ _ _ _ _ _ _ _ Hok Hb) as (Hok1 & _).
    exact Hok1.
  - revert E. unfold read_telemetry.
    destruct (negb (connected self) || negb (is_connected ir));
      [intros H; inversion H; subst; exact Hok|]. cbv zeta.
    destruct (index_or _ _ 0) as [position |]; [| intros H; inversion H; subst; exact Hok].
    destruct (index_or _ _ 0) as [cp |]; [| intros H; inversion H; subst; exact Hok].
    destruct (if _ : bool then _ else true); [| intros H; inversion H; subst; exact Hok].
    destruct (fuel_block _ _ _ _ _) as [[[fl fi] fs1] |];
      [discriminate | intros H; inversion H; subst; exact Hok].
Qed.

(** The fuel history never holds more than [FUEL_HISTORY_SIZE] entries
    and only positive amounts, from a new service on and whatever the
    frames are.  So whenever [read_telemetry] returns a dictionary its
    average consumption and its estimate of the laps left are never
    negative, and the estimate is 0 while the history is empty.  A fuel
    level below 0.5 l on track is reported as no value, with no fuel
    used and no estimate, leaves history and lap start fuel alone, and
    is remembered as a missing last fuel level. *)
Theorem fuel_bookkeeping :
  fuel_ok fuel_init /\
  (forall self fs ir sv,
      fuel_ok fs -> fuel_ok (read_telemetry self fs ir sv).2) /\
  (forall self fs ir sv t fuel self' fs',
      fuel_ok fs ->
      read_telemetry self fs ir sv = (Some (t, fuel), self', fs') ->
      (0 <= perLapAvg fuel)%Q
      /\ (0 <= estimatedLapsRemaining fuel)%Q
      /\ (fuel_used_history fs' = [] -> estimatedLapsRemaining fuel == 0)%Q
      /\ (low_fuel_on_track sv = false ->
          fuel_level_out fuel = Some (py_round (_safe_get (FuelLevel sv) 0%Q) 2)
          /\ last_fuel_level fs' = Some (_safe_get (FuelLevel sv) 0%Q))
      /\ (low_fuel_on_track sv = true ->
          fuel_level_out fuel = None
          /\ (usedLastLap fuel == 0)%Q
          /\ (estimatedLapsRemaining fuel == 0)%Q
          /\ fs' = mkFuelState (fuel_used_history fs) None (lap_start_fuel fs))).
Proof.
  split; [split; [cbn; unfold FUEL_HISTORY_SIZE; lia | constructor]|].
  split; [exact read_telemetry_fuel_ok|].
  intros self fs ir sv t fuel self' fs' Hok E.
  destruct (read_telemetry_fuel _ _ _ _ _ _ _ _ E) as (fl & fs1 & Hb & ->).
  destruct (fuel_block_ok _ _ _ _ _ _ _ _ Hok Hb)
    as (Hok1 & Hl & Hfl & Hout & Havg & Hest & Hempty & Hnone).
  cbn [fuel_used_history last_fuel_level lap_start_fuel].
  split; [exact Havg|]. split; [exact Hest|]. split; [exact Hempty|].
  unfold low_fuel_on_track. split; intros Hlow; rewrite Hlow in Hfl; subst fl.
  - split; [exact Hout | reflexivity].
  - destruct (Hnone eq_refl) as (-> & Hu & He).
    split; [exact Hout|]. split; [exact Hu|]. split; [exact He|]. reflexivity.
Qed.

Lemma read_run_fails_on_low_fuel frames : forall self fs,
  last_fuel_level fs = None ->
  Forall (fun f : Frame * FrameSession => low_fuel_on_track f.2 = true) frames ->
  Forall (fun r => r = None) (read_run self fs frames).1.1
  /\ (read_run self fs frames).2 = fs.
Proof.
  induction frames as [| [ir sv] rest IH]; intros self fs Hl Hf;
    [split; [constructor | reflexivity]|].
  inversion Hf as [| ? ? Hlow Hrest]; subst. cbn [snd] in Hlow.
  cbn [read_run].
  destruct (read_telemetry_fails_on_low_fuel self fs ir sv Hl Hlow)
    as [Hnone Hfs].
  destruct (read_telemetry self fs ir sv) as [[data self1] fs1].
  cbn [fst snd] in Hnone, Hfs. subst data fs1.
  destruct (IH self1 fs Hl Hrest) as [Hall Hfs'].
  destruct (read_run self1 fs rest) as [[later self2] fs2].
  cbn [fst snd] in *. split; [constructor; [reflexivity | exact Hall]|].
  exact Hfs'.
Qed.

(** Once [read_telemetry] has returned a dictionary for a frame with
    less than 0.5 l of fuel on track, it returns [None] for every
    further such frame that follows directly: the missing last fuel
    level makes the sanity check raise, and the attribute is not
    repaired before a frame with a valid fuel level arrives. *)
Theorem low_fuel_frames_fail (self : IRacingTelemetryService) (fs : FuelState)
    (ir : Frame) (sv : FrameSession) (data : Telemetry * FuelInfo)
    (self1 : IRacingTelemetryService) (fs1 : FuelState)
    (frames : list (Frame * FrameSession)) :
  read_telemetry self fs ir sv = (Some data, self1, fs1) ->
  low_fuel_on_track sv = true ->
  Forall (fun f : Frame * FrameSession => low_fuel_on_track f.2 = true) frames ->
  Forall (fun r => r = None) (read_run self1 fs1 frames).1.1
  /\ (read_run self1 fs1 frames).2 = fs1.
Proof.
  intros E Hlow Hf. destruct data as [t fuel].
  destruct (read_telemetry_fuel _ _ _ _ _ _ _ _ E) as (fl & fs0 & Hb & Hfs).
  apply read_run_fails_on_low_fuel; [| exact Hf].
  subst fs1. cbn [last_fuel_level].
  revert Hb. unfold fuel_block, fuel_check. unfold low_fuel_on_track in Hlow.
  rewrite Hlow. destruct (last_fuel_level fs); [| discriminate].
  destruct (fuel_usage fs None _ _). intros [= <- _ _]. reflexivity.
Qed.

Lemma low_fuel_frames_fail_witness :
  let self := set_connected true service_init in
  let sv := mkFrameSession (Some [4]) (Some [4]) None (Some 0) (Some 0)
              (Some 100%Q) (Some [Some "Race"%string]) (Some 0%Q)
              (Some true) in
  let ir := frame_on_track 1 0 in
  exists data self1 fs1,
    read_telemetry self fuel_init ir sv = (Some data, self1, fs1)
    /\ Forall (fun r => r = None)
         (read_run self1 fs1 [(ir, sv); (ir, sv)]).1.1.
Proof.
  intros self sv ir.
  destruct (read_telemetry self fuel_init ir sv) as [[[data |] self1] fs1] eqn:E;
    [| exfalso; vm_compute in E; discriminate].
  exists data, self1, fs1. split; [reflexivity|].
  assert (Hlow : low_fuel_on_track sv = true) by reflexivity.
  assert (Hf : Forall (fun f : Frame * FrameSession =>
                         low_fuel_on_track f.2 = true) [(ir, sv); (ir, sv)])
    by (repeat constructor).
  exact (proj1 (low_fuel_frames_fail self fuel_init ir sv data self1 fs1
                  [(ir, sv); (ir, sv)] E Hlow Hf)).
Defined.

Lemma fuel_bookkeeping_witness :
  let self := update_tracking 3 0 4 false 0 4 (set_connected true service_init) in
  let fs := mkFuelState [] (Some 40%Q) 40%Q in
  let sv := mkFrameSession (Some [4]) (Some [4]) None (Some 0) (Some 0)
              (Some 100%Q) (Some [Some "Race"%string]) (Some (375 # 10)%Q)
              (Some true) in
  exists t fuel self' fs',
    read_telemetry self fs (frame_on_track 4 0) sv = (Some (t, fuel), self', fs')
    /\ fuel_used_history fs' = [(40 - (375 # 10))%Q]
    /\ (0 <= perLapAvg fuel)%Q.
Proof.
  intros self fs sv.
  destruct (read_telemetry self fs (frame_on_track 4 0) sv)
    as [[[[t fuel] |] self'] fs'] eqn:E;
    [| exfalso; vm_compute in E; discriminate].
  exists t, fuel, self', fs'. split; [reflexivity|].
  assert (Hh : fuel_used_history fs' = [(40 - (375 # 10))%Q]).
  { assert (E' : (read_telemetry self fs (frame_on_track 4 0) sv).2 = fs')
      by (rewrite E; reflexivity).
    rewrite <- E'. reflexivity. }
  split; [exact Hh|].
  assert (Hok : fuel_ok fs) by (split; [cbn; lia | constructor]).
  destruct fuel_bookkeeping as (_ & _ & H).
  exact (proj1 (H self fs (frame_on_track 4 0) sv t fuel self' fs' Hok E)).
Defined.

(* ================================================================== *)
(** * The lap capture over many ticks *)

Lemma storage_ok_frame s s' :
  laps s' = laps s -> max_laps s' = max_laps s ->
  storage_ok s -> storage_ok s'.
Proof.
  unfold storage_ok, all_laps_valid. intros -> ->. tauto.
Qed.

Lemma complete_lap_storage_ok s uuid time_ms lap_time track car :
  uuid <> ""%string -> storage_ok s ->
  storage_ok (IRacing.complete_lap s uuid time_ms lap_time track car).2
  /\ forall lap,
       (IRacing.complete_lap s uuid time_ms lap_time track car).1 = Some lap ->
       lap_valid lap.
Proof.
  intros Hne Hok.
  destruct (IRacing.complete_lap s uuid time_ms lap_time track car)
    as [[lap |] s'] eqn:E.
  - destruct Hok as (Hmax & Hkeys & Hlen & Hvalid).
    destruct (complete_lap_Some_inv _ _ _ _ _ _ _ _ E) as (Hrec & Hn & H1 & H2).
    pose proof (complete_lap_bound s uuid time_ms lap_time track car lap s'
                  ltac:(rewrite Hmax; unfold MAX_STORED_LAPS; lia) Hkeys Hne E)
      as Hbound.
    pose proof (exec_iracing_valid s
                  (call_complete_lap uuid time_ms lap_time track car) Hvalid)
      as Hv. cbn [exec_iracing] in Hv. rewrite E in Hv. cbn [snd] in Hv.
    destruct (complete_lap_stores s uuid time_ms lap_time track car
                Hrec Hn H1 H2) as (lap0 & s0 & E0 & Hlap & _).
    rewrite E in E0. injection E0 as <- <-.
    assert (Hm : max_laps s' = max_laps s /\ keys_ok (laps s')).
    { revert E. unfold IRacing.complete_lap.
      destruct (negb (recording_active s) || _); [discriminate|].
      destruct (Qltb lap_time 10 || Qltb 1200 lap_time); [discriminate|].
      intros [= _ <-]. cbn.
      destruct (update_session_best_keys s
                  (lt_pyfloat lap_time (session_best_time s)) uuid lap_time
                  Hkeys) as [Hk Hm'].
      unfold IRacing._enforce_limit.
      match goal with
      | |- context [IRacing.enforce_limit_loop ?f ?s2] =>
          destruct (enforce_limit_loop_best f s2) as (_ & _ & Hm2);
          pose proof (enforce_limit_loop_keys f s2) as Hk2
      end.
      rewrite Hm2. cbn in Hk2 |- *. split; [exact Hm'|].
      apply Hk2, keys_ok_set; assumption. }
    destruct Hm as [Hm Hk].
    split.
    + cbn [snd]. split; [rewrite Hm; exact Hmax|]. split; [exact Hk|].
      split; [| exact Hv]. rewrite Hm, Hmax in Hbound. exact Hbound.
    + intros lap' [= <-]. subst lap. unfold lap_valid. cbn.
      split; [| split].
      * rewrite ?length_map. exact Hn.
      * apply (py_round_ge 10), H1.
      * apply (py_round_le 1200), H2.
  - split; [| discriminate]. cbn [snd]. revert E Hok.
    unfold IRacing.complete_lap.
    destruct (negb (recording_active s) || _).
    { intros [= <-]. apply storage_ok_frame; reflexivity. }
    destruct (Qltb lap_time 10 || Qltb 1200 lap_time); [| discriminate].
    intros [= <-]. apply storage_ok_frame; reflexivity.
Qed.

Lemma save_pending_lap_storage_ok s uuid time_ms lap_time :
  uuid <> ""%string -> storage_ok s ->
  storage_ok (IRacing.save_pending_lap s uuid time_ms lap_time).2
  /\ forall lap,
       (IRacing.save_pending_lap s uuid time_ms lap_time).1 = Some lap ->
       lap_valid lap.
Proof.
  intros Hne Hok.
  destruct (IRacing.save_pending_lap s uuid time_ms lap_time)
    as [[lap |] s'] eqn:E.
  - destruct Hok as (Hmax & Hkeys & Hlen & Hvalid).
    destruct (save_pending_lap_Some_inv _ _ _ _ _ _ E) as (Hn & H1 & H2).
    pose proof (save_pending_lap_bound s uuid time_ms lap_time lap s'
                  ltac:(rewrite Hmax; unfold MAX_STORED_LAPS; lia) Hkeys Hne E)
      as Hbound.
    pose proof (exec_iracing_valid s
                  (call_save_pending_lap uuid time_ms lap_time) Hvalid)
      as Hv. cbn [exec_iracing] in Hv. rewrite E in Hv. cbn [snd] in Hv.
    destruct (save_pending_lap_stores s uuid time_ms lap_time Hn H1 H2)
      as (lap0 & s0 & E0 & _ & Hpts & _ & Htime & _).
    rewrite E in E0. injection E0 as <- <-.
    assert (Hm : max_laps s' = max_laps s /\ keys_ok (laps s')).
    { revert E. unfold IRacing.save_pending_lap.
      destruct ((length (pending_lap_points s) =? 0)%nat || _); [discriminate|].
      destruct (Qltb lap_time 10 || Qltb 1200 lap_time); [discriminate|].
      intros [= _ <-]. cbn.
      destruct (update_session_best_keys s
                  (lt_pyfloat lap_time (session_best_time s)) uuid lap_time
                  Hkeys) as [Hk Hm'].
      unfold IRacing._enforce_limit.
      match goal with
      | |- context [IRacing.enforce_limit_loop ?f ?s2] =>
          destruct (enforce_limit_loop_best f s2) as (_ & _ & Hm2);
          pose proof (enforce_limit_loop_keys f s2) as Hk2
      end.
      rewrite Hm2. cbn in Hk2 |- *. split; [exact Hm'|].
      apply Hk2, keys_ok_set; assumption. }
    destruct Hm as [Hm Hk].
    split.
    + cbn [snd]. split; [rewrite Hm; exact Hmax|]. split; [exact Hk|].
      split; [| exact Hv]. rewrite Hm, Hmax in Hbound. exact Hbound.
    + intros lap' [= <-]. unfold lap_valid. rewrite Hpts, Htime.
      split; [exact Hn|]. split.
      * apply (py_round_ge 10), H1.
      * apply (py_round_le 1200), H2.
  - split; [| discriminate]. cbn [snd]. revert E Hok.
    unfold IRacing.save_pending_lap.
    destruct ((length (pending_lap_points s) =? 0)%nat || _).
    { intros [= <-]. apply storage_ok_frame; reflexivity. }
    destruct (Qltb lap_time 10 || Qltb 1200 lap_time); [| discriminate].
    intros [= <-]. apply storage_ok_frame; reflexivity.
Qed.

Lemma resolve_pending_storage_ok s now last_lap_time uuid time_ms :
  uuid <> ""%string -> storage_ok s ->
  storage_ok (resolve_pending s now last_lap_time uuid time_ms).2
  /\ forall lap,
       (resolve_pending s now last_lap_time uuid time_ms).1 = Some lap ->
       lap_valid lap.
Proof.
  intros Hne Hok. unfold resolve_pending.
  destruct (0 <? length (pending_lap_points s))%nat;
    [| split; [exact Hok | discriminate]].
  destruct (Qltb 10 (now - pending_lap_created_at s)).
  { split; [| discriminate]. revert Hok. apply storage_ok_frame; reflexivity. }
  destruct (Qltb 0 last_lap_time); [| split; [exact Hok | discriminate]].
  apply save_pending_lap_storage_ok; assumption.
Qed.

Lemma on_lap_change_storage_ok self ir now player_idx current_lap
    last_lap_time uuid time_ms :
  uuid <> ""%string -> storage_ok (lap_storage self) ->
  storage_ok (lap_storage
                (on_lap_change self ir now player_idx current_lap
                   last_lap_time uuid time_ms).2)
  /\ forall lap,
       (on_lap_change self ir now player_idx current_lap last_lap_time
          uuid time_ms).1 = Some lap ->
       lap_valid lap.
Proof.
  intros Hne Hok. unfold on_lap_change. cbv zeta.
  change (lap_storage (set_prev_lap_for_capture current_lap self))
    with (lap_storage self).
  destruct (Qltb 0 last_lap_time).
  - destruct (complete_lap_storage_ok (lap_storage self) uuid time_ms
                last_lap_time (lap_track_name ir) (lap_car_name ir player_idx)
                Hne Hok) as [H1 H2].
    destruct (IRacing.complete_lap _ _ _ _ _ _) as [r s1]. cbn [fst snd] in *.
    split; [| exact H2]. revert H1. apply storage_ok_frame; reflexivity.
  - destruct (MIN_LAP_POINTS <? _)%nat; cbn [fst snd];
      (split; [| discriminate]); revert Hok;
      apply storage_ok_frame; reflexivity.
Qed.

Lemma capture_storage_ok self ir now uuid time_ms :
  uuid <> ""%string -> storage_ok (lap_storage self) ->
  storage_ok (lap_storage (capture_lap_telemetry self ir now uuid time_ms).2)
  /\ forall lap,
       (capture_lap_telemetry self ir now uuid time_ms).1 = Some lap ->
       lap_valid lap.
Proof.
  intros Hne Hok. unfold capture_lap_telemetry.
  destruct (negb (connected self) || negb (is_connected ir));
    [split; [exact Hok | discriminate]|].
  destruct (Qltb (now - last_lap_capture_time self) LAP_CAPTURE_INTERVAL);
    [split; [exact Hok | discriminate]|].
  cbv zeta.
  change (lap_storage (set_last_lap_capture_time now self))
    with (lap_storage self).
  destruct (resolve_pending_storage_ok (lap_storage self) now
              (_safe_get (LapLastLapTime ir) 0%Q) uuid time_ms Hne Hok)
    as [H1 H2].
  destruct (resolve_pending _ _ _ _ _) as [[lap |] storage]; cbn [fst snd] in *.
  { split; [exact H1 | intros lap' [= <-]; apply H2; reflexivity]. }
  set (self2 := set_lap_storage storage (set_last_lap_capture_time now self)).
  assert (Hok2 : storage_ok (lap_storage self2)) by exact H1.
  destruct ((prev_lap_for_capture self2 <? _safe_get (Lap ir) 0)
            && (0 <? prev_lap_for_capture self2)).
  { apply on_lap_change_storage_ok; assumption. }
  set (self3 := if (0 <? _safe_get (Lap ir) 0)
                   && (prev_lap_for_capture self2 =? 0)
                then _ else self2).
  assert (Hok3 : storage_ok (lap_storage self3)).
  { subst self3. destruct (_ && _); [| exact Hok2].
    revert Hok2. apply storage_ok_frame; reflexivity. }
  destruct (if _ : bool then py_index _ _ else Some (-1)) as [surface |];
    [| split; [exact Hok3 | discriminate]].
  destruct (negb _); [split; [exact Hok3 | discriminate]|].
  destruct (recording_active (lap_storage self3));
    [| split; [exact Hok3 | discriminate]].
  split; [| discriminate]. cbn [snd lap_storage set_lap_storage].
  revert Hok3. unfold IRacing.add_point.
  destruct (negb _); [tauto|]. destruct (_ || _); [| tauto].
  apply storage_ok_frame; reflexivity.
Qed.

Lemma service_init_storage_ok : storage_ok (lap_storage service_init).
Proof.
  split; [reflexivity|]. split.
  - split; [constructor | intros k []].
  - split; [cbn; unfold MAX_STORED_LAPS; lia | constructor].
Qed.

(** Whatever frames the capture loop sees, the service never holds more
    than [MAX_STORED_LAPS] (10) laps, every lap it holds and every lap
    [capture_lap_telemetry] returns has at least 100 points and a lap
    time within [10, 1200] seconds, and the stored identifiers are
    distinct (the identifiers handed out being non-empty). *)
Theorem capture_keeps_storage (self : IRacingTelemetryService)
    (ticks : list CaptureTick) :
  storage_ok (lap_storage self) ->
  Forall (fun k => cap_uuid k <> ""%string) ticks ->
  storage_ok (lap_storage (capture_run self ticks).2)
  /\ Forall lap_valid (capture_run self ticks).1.
Proof.
  revert self. induction ticks as [| k rest IH]; intros self Hok Hu;
    [split; [exact Hok | constructor]|].
  inversion Hu as [| ? ? Hk Hrest]; subst. cbn [capture_run].
  destruct (capture_storage_ok self (cap_frame k) (cap_now k) (cap_uuid k)
              (cap_time_ms k) Hk Hok) as [H1 H2].
  destruct (capture_lap_telemetry self (cap_frame k) (cap_now k) (cap_uuid k)
              (cap_time_ms k)) as [completed_lap self1]. cbn [fst snd] in *.
  destruct (IH self1 H1 Hrest) as [H3 H4].
  destruct (capture_run self1 rest) as [later self2]. cbn [fst snd] in *.
  split; [exact H3|].
  destruct completed_lap as [lap |]; [| exact H4].
  constructor; [apply H2; reflexivity | exact H4].
Qed.

Lemma capture_keeps_storage_witness :
  let ticks := [mkCaptureTick (frame_on_track 2 (882 # 10))
                  (1700000100 + (5 # 100)) "8b71e4d2" 1700000100050] in
  length (capture_run service_with_pending ticks).1 = 1%nat
  /\ Forall lap_valid (capture_run service_with_pending ticks).1.
Proof.
  intros ticks.
  assert (E : length (capture_run service_with_pending ticks).1 = 1%nat)
    by (vm_compute; reflexivity).
  split; [exact E|].
  assert (El : laps (lap_storage service_with_pending) = [])
    by (vm_compute; reflexivity).
  assert (Em : max_laps (lap_storage service_with_pending) = MAX_STORED_LAPS)
    by (vm_compute; reflexivity).
  assert (Hok : storage_ok (lap_storage service_with_pending)).
  { unfold storage_ok, all_laps_valid. rewrite El.
    split; [exact Em|]. split; [split; [constructor | intros k []]|].
    split; [cbn; unfold MAX_STORED_LAPS; lia | constructor]. }
  assert (Hu : Forall (fun k => cap_uuid k <> ""%string) ticks)
    by (repeat constructor; discriminate).
  exact (proj2 (capture_keeps_storage service_with_pending ticks Hok Hu)).
Defined.

(* ================================================================== *)
(** * Commands sent to the simulator *)

Lemma pit_mode_known command mode :
  dict_get command PIT_COMMAND_MODES = Some mode ->
  0 <= mode <= 11 /\ (mode = 2 -> command = "fuel"%string).
Proof.
  unfold PIT_COMMAND_MODES. cbn [dict_get].
  repeat match goal with
         | |- context [String.eqb command ?k] =>
             destruct (String.eqb_spec command k) as [-> | _];
             [intros [= <-]; split; [lia | intros; try reflexivity; lia] |]
         end.
  discriminate.
Qed.

(** [pit_command] calls the SDK only when the service is connected and
    the session active, with the mode the table gives for the command
    (a mode from 0 to 11) and the value unchanged; the fuel mode is
    never sent with an amount outside 0..999.  It reports success
    exactly when the call was made and did not raise.
    [chat_command_macro] calls the SDK only when connected, with a macro
    number from 1 to 15; it does not ask for an active session. *)
Theorem commands_are_validated (self : IRacingTelemetryService) (ir : Frame) :
  (forall command value sdk_raises mode v,
      (pit_command self ir command value sdk_raises).2 = Some (mode, v) ->
      connected self = true /\ is_connected ir = true
      /\ is_session_active self ir = true
      /\ dict_get command PIT_COMMAND_MODES = Some mode
      /\ v = value /\ 0 <= mode <= 11
      /\ (mode = 2 -> 0 <= v <= 999)) /\
  (forall command value sdk_raises,
      (pit_command self ir command value sdk_raises).1
      = pit_success command value
      <-> sdk_raises = false
          /\ exists mode,
               (pit_command self ir command value sdk_raises).2
               = Some (mode, value)) /\
  (forall macro_num sdk_raises n,
      (chat_command_macro self ir macro_num sdk_raises).2 = Some n ->
      connected self = true /\ is_connected ir = true
      /\ n = macro_num /\ 1 <= n <= 15) /\
  (forall macro_num,
      connected self = true -> is_connected ir = true ->
      1 <= macro_num <= 15 ->
      chat_command_macro self ir macro_num false
      = (chat_success macro_num, Some macro_num)).
Proof.
  split; [| split; [| split]].
  - intros command value sdk_raises mode v. unfold pit_command.
    destruct (connected self); [| discriminate].
    destruct (is_connected ir); [| discriminate]. cbn [negb orb].
    destruct (is_session_active _ ir); [| discriminate]. cbn [negb].
    destruct (dict_mem command PIT_COMMAND_MODES); [| discriminate].
    cbn [negb].
    destruct (String.eqb_spec command "fuel") as [Ef | Ef]; cbn [andb].
    + destruct ((value <? 0) || (999 <? value)) eqn:Er; [discriminate|].
      apply orb_false_iff in Er as [E1 E2].
      apply Z.ltb_ge in E1, E2.
      destruct (dict_get command PIT_COMMAND_MODES) as [m |] eqn:Em;
        [| discriminate].
      destruct (pit_mode_known _ _ Em) as [Hm _].
      destruct sdk_raises; intros [= <- <-];
        (split; [reflexivity|]; split; [reflexivity|]; split; [reflexivity|];
         split; [reflexivity|]; split; [reflexivity|]; split; [exact Hm|];
         intros _; lia).
    + destruct (dict_get command PIT_COMMAND_MODES) as [m |] eqn:Em;
        [| discriminate].
      destruct (pit_mode_known _ _ Em) as [Hm Hf].
      destruct sdk_raises; intros [= <- <-];
        (split; [reflexivity|]; split; [reflexivity|]; split; [reflexivity|];
         split; [reflexivity|]; split; [reflexivity|]; split; [exact Hm|];
         intros H2; exfalso; apply Ef, Hf, H2).
  - intros command value sdk_raises. unfold pit_command.
    destruct (negb (connected self) || negb (is_connected ir));
      [split; [discriminate | intros [_ [m Hm]]; discriminate]|].
    destruct (negb (is_session_active self ir));
      [split; [discriminate | intros [_ [m Hm]]; discriminate]|].
    destruct (negb (dict_mem command PIT_COMMAND_MODES));
      [split; [discriminate | intros [_ [m Hm]]; discriminate]|].
    destruct (String.eqb command "fuel" && _);
      [split; [discriminate | intros [_ [m Hm]]; discriminate]|].
    destruct (dict_get command PIT_COMMAND_MODES) as [m |];
      [| split; [discriminate | intros [_ [m Hm]]; discriminate]].
    destruct sdk_raises; cbn [fst snd].
    + split; [discriminate | intros [H _]; discriminate].
    + split; [intros _; split; [reflexivity | exists m; reflexivity]
             | reflexivity].
  - intros macro_num sdk_raises n. unfold chat_command_macro.
    destruct (connected self); [| discriminate].
    destruct (is_connected ir); [| discriminate]. cbn [negb orb].
    destruct ((macro_num <? 1) || (15 <? macro_num)) eqn:Er; [discriminate|].
    apply orb_false_iff in Er as [E1 E2]. apply Z.ltb_ge in E1, E2.
    destruct sdk_raises; intros [= <-];
      (split; [reflexivity|]; split; [reflexivity|]; split; [reflexivity|];
       lia).
  - intros macro_num Hc Hi Hr. unfold chat_command_macro.
    rewrite Hc, Hi. cbn [negb orb].
    replace ((macro_num <? 1) || (15 <? macro_num)) with false; [reflexivity|].
    symmetry. apply orb_false_iff. split; apply Z.ltb_ge; lia.
Qed.

Lemma commands_are_validated_witness :
  let self := set_connected true service_init in
  (pit_command self (frame_on_track 4 0) "fuel" 45 false).2 = Some (2, 45)
  /\ 0 <= 45 <= 999
  /\ (pit_command self (frame_on_track 4 0) "fuel" 1000 false).2 = None.
Proof.
  intros self.
  assert (E : (pit_command self (frame_on_track 4 0) "fuel" 45 false).2
              = Some (2, 45)) by (vm_compute; reflexivity).
  split; [exact E|].
  destruct (commands_are_validated self (frame_on_track 4 0)) as (H & _).
  destruct (H "fuel"%string 45 false 2 45 E) as (_ & _ & _ & _ & _ & _ & Hf).
  split; [exact (Hf eq_refl) | vm_compute; reflexivity].
Defined.

(* ================================================================== *)
(** * Track wetness of the LMU adapter *)

(** [_map_wetness] yields a code from 0 to 6 for every float and never
    goes down as the wetness grows, with the thresholds inclusive on the
    side of the lower code.  The code is 0 exactly for a wetness of at
    most 0, and 6 exactly for a wetness above 0.75 and for NaN, which
    fails every comparison and falls through to the last branch.  Every
    code has a name in the table, so the wetness name of a frame is never
    "unknown". *)
Theorem wetness_code_named (w w' : float) :
  0 <= _map_wetness w <= 6
  /\ (float_leb w w' = true -> _map_wetness w <= _map_wetness w')
  /\ (_map_wetness w = 0 <-> float_leb w (Finite 0) = true)
  /\ (_map_wetness w = 6 <->
      float_ltb (Finite (75 # 100)) w = true \/ w = NaN)
  /\ table_get (_map_wetness w) LMU_TRACK_WETNESS_NAMES
     = Some (_get_wetness_name (_map_wetness w))
  /\ _get_wetness_name (_map_wetness w) <> "unknown"%string.
Proof.
  assert (Hq : forall q : Q,
    (0 <= _map_wetness q <= 6)
    /\ (_map_wetness q = 0 <-> (q <= 0)%Q)
    /\ (_map_wetness q = 1 -> (q <= 5 # 100)%Q)
    /\ (_map_wetness q = 2 -> (5 # 100 < q)%Q /\ (q <= 15 # 100)%Q)
    /\ (_map_wetness q = 3 -> (15 # 100 < q)%Q /\ (q <= 30 # 100)%Q)
    /\ (_map_wetness q = 4 -> (30 # 100 < q)%Q /\ (q <= 50 # 100)%Q)
    /\ (_map_wetness q = 5 -> (50 # 100 < q)%Q /\ (q <= 75 # 100)%Q)
    /\ (_map_wetness q = 6 <-> (75 # 100 < q)%Q)
    /\ (_map_wetness q = 1 <-> (0 < q)%Q /\ (q <= 5 # 100)%Q)).
  { intros q. unfold _map_wetness. cbn [float_leb].
    destruct (Qleb q 0) eqn:A0; destruct (Qleb q (5 # 100)) eqn:A1;
      destruct (Qleb q (15 # 100)) eqn:A2; destruct (Qleb q (30 # 100)) eqn:A3;
      destruct (Qleb q (50 # 100)) eqn:A4; destruct (Qleb q (75 # 100)) eqn:A5;
      rewrite ?Qleb_le, ?Qleb_gt in *.
    all: try (exfalso; lra).
    all: repeat split; try lia; try discriminate;
      intros; try lia; try lra; try discriminate. }
  assert (Hrange : forall x : float, 0 <= _map_wetness x <= 6).
  { intros [q | | |]; [apply Hq | | |]; cbn; lia. }
  split; [apply Hrange|]. split.
  { pose proof (Hrange w) as Rw. pose proof (Hrange w') as Rw'.
    destruct w as [q | | |], w' as [q' | | |]; cbn [float_leb];
      try discriminate; intros H;
      try (change (_map_wetness PlusInf) with 6 in *);
      try (change (_map_wetness MinusInf) with 0 in *); try lia.
    - apply Qleb_le in H. unfold _map_wetness. cbn [float_leb].
      destruct (Qleb q 0) eqn:A0; destruct (Qleb q (5 # 100)) eqn:A1;
        destruct (Qleb q (15 # 100)) eqn:A2;
        destruct (Qleb q (30 # 100)) eqn:A3;
        destruct (Qleb q (50 # 100)) eqn:A4;
        destruct (Qleb q (75 # 100)) eqn:A5;
        rewrite ?Qleb_le, ?Qleb_gt in *.
      all: try (exfalso; lra).
      all: destruct (Qleb q' 0) eqn:B0; destruct (Qleb q' (5 # 100)) eqn:B1;
        destruct (Qleb q' (15 # 100)) eqn:B2;
        destruct (Qleb q' (30 # 100)) eqn:B3;
        destruct (Qleb q' (50 # 100)) eqn:B4;
        destruct (Qleb q' (75 # 100)) eqn:B5;
        rewrite ?Qleb_le, ?Qleb_gt in *.
      all: try lia; exfalso; lra. }
  split.
  { destruct w as [q | | |]; cbn [float_leb].
    - destruct (Hq q) as (_ & Z0 & _). rewrite Z0.
      symmetry. apply Qleb_le.
    - split; discriminate.
    - split; reflexivity.
    - split; discriminate. }
  split.
  { destruct w as [q | | |]; cbn [float_ltb].
    - destruct (Hq q) as (_ & _ & _ & _ & _ & _ & _ & Z6 & _). rewrite Z6.
      rewrite Qltb_lt. split; [auto | intros [H | H]; [exact H | discriminate]].
    - split; [auto | reflexivity].
    - split; [discriminate | intros [H | H]; discriminate].
    - split; [auto | reflexivity]. }
  unfold _get_wetness_name.
  assert (C : _map_wetness w = 0 \/ _map_wetness w = 1
              \/ _map_wetness w = 2 \/ _map_wetness w = 3
              \/ _map_wetness w = 4 \/ _map_wetness w = 5
              \/ _map_wetness w = 6) by (pose proof (Hrange w); lia).
  destruct C as [C | [C | [C | [C | [C | [C | C]]]]]]; rewrite C;
    split; (reflexivity || discriminate).
Qed.

Lemma wetness_code_named_witness :
  _map_wetness (15 # 100) = 2
  /\ _map_wetness (15 # 100) <= _map_wetness (1 # 2)
  /\ _map_wetness NaN = 6.
Proof.
  split; [reflexivity|].
  destruct (wetness_code_named (15 # 100)%Q (1 # 2)%Q) as (_ & H & _).
  split; [apply H; reflexivity|].
  destruct (wetness_code_named NaN NaN) as (_ & _ & _ & H6 & _).
  apply H6. right. reflexivity.
Defined.

(* ================================================================== *)
(** * Disconnecting and connecting again *)

Lemma detect_events_announces self t ir now current_time :
  session_joined_sent self = false ->
  exists rest,
    (detect_events self (Some t) ir now current_time).1
    = session_joined (session_type t) (position_overall t) :: rest.
Proof.
  intros Hs. unfold detect_events. cbv zeta. rewrite Hs.
  rewrite orb_true_r.
  set (self1 := set_session_joined_sent _ _).
  destruct (spotter_enabled self1 t ir); [| eexists; reflexivity].
  destruct (_update_spotter_state self1 now (_detect_proximity ir))
    as [[call |] self2]; [| eexists; reflexivity].
  destruct (str_truthy call && _); eexists; reflexivity.
Qed.

(** [disconnect] keeps the lap storage as it is (stored laps, session
    best, live buffer and pending lap) and puts the fuel attributes back
    to their initial values, so that a discarded fuel reading no longer
    makes the fuel check raise.  When the service is connected again, the
    first [detect_events] that is given a dictionary announces the
    session with session_joined as its first event, even if the session
    number is the one announced before; and the first capture tick that
    sees a lap number (with no lap pending) starts recording that lap
    anew: it returns no lap, stores none, and the samples buffered before
    the disconnect are dropped. *)
Theorem disconnect_and_reconnect (self : IRacingTelemetryService)
    (fs : FuelState) :
  let self' := connect (disconnect self fs).1 in
  let fs' := (disconnect self fs).2 in
  lap_storage self' = lap_storage self
  /\ connected (disconnect self fs).1 = false
  /\ (forall fuel_level_raw is_on_track,
        fuel_check fs' fuel_level_raw is_on_track <> None)
  /\ (forall t ir now current_time,
        exists rest,
          (detect_events self' (Some t) ir now current_time).1
          = session_joined (session_type t) (position_overall t) :: rest)
  /\ (forall ir now uuid time_ms,
        is_connected ir = true ->
        (LAP_CAPTURE_INTERVAL <= now - last_lap_capture_time self)%Q ->
        pending_lap_points (lap_storage self) = [] ->
        0 < _safe_get (Lap ir) 0 ->
        let r := capture_lap_telemetry self' ir now uuid time_ms in
        r.1 = None
        /\ laps (lap_storage r.2) = laps (lap_storage self)
        /\ recording_active (lap_storage r.2) = true
        /\ current_lap_number (lap_storage r.2) = _safe_get (Lap ir) 0
        /\ prev_lap_for_capture r.2 = _safe_get (Lap ir) 0
        /\ (current_lap_points (lap_storage r.2) = []
            \/ current_lap_points (lap_storage r.2)
               = [read_point ir (_safe_get (LapDistPct ir) 0%Q)])).
Proof.
  cbv zeta. split; [reflexivity|]. split; [reflexivity|]. split.
  { intros raw on. unfold fuel_check. cbn.
    destruct (Qltb raw (5 # 10) && on); discriminate. }
  split.
  { intros t ir now current_time. apply detect_events_announces. reflexivity. }
  intros ir now uuid time_ms Hi Hrate Hpend Hlap.
  unfold capture_lap_telemetry.
  change (connected (connect (disconnect self fs).1)) with true.
  rewrite Hi. cbn [negb orb].
  change (last_lap_capture_time (connect (disconnect self fs).1))
    with (last_lap_capture_time self).
  replace (Qltb (now - last_lap_capture_time self) LAP_CAPTURE_INTERVAL)
    with false
    by (symmetry; apply not_true_is_false; intros H; apply Qltb_lt in H;
        apply (Qlt_not_le _ _ H), Hrate).
  cbv zeta.
  change (lap_storage (set_last_lap_capture_time now
                         (connect (disconnect self fs).1)))
    with (lap_storage self).
  unfold resolve_pending. rewrite Hpend. cbn [length Nat.ltb Nat.leb].
  set (self2 := set_lap_storage (lap_storage self) _).
  change (prev_lap_for_capture self2) with 0.
  rewrite Z.ltb_irrefl, andb_false_r.
  replace (0 <? _safe_get (Lap ir) 0) with true
    by (symmetry; apply Z.ltb_lt, Hlap).
  rewrite Z.eqb_refl. cbn [andb].
  set (self3 := set_prev_lap_for_capture _ _).
  destruct (if _ : bool then py_index _ _ else Some (-1)) as [surface |];
    [| cbn; repeat split; auto].
  destruct (negb _); [cbn; repeat split; auto|].
  change (recording_active (lap_storage self3)) with true. cbn [fst snd].
  unfold IRacing.add_point.
  change (recording_active (lap_storage self3)) with true. cbn [negb].
  destruct (_ || _); cbn; repeat split; auto.
Qed.

Lemma disconnect_and_reconnect_witness :
  let self := service_on_lap_1 50 in
  let r := capture_lap_telemetry (connect (disconnect self fuel_init).1)
             (frame_on_track 1 0) 1700000200 "3f2a9c10" 1700000200000 in
  length (current_lap_points (lap_storage self)) = 50%nat
  /\ recording_active (lap_storage r.2) = true
  /\ (length (current_lap_points (lap_storage r.2)) <= 1)%nat.
Proof.
  intros self r.
  assert (E : length (current_lap_points (lap_storage self)) = 50%nat)
    by (vm_compute; reflexivity).
  split; [exact E|].
  assert (Hi : is_connected (frame_on_track 1 0) = true) by reflexivity.
  assert (Hrate : (LAP_CAPTURE_INTERVAL
                   <= 1700000200 - last_lap_capture_time self)%Q)
    by (vm_compute; discriminate).
  assert (Hpend : pending_lap_points (lap_storage self) = [])
    by (vm_compute; reflexivity).
  assert (Hlap : 0 < _safe_get (Lap (frame_on_track 1 0)) 0) by reflexivity.
  destruct (disconnect_and_reconnect self fuel_init) as (_ & _ & _ & _ & H).
  destruct (H (frame_on_track 1 0) 1700000200%Q "3f2a9c10"%string
              1700000200000 Hi Hrate Hpend Hlap)
    as (_ & _ & Hrec & _ & _ & Hpts).
  split; [exact Hrec|].
  subst r. destruct Hpts as [-> | ->]; cbn; lia.
Defined.

(* ------------------------------------------------------------------ *)
(** ** Lap times that are numbers

    On a lap time that is a number the storage on floats does what
    module [IRacing] does. *)

Lemma laps_to_float_get k d :
  dict_get k (laps_to_float d) = option_map lap_to_float (dict_get k d).
Proof.
  unfold laps_to_float.
  induction d as [| [k' l] r IH]; cbn; [reflexivity|].
  destruct (String.eqb k k'); [reflexivity | exact IH].
Qed.

Lemma laps_to_float_mem k d :
  dict_mem k (laps_to_float d) = dict_mem k d.
Proof.
  unfold dict_mem. rewrite laps_to_float_get.
  destruct (dict_get k d); reflexivity.
Qed.

Lemma laps_to_float_set k l d :
  dict_set k (lap_to_float l) (laps_to_float d)
  = laps_to_float (dict_set k l d).
Proof.
  unfold laps_to_float.
  induction d as [| [k' l'] r IH]; cbn; [reflexivity|].
  destruct (String.eqb k k'); cbn; [reflexivity|]. now rewrite IH.
Qed.

Lemma laps_to_float_del k d :
  dict_del k (laps_to_float d) = laps_to_float (dict_del k d).
Proof.
  unfold laps_to_float.
  induction d as [| [k' l'] r IH]; cbn; [reflexivity|].
  destruct (String.eqb k k'); cbn; [reflexivity|]. now rewrite IH.
Qed.

Lemma laps_to_float_unflag k d :
  dict_alter (FloatStorage.set_isSessionBest false) k (laps_to_float d)
  = laps_to_float (dict_alter (set_isSessionBest false) k d).
Proof.
  unfold laps_to_float.
  induction d as [| [k' l'] r IH]; cbn; [reflexivity|].
  destruct (String.eqb k k'); cbn; [reflexivity|]. now rewrite IH.
Qed.

Lemma laps_to_float_length d : length (laps_to_float d) = length d.
Proof. apply length_map. Qed.

Lemma find_oldest_to_float best d : forall oid ot,
  FloatStorage.find_oldest best (laps_to_float d) oid ot
  = IRacing.find_oldest best d oid ot.
Proof.
  unfold laps_to_float.
  induction d as [| [k l] r IH]; intros oid ot; cbn; [reflexivity|].
  rewrite !IH. reflexivity.
Qed.

Lemma enforce_limit_loop_to_float fuel : forall self,
  FloatStorage.enforce_limit_loop fuel (storage_to_float self)
  = storage_to_float (IRacing.enforce_limit_loop fuel self).
Proof.
  induction fuel as [| fuel IH]; intros self; cbn; [reflexivity|].
  rewrite laps_to_float_length, find_oldest_to_float.
  destruct (max_laps self <? Z.of_nat (length (laps self))); [| reflexivity].
  destruct (IRacing.find_oldest _ _ _ _) as [[k |] ot]; cbn; [| reflexivity].
  destruct (str_truthy k); [| reflexivity].
  rewrite <- IH. unfold storage_to_float, FloatStorage.set_laps. cbn.
  rewrite laps_to_float_del. reflexivity.
Qed.

Lemma update_session_best_to_float self b k (q : Q) :
  FloatStorage.update_session_best (storage_to_float self) b k (Finite q)
  = storage_to_float (IRacing.update_session_best self b k q).
Proof.
  unfold FloatStorage.update_session_best, IRacing.update_session_best.
  destruct b; [| reflexivity]. cbn.
  destruct (session_best_id self) as [bid |]; [| reflexivity].
  rewrite laps_to_float_mem.
  destruct (str_truthy bid && dict_mem bid (laps self)); [| reflexivity].
  unfold storage_to_float. cbn. rewrite laps_to_float_unflag. reflexivity.
Qed.

Lemma lt_to_float (q : Q) best :
  float_ltb (Finite q) (float_of_pyfloat best) = lt_pyfloat q best.
Proof. destruct best; reflexivity. Qed.

Lemma delta_to_best_to_float (q : Q) best :
  FloatStorage.delta_to_best (Finite q) (float_of_pyfloat best)
  = Finite (IRacing.delta_to_best q best).
Proof. destruct best; reflexivity. Qed.

(** [complete_lap] and [save_pending_lap] on floats, called with a lap
    time that is a number on a storage of numbers, return the lap and
    leave the storage that module [IRacing] computes. *)
Lemma complete_lap_to_float self uuid time_ms (q : Q) track car :
  FloatStorage.complete_lap (storage_to_float self) uuid time_ms (Finite q)
    track car
  = (option_map lap_to_float
       (IRacing.complete_lap self uuid time_ms q track car).1,
     storage_to_float (IRacing.complete_lap self uuid time_ms q track car).2).
Proof.
  unfold FloatStorage.complete_lap, IRacing.complete_lap.
  cbn [FloatStorage.recording_active FloatStorage.current_lap_points
       FloatStorage.session_best_time FloatStorage.current_lap_number
       storage_to_float].
  rewrite lt_to_float, delta_to_best_to_float.
  change (float_ltb (Finite q) (Finite 10)) with (Qltb q 10).
  change (float_ltb (Finite 1200) (Finite q)) with (Qltb 1200 q).
  destruct (negb (recording_active self)
            || (length (current_lap_points self) <? 100)%nat);
    [reflexivity|].
  destruct (Qltb q 10 || Qltb 1200 q); [reflexivity|].
  cbv zeta. cbn [fst snd option_map].
  change (FloatStorage.mkStorage (max_laps self) (laps_to_float (laps self))
            (session_best_id self) (float_of_pyfloat (session_best_time self))
            (current_lap_points self) (current_lap_number self)
            (recording_active self) (last_capture_time self)
            (last_distance_pct self) (pending_lap_points self)
            (pending_lap_number self) (pending_lap_track self)
            (pending_lap_car self) (pending_lap_created_at self))
    with (storage_to_float self).
  rewrite update_session_best_to_float.
  set (s1 := IRacing.update_session_best self _ uuid q).
  set (lap := mkLap uuid _ _ _ _ _ _ _ _).
  change (FloatStorage.mkLap uuid (current_lap_number self)
            (float_round (Finite q) 3) (lt_pyfloat q (session_best_time self))
            track car time_ms (map asdict (current_lap_points self))
            (Finite (IRacing.delta_to_best q (session_best_time self))))
    with (lap_to_float lap).
  assert (H2 : FloatStorage.set_laps
                 (dict_set uuid (lap_to_float lap)
                    (FloatStorage.laps (storage_to_float s1)))
                 (storage_to_float s1)
               = storage_to_float (set_laps (dict_set uuid lap (laps s1)) s1)).
  { unfold storage_to_float, FloatStorage.set_laps. cbn.
    rewrite laps_to_float_set. reflexivity. }
  rewrite H2. unfold FloatStorage._enforce_limit, IRacing._enforce_limit.
  cbn [FloatStorage.laps storage_to_float].
  rewrite laps_to_float_length.
  change (FloatStorage.mkStorage
            (max_laps (set_laps (dict_set uuid lap (laps s1)) s1))
            (laps_to_float (laps (set_laps (dict_set uuid lap (laps s1)) s1)))
            _ _ _ _ _ _ _ _ _ _ _ _)
    with (storage_to_float (set_laps (dict_set uuid lap (laps s1)) s1)).
  rewrite enforce_limit_loop_to_float. reflexivity.
Qed.

Lemma save_pending_lap_to_float self uuid time_ms (q : Q) :
  FloatStorage.save_pending_lap (storage_to_float self) uuid time_ms (Finite q)
  = (option_map lap_to_float
       (IRacing.save_pending_lap self uuid time_ms q).1,
     storage_to_float (IRacing.save_pending_lap self uuid time_ms q).2).
Proof.
  unfold FloatStorage.save_pending_lap, IRacing.save_pending_lap.
  cbn [FloatStorage.pending_lap_points FloatStorage.pending_lap_number
       FloatStorage.pending_lap_track FloatStorage.pending_lap_car
       FloatStorage.session_best_time storage_to_float].
  rewrite lt_to_float, delta_to_best_to_float.
  change (float_ltb (Finite q) (Finite 10)) with (Qltb q 10).
  change (float_ltb (Finite 1200) (Finite q)) with (Qltb 1200 q).
  destruct ((length (pending_lap_points self) =? 0)%nat
            || (length (pending_lap_points self) <? 100)%nat);
    [reflexivity|].
  destruct (Qltb q 10 || Qltb 1200 q); [reflexivity|].
  cbv zeta. cbn [fst snd option_map].
  change (FloatStorage.mkStorage (max_laps self) (laps_to_float (laps self))
            (session_best_id self) (float_of_pyfloat (session_best_time self))
            (current_lap_points self) (current_lap_number self)
            (recording_active self) (last_capture_time self)
            (last_distance_pct self) (pending_lap_points self)
            (pending_lap_number self) (pending_lap_track self)
            (pending_lap_car self) (pending_lap_created_at self))
    with (storage_to_float self).
  rewrite update_session_best_to_float.
  set (s1 := IRacing.update_session_best self _ uuid q).
  set (lap := mkLap uuid _ _ _ _ _ _ _ _).
  change (FloatStorage.mkLap uuid (pending_lap_number self)
            (float_round (Finite q) 3) (lt_pyfloat q (session_best_time self))
            (pending_lap_track self) (pending_lap_car self) time_ms
            (map asdict (pending_lap_points self))
            (Finite (IRacing.delta_to_best q (session_best_time self))))
    with (lap_to_float lap).
  set (s3 := set_pending_lap_car ""
               (set_pending_lap_track ""
                  (set_pending_lap_number 0
                     (set_pending_lap_points []
                        (set_laps (dict_set uuid lap (laps s1)) s1))))).
  assert (H3 : FloatStorage.set_pending_lap_car ""
                 (FloatStorage.set_pending_lap_track ""
                    (FloatStorage.set_pending_lap_number 0
                       (FloatStorage.set_pending_lap_points []
                          (FloatStorage.set_laps
                             (dict_set uuid (lap_to_float lap)
                                (FloatStorage.laps (storage_to_float s1)))
                             (storage_to_float s1)))))
               = storage_to_float s3).
  { unfold storage_to_float, s3. cbn. rewrite laps_to_float_set. reflexivity. }
  rewrite H3. unfold FloatStorage._enforce_limit, IRacing._enforce_limit.
  replace (length (FloatStorage.laps (storage_to_float s3)))
    with (length (laps s3)) by (cbn; now rewrite laps_to_float_length).
  rewrite enforce_limit_loop_to_float. reflexivity.
Qed.
